(** * Spreadsheet converters: a shallow embedding

    The repository holds a family of stand-alone Node scripts that read product
    rows from a spreadsheet and re-emit them in a fixed column layout:

    - [conversor-simples.js]            (module [Simples]);
    - [conversor-final-corrigido.js]    (module [V1]);
    - [conversor-final-corrigido-v2.js] (module [V2]).

    The two "final" scripts share, character for character, the helpers
    [normalizar], [encontrarColuna], [obterValorSeguro], [estaVazio] and
    [parseNumero]; they are embedded once, in module [Corrigido].

    Module [JS] models the part of the JavaScript runtime the scripts rely on:
    strings as sequences of UTF-16 code units, the primitive values found in
    spreadsheet cells, objects as ordered key/value lists, exceptions and
    console output. *)

From Stdlib Require Import String Ascii.
From Stdlib Require Import List Sorted NArith ZArith QArith Bool Lia.
Import ListNotations.
Close Scope Q_scope.
Local Open Scope list_scope.

(* ================================================================== *)
(** * The JavaScript runtime *)
(* ================================================================== *)

Module JS.

(** ** Strings *)

(** A string is a sequence of UTF-16 code units; [length] is the JavaScript
    [.length]. *)
Definition jsstring := list N.

Definition emit_code_point (cp : N) : jsstring :=
  if (cp <? 65536)%N then [cp]
  else [(55296 + (cp - 65536) / 1024)%N; (56320 + (cp - 65536) mod 1024)%N].

(** Source literals are written in this file as UTF-8 text and decoded to code
    units by [js]. *)
Fixpoint utf16_of_utf8 (pending : nat) (acc : N) (bs : list N) : jsstring :=
  match bs with
  | [] => []
  | b :: rest =>
      if (b <? 128)%N then b :: utf16_of_utf8 0 0%N rest
      else if (b <? 192)%N then
        let acc' := (acc * 64 + (b - 128))%N in
        match pending with
        | 0%nat => utf16_of_utf8 0 0%N rest
        | 1%nat => emit_code_point acc' ++ utf16_of_utf8 0 0%N rest
        | S p => utf16_of_utf8 p acc' rest
        end
      else if (b <? 224)%N then utf16_of_utf8 1 (b - 192)%N rest
      else if (b <? 240)%N then utf16_of_utf8 2 (b - 224)%N rest
      else utf16_of_utf8 3 (b - 240)%N rest
  end.

Definition js (s : string) : jsstring :=
  utf16_of_utf8 0 0%N (map N_of_ascii (list_ascii_of_string s)).

Fixpoint str_eqb (s t : jsstring) : bool :=
  match s, t with
  | [], [] => true
  | a :: s', b :: t' => (a =? b)%N && str_eqb s' t'
  | _, _ => false
  end.

Fixpoint starts_with (p s : jsstring) : bool :=
  match p, s with
  | [], _ => true
  | a :: p', b :: s' => (a =? b)%N && starts_with p' s'
  | _ :: _, [] => false
  end.

(** [String.prototype.includes]. *)
Fixpoint includes (s needle : jsstring) : bool :=
  starts_with needle s ||
  match s with
  | [] => false
  | _ :: s' => includes s' needle
  end.

(** WhiteSpace and LineTerminator code units, the set removed by
    [String.prototype.trim] and skipped by [Number(...)]. *)
Definition is_space (c : N) : bool :=
  ((9 <=? c) && (c <=? 13) || (c =? 32) || (c =? 160) || (c =? 5760)
   || (8192 <=? c) && (c <=? 8202) || (c =? 8232) || (c =? 8233)
   || (c =? 8239) || (c =? 8287) || (c =? 12288) || (c =? 65279))%N.

Fixpoint trimStart (s : jsstring) : jsstring :=
  match s with
  | c :: s' => if is_space c then trimStart s' else s
  | [] => []
  end.

Definition trimEnd (s : jsstring) : jsstring := rev (trimStart (rev s)).

(** [String.prototype.trim]. *)
Definition trim (s : jsstring) : jsstring := trimEnd (trimStart s).

(** [s.split(sep)] for a separator of one code unit; the result is never
    empty. *)
Fixpoint split (sep : N) (s : jsstring) : list jsstring :=
  match s with
  | [] => [[]]
  | c :: s' =>
      if (c =? sep)%N then [] :: split sep s'
      else match split sep s' with
           | [] => [[c]]
           | p :: ps => (c :: p) :: ps
           end
  end.

(** [parts.join(sep)] on an array of strings. *)
Fixpoint join (sep : jsstring) (parts : list jsstring) : jsstring :=
  match parts with
  | [] => []
  | [p] => p
  | p :: ps => p ++ sep ++ join sep ps
  end.

(** [s.replace(/c/g, '')]. *)
Definition remove_all (c : N) (s : jsstring) : jsstring :=
  filter (fun x => negb (x =? c)%N) s.

(** [s.replace(c, d)] with one-unit strings: only the first match changes. *)
Fixpoint replace_first (c d : N) (s : jsstring) : jsstring :=
  match s with
  | [] => []
  | x :: s' => if (x =? c)%N then d :: s' else x :: replace_first c d s'
  end.

(** [/[a-zA-Z]/.test(s)]. *)
Definition is_ascii_letter (c : N) : bool :=
  ((65 <=? c) && (c <=? 90) || (97 <=? c) && (c <=? 122))%N.

Definition test_letter (s : jsstring) : bool := existsb is_ascii_letter s.

(** Decimal digits of a non-negative integer, as [String(n)] prints them. *)
Definition digit_unit (d : N) : N := (48 + d)%N.

Fixpoint digits_of_pos_fuel (fuel : nat) (n : N) (acc : jsstring) : jsstring :=
  match fuel with
  | O => acc
  | S f =>
      let acc' := digit_unit (n mod 10) :: acc in
      if (n / 10 =? 0)%N then acc' else digits_of_pos_fuel f (n / 10) acc'
  end.

Definition string_of_N (n : N) : jsstring :=
  digits_of_pos_fuel (S (N.to_nat (N.log2 n))) n [].

Definition string_of_nat (n : nat) : jsstring := string_of_N (N.of_nat n).

(** ** Numbers

    A number is NaN, an infinity, or a finite value, given by the rational it
    is equal to.  The numbers of the language are the binary64 floats:
    [binary64], below, rounds a real to them, and [StringToNumber] applies it
    to the mathematical value of a literal.  The two zeros are not told
    apart; no operation of the converters does. *)
Inductive number :=
  | NaN
  | Infinity (negative : bool)
  | Finite (q : Q).

Definition isNaN (n : number) : bool :=
  match n with NaN => true | _ => false end.

Definition number_of_nat (n : nat) : number := Finite (inject_Z (Z.of_nat n)).

Definition is_digit (c : N) : bool := ((48 <=? c) && (c <=? 57))%N.

Fixpoint span_digits (s : jsstring) : jsstring * jsstring :=
  match s with
  | c :: s' =>
      if is_digit c then let (d, r) := span_digits s' in (c :: d, r)
      else ([], s)
  | [] => ([], [])
  end.

(** Value of a digit string in a base; each unit is mapped to its digit. *)
Definition digits_value (base : N) (digit : N -> N) (ds : jsstring) : N :=
  fold_left (fun acc c => (acc * base + digit c)%N) ds 0%N.

Definition decimal_digit (c : N) : N := (c - 48)%N.

(** [m * 10^e] as an exact rational in lowest terms. *)
Definition scale10 (m : Z) (e : Z) : Q :=
  if (0 <=? e)%Z then inject_Z (m * 10 ^ e)
  else Qred (Qmake m (Z.to_pos (10 ^ (- e)))).

Definition is_nil {A} (l : list A) : bool :=
  match l with [] => true | _ => false end.

(** ExponentPart, or nothing; the whole rest of the literal must be consumed. *)
Definition parse_exponent (s : jsstring) : option Z :=
  match s with
  | [] => Some 0%Z
  | c :: r =>
      if ((c =? 101) || (c =? 69))%N then
        let neg := starts_with [45%N] r in
        let r' := if starts_with [43%N] r || neg then tl r else r in
        let (ds, rest) := span_digits r' in
        if is_nil ds || negb (is_nil rest) then None
        else
          let v := Z.of_N (digits_value 10 decimal_digit ds) in
          Some (if neg then (- v)%Z else v)
      else None
  end.

(** StrUnsignedDecimalLiteral. *)
Definition parse_unsigned_decimal (s : jsstring) : option number :=
  if str_eqb s (js "Infinity") then Some (Infinity false)
  else
    let (ip, r1) := span_digits s in
    if starts_with [46%N] r1 then
      let (fp, r3) := span_digits (tl r1) in
      if is_nil ip && is_nil fp then None
      else
        match parse_exponent r3 with
        | Some e =>
            Some (Finite (scale10 (Z.of_N (digits_value 10 decimal_digit (ip ++ fp)))
                                  (e - Z.of_nat (length fp))))
        | None => None
        end
    else
      if is_nil ip then None
      else
        match parse_exponent r1 with
        | Some e =>
            Some (Finite (scale10 (Z.of_N (digits_value 10 decimal_digit ip)) e))
        | None => None
        end.

Definition negate (n : number) : number :=
  match n with
  | NaN => NaN
  | Infinity b => Infinity (negb b)
  | Finite q => Finite (Qopp q)
  end.

(** StrDecimalLiteral: an optional sign, then the unsigned literal. *)
Definition parse_decimal (s : jsstring) : option number :=
  if starts_with [43%N] s then parse_unsigned_decimal (tl s)
  else if starts_with [45%N] s
       then option_map negate (parse_unsigned_decimal (tl s))
       else parse_unsigned_decimal s.

Definition hex_digit (c : N) : option N :=
  if is_digit c then Some (c - 48)%N
  else if ((97 <=? c) && (c <=? 102))%N then Some (c - 87)%N
  else if ((65 <=? c) && (c <=? 70))%N then Some (c - 55)%N
  else None.

Definition digit_in_base (base : N) (c : N) : bool :=
  match hex_digit c with
  | Some d => (d <? base)%N
  | None => false
  end.

Definition hex_value (c : N) : N :=
  match hex_digit c with Some d => d | None => 0%N end.

(** NonDecimalIntegerLiteral: [0x], [0o] and [0b] prefixes, no sign. *)
Definition parse_non_decimal (s : jsstring) : option number :=
  match s with
  | z :: p :: ds =>
      let base :=
        if negb (z =? 48)%N then None
        else if ((p =? 120) || (p =? 88))%N then Some 16%N
        else if ((p =? 111) || (p =? 79))%N then Some 8%N
        else if ((p =? 98) || (p =? 66))%N then Some 2%N
        else None in
      match base with
      | Some b =>
          if negb (is_nil ds) && forallb (digit_in_base b) ds
          then Some (Finite (inject_Z (Z.of_N (digits_value b hex_value ds))))
          else None
      | None => None
      end
  | _ => None
  end.

(** *** The Number value of a real

    The float nearest to the real, the one with an even significand when two
    floats are as near, and an infinity when that float would be 2^1024 or
    more: round to nearest, ties to even, on 53 bits of significand with
    exponents from -1074 to 971. *)

(** The integer nearest to [n / d], the even one of two that are as near. *)
Definition round_half_even (n : Z) (d : positive) : Z :=
  let q := (n / Zpos d)%Z in
  match (2 * (n mod Zpos d) ?= Zpos d)%Z with
  | Lt => q
  | Eq => if Z.even q then q else (q + 1)%Z
  | Gt => (q + 1)%Z
  end.

(** The integer [k] with [2^k <= n / d < 2^(k+1)]. *)
Definition floor_log2 (n d : positive) : Z :=
  let k := (Z.log2 (Zpos n) - Z.log2 (Zpos d))%Z in
  if (0 <=? k)%Z
  then if (Z.shiftl (Zpos d) k <=? Zpos n)%Z then k else (k - 1)%Z
  else if (Zpos d <=? Z.shiftl (Zpos n) (- k))%Z then k else (k - 1)%Z.

(** The float nearest to [n / d], as [m * 2^e] with [m <= 2^53]; [None] when
    it is out of range. *)
Definition binary64_magnitude (n d : positive) : option Q :=
  let e := Z.max (floor_log2 n d - 52) (-1074) in
  let m :=
    if (0 <=? e)%Z
    then round_half_even (Zpos n) (Pos.shiftl d (Z.to_N e))
    else round_half_even (Z.shiftl (Zpos n) (- e)) d in
  if (971 <? e)%Z || ((e =? 971)%Z && (m =? 9007199254740992)%Z) then None
  else
    Some (if (0 <=? e)%Z then inject_Z (Z.shiftl m e)
          else Qred (Qmake m (Z.to_pos (Z.shiftl 1 (- e))))).

Definition binary64 (q : Q) : number :=
  match Qnum q with
  | Z0 => Finite 0
  | Zpos n =>
      match binary64_magnitude n (Qden q) with
      | Some v => Finite v
      | None => Infinity false
      end
  | Zneg n =>
      match binary64_magnitude n (Qden q) with
      | Some v => Finite (Qopp v)
      | None => Infinity true
      end
  end.

(** The Number value of what a literal denotes. *)
Definition number_value (mv : number) : number :=
  match mv with
  | Finite q => binary64 q
  | _ => mv
  end.

(** [Number(s)] on a string: StringToNumber.  The literal is read by its
    mathematical value, which is then rounded. *)
Definition StringToNumber (s : jsstring) : number :=
  let t := trim s in
  if is_nil t then Finite 0
  else
    match parse_non_decimal t with
    | Some n => number_value n
    | None =>
        match parse_decimal t with
        | Some n => number_value n
        | None => NaN
        end
    end.

(** ** Values *)

(** The primitive values a spreadsheet cell or a converted field can hold. *)
Inductive value :=
  | VUndefined
  | VNull
  | VString (s : jsstring)
  | VNumber (n : number).

Inductive jstype := TUndefined | TObject | TString | TNumber.

Definition typeof (v : value) : jstype :=
  match v with
  | VUndefined => TUndefined
  | VNull => TObject
  | VString _ => TString
  | VNumber _ => TNumber
  end.

Definition is_string (v : value) : bool :=
  match typeof v with TString => true | _ => false end.

Definition is_undefined (v : value) : bool :=
  match v with VUndefined => true | _ => false end.

Definition is_null (v : value) : bool :=
  match v with VNull => true | _ => false end.

(** [v === ''] *)
Definition is_empty_string (v : value) : bool :=
  match v with VString [] => true | _ => false end.

(** ToBoolean. *)
Definition truthy (v : value) : bool :=
  match v with
  | VUndefined | VNull => false
  | VString s => negb (is_nil s)
  | VNumber NaN => false
  | VNumber (Infinity _) => true
  | VNumber (Finite q) => negb (Qeq_bool q 0)
  end.

(** The Unicode tables behind [normalize('NFD')] and [toLowerCase], and the
    printing of numbers, belong to the engine; the converters are verified for
    every choice of them. *)
Class Runtime := {
  normalizeNFD : jsstring -> jsstring;
  toLowerCase : jsstring -> jsstring;
  numberToString : number -> jsstring
}.

(** ToString, as applied by [String(v)] and by template literals. *)
Definition ToString `{Runtime} (v : value) : jsstring :=
  match v with
  | VUndefined => js "undefined"
  | VNull => js "null"
  | VString s => s
  | VNumber n => numberToString n
  end.

(** ** Objects *)

(** A plain object whose properties hold primitive values: its own enumerable
    string-keyed properties in the order [Object.keys] lists them. *)
Definition object := list (jsstring * value).

Definition keys (o : object) : list jsstring := map fst o.

Definition hasOwn (o : object) (k : jsstring) : bool :=
  existsb (str_eqb k) (keys o).

(** [o[k]] for an object without inherited data properties. *)
Fixpoint get (o : object) (k : jsstring) : value :=
  match o with
  | [] => VUndefined
  | (k', v) :: o' => if str_eqb k' k then v else get o' k
  end.

(** [o[k] = v]: the property is updated in place, or added last. *)
Fixpoint set (o : object) (k : jsstring) (v : value) : object :=
  match o with
  | [] => [(k, v)]
  | (k', v') :: o' =>
      if str_eqb k' k then (k', v) :: o' else (k', v') :: set o' k v
  end.

(** ** Exceptions and console output *)

Inductive exn :=
  | Error (message : jsstring)
  | TypeError (message : jsstring).

Definition message (e : exn) : jsstring :=
  match e with Error m | TypeError m => m end.

Inductive event :=
  | ConsoleLog (args : list jsstring)
  | ConsoleWarn (args : list jsstring)
  | ConsoleError (args : list jsstring)
  | StdoutWrite (text : jsstring).

Inductive outcome (A : Type) :=
  | Return (a : A)
  | Throw (e : exn).
Arguments Return {A} a.
Arguments Throw {A} e.

(** A computation ends normally or by an exception, and leaves the events it
    wrote. *)
Definition M (A : Type) : Type := outcome A * list event.

Definition ret {A} (a : A) : M A := (Return a, []).

Definition throw {A} (e : exn) : M A := (Throw e, []).

Definition bind {A B} (m : M A) (f : A -> M B) : M B :=
  match m with
  | (Return a, l) => let (r, l') := f a in (r, l ++ l')
  | (Throw e, l) => (Throw e, l)
  end.

Definition try_catch {A} (m : M A) (handler : exn -> M A) : M A :=
  match m with
  | (Throw e, l) => let (r, l') := handler e in (r, l ++ l')
  | (Return a, l) => (Return a, l)
  end.

Definition emit (e : event) : M unit := (Return tt, [e]).

Definition console_log (args : list jsstring) : M unit := emit (ConsoleLog args).
Definition console_warn (args : list jsstring) : M unit := emit (ConsoleWarn args).
Definition console_error (args : list jsstring) : M unit := emit (ConsoleError args).
Definition stdout_write (text : jsstring) : M unit := emit (StdoutWrite text).

(** ** Operations on values of unknown type

    A method call on a cell value fails with a TypeError unless the value is a
    string; reading [.length] fails only on [undefined] and [null]. *)
Definition call_trim (valor : value) : M jsstring :=
  match valor with
  | VString s => ret (trim s)
  | VNumber _ => throw (TypeError (js "valor.trim is not a function"))
  | _ => throw (TypeError (js "Cannot read properties of undefined (reading 'trim')"))
  end.

Definition call_includes (codigo : value) (needle : jsstring) : M bool :=
  match codigo with
  | VString s => ret (includes s needle)
  | VNumber _ => throw (TypeError (js "codigo.includes is not a function"))
  | _ => throw (TypeError (js "Cannot read properties of undefined (reading 'includes')"))
  end.

Definition call_split (codigo : value) (sep : N) : M (list jsstring) :=
  match codigo with
  | VString s => ret (split sep s)
  | VNumber _ => throw (TypeError (js "codigo.split is not a function"))
  | _ => throw (TypeError (js "Cannot read properties of undefined (reading 'split')"))
  end.

(** [valor.length]: [None] stands for [undefined]. *)
Definition get_length (valor : value) : M (option nat) :=
  match valor with
  | VString s => ret (Some (length s))
  | VNumber _ => ret None
  | _ => throw (TypeError (js "Cannot read properties of undefined (reading 'length')"))
  end.

(** [obj.hasOwnProperty(nome)]: the property [hasOwnProperty] is looked up on
    the object first, and a row that has a column of that name answers with
    the cell, which cannot be called. *)
Definition call_hasOwnProperty (obj : object) (nome : jsstring) : M bool :=
  if hasOwn obj (js "hasOwnProperty")
  then throw (TypeError (js "obj.hasOwnProperty is not a function"))
  else ret (hasOwn obj nome).

(** [arr.reduce(f)] without an initial value. *)
Definition reduce {A} (f : A -> A -> M A) (arr : list A) : M A :=
  match arr with
  | [] => throw (TypeError (js "Reduce of empty array with no initial value"))
  | x :: rest =>
      fold_left (fun acc atual => bind acc (fun max => f max atual)) rest (ret x)
  end.

End JS.

Declare Scope js_scope.
Delimit Scope js_scope with js.
Notation "x <- c ;; k" := (JS.bind c (fun x => k))
  (at level 61, c at next level, right associativity) : js_scope.
Notation "' pat <- c ;; k" := (JS.bind c (fun x => match x with pat => k end))
  (at level 61, pat pattern, c at next level, right associativity) : js_scope.
Notation "c ;;; k" := (JS.bind c (fun _ => k))
  (at level 61, right associativity) : js_scope.

(* ================================================================== *)
(** * The output layout *)
(* ================================================================== *)

Module Layout.
Import JS.

(** One converted product: the object literal returned by every
    [converterProduto], one field per output column, in source order. *)
Record produto := {
  ID : value;                              (* 'ID' *)
  Codigo : value;                          (* 'Código' *)
  Descricao : value;                       (* 'Descrição' *)
  Unidade : value;                         (* 'Unidade' *)
  NCM : value;                             (* 'NCM' *)
  Origem : value;                          (* 'Origem' *)
  Preco : value;                           (* 'Preço' *)
  ValorIPIFixo : value;                    (* 'Valor IPI fixo' *)
  Observacoes : value;                     (* 'Observações' *)
  Situacao : value;                        (* 'Situação' *)
  Estoque : value;                         (* 'Estoque' *)
  PrecoDeCusto : value;                    (* 'Preço de custo' *)
  CodNoFornecedor : value;                 (* 'Cód no fornecedor' *)
  Fornecedor : value;                      (* 'Fornecedor' *)
  Localizacao : value;                     (* 'Localização' *)
  EstoqueMaximo : value;                   (* 'Estoque maximo' *)
  EstoqueMinimo : value;                   (* 'Estoque minimo' *)
  PesoLiquido : value;                     (* 'Peso líquido (Kg)' *)
  PesoBruto : value;                       (* 'Peso bruto (Kg)' *)
  GTIN_EAN : value;                        (* 'GTIN/EAN' *)
  GTIN_EAN_DaEmbalagem : value;            (* 'GTIN/EAN da embalagem' *)
  LarguraDoProduto : value;                (* 'Largura do Produto' *)
  AlturaDoProduto : value;                 (* 'Altura do Produto' *)
  ProfundidadeDoProduto : value;           (* 'Profundidade do produto' *)
  DataValidade : value;                    (* 'Data Validade' *)
  DescricaoDoProdutoNoFornecedor : value;  (* 'Descrição do Produto no Fornecedor' *)
  DescricaoComplementar : value;           (* 'Descrição Complementar' *)
  ItensPorCaixa : value;                   (* 'Itens p/ caixa' *)
  ProdutoVariacao : value;                 (* 'Produto Variação' *)
  TipoProducao : value;                    (* 'Tipo Produção' *)
  ClasseDeEnquadramentoDoIPI : value;      (* 'Classe de enquadramento do IPI' *)
  CodigoDaListaDeServicos : value;         (* 'Código da lista de serviços' *)
  TipoDoItem : value;                      (* 'Tipo do item' *)
  GrupoDeTags : value;                     (* 'Grupo de Tags/Tags' *)
  Tributos : value;                        (* 'Tributos' *)
  CodigoPai : value;                       (* 'Código Pai' *)
  CodigoIntegracao : value;                (* 'Código Integração' *)
  GrupoDeProdutos : value;                 (* 'Grupo de produtos' *)
  Marca : value;                           (* 'Marca' *)
  CEST : value;                            (* 'CEST' *)
  Volumes : value;                         (* 'Volumes' *)
  DescricaoCurta : value;                  (* 'Descrição Curta' *)
  CrossDocking : value;                    (* 'Cross-Docking' *)
  URLImagensExternas : value;              (* 'URL Imagens Externas' *)
  LinkExterno : value;                     (* 'Link Externo' *)
  MesesGarantiaNoFornecedor : value;       (* 'Meses Garantia no Fornecedor' *)
  ClonarDadosDoPai : value;                (* 'Clonar dados do pai' *)
  CondicaoDoProduto : value;               (* 'Condição do produto' *)
  FreteGratis : value;                     (* 'Frete Grátis' *)
  NumeroFCI : value;                       (* 'Número FCI' *)
  Video : value;                           (* 'Vídeo' *)
  Departamento : value;                    (* 'Departamento' *)
  UnidadeDeMedida : value;                 (* 'Unidade de medida' *)
  PrecoDeCompra : value;                   (* 'Preço de compra' *)
  ValorBaseICMSSTParaRetencao : value;     (* 'Valor base ICMS ST para retenção' *)
  ValorICMSSTParaRetencao : value;         (* 'Valor ICMS ST para retenção' *)
  ValorICMSProprioDoSubstituto : value;    (* 'Valor ICMS próprio do substituto' *)
  CategoriaDoProduto : value;              (* 'Categoria do produto' *)
  InformacoesAdicionais : value            (* 'Informações Adicionais' *)
}.

(** [produtoNovo.ID = index + 1] *)
Definition set_ID (p : produto) (id : value) : produto :=
  {| ID := id;
     Codigo := Codigo p; Descricao := Descricao p; Unidade := Unidade p;
     NCM := NCM p; Origem := Origem p; Preco := Preco p;
     ValorIPIFixo := ValorIPIFixo p; Observacoes := Observacoes p;
     Situacao := Situacao p; Estoque := Estoque p;
     PrecoDeCusto := PrecoDeCusto p; CodNoFornecedor := CodNoFornecedor p;
     Fornecedor := Fornecedor p; Localizacao := Localizacao p;
     EstoqueMaximo := EstoqueMaximo p; EstoqueMinimo := EstoqueMinimo p;
     PesoLiquido := PesoLiquido p; PesoBruto := PesoBruto p;
     GTIN_EAN := GTIN_EAN p; GTIN_EAN_DaEmbalagem := GTIN_EAN_DaEmbalagem p;
     LarguraDoProduto := LarguraDoProduto p;
     AlturaDoProduto := AlturaDoProduto p;
     ProfundidadeDoProduto := ProfundidadeDoProduto p;
     DataValidade := DataValidade p;
     DescricaoDoProdutoNoFornecedor := DescricaoDoProdutoNoFornecedor p;
     DescricaoComplementar := DescricaoComplementar p;
     ItensPorCaixa := ItensPorCaixa p; ProdutoVariacao := ProdutoVariacao p;
     TipoProducao := TipoProducao p;
     ClasseDeEnquadramentoDoIPI := ClasseDeEnquadramentoDoIPI p;
     CodigoDaListaDeServicos := CodigoDaListaDeServicos p;
     TipoDoItem := TipoDoItem p; GrupoDeTags := GrupoDeTags p;
     Tributos := Tributos p; CodigoPai := CodigoPai p;
     CodigoIntegracao := CodigoIntegracao p;
     GrupoDeProdutos := GrupoDeProdutos p; Marca := Marca p; CEST := CEST p;
     Volumes := Volumes p; DescricaoCurta := DescricaoCurta p;
     CrossDocking := CrossDocking p;
     URLImagensExternas := URLImagensExternas p;
     LinkExterno := LinkExterno p;
     MesesGarantiaNoFornecedor := MesesGarantiaNoFornecedor p;
     ClonarDadosDoPai := ClonarDadosDoPai p;
     CondicaoDoProduto := CondicaoDoProduto p; FreteGratis := FreteGratis p;
     NumeroFCI := NumeroFCI p; Video := Video p;
     Departamento := Departamento p; UnidadeDeMedida := UnidadeDeMedida p;
     PrecoDeCompra := PrecoDeCompra p;
     ValorBaseICMSSTParaRetencao := ValorBaseICMSSTParaRetencao p;
     ValorICMSSTParaRetencao := ValorICMSSTParaRetencao p;
     ValorICMSProprioDoSubstituto := ValorICMSProprioDoSubstituto p;
     CategoriaDoProduto := CategoriaDoProduto p;
     InformacoesAdicionais := InformacoesAdicionais p |}.

(** An element of the array the sheet reader returns: a row object, or
    anything else the converters' guards test for. *)
Inductive entry :=
  | Row (r : object)
  | NotAnObject (v : value).

End Layout.

(* ================================================================== *)
(** * Helpers shared by conversor-final-corrigido.js and -v2.js *)
(* ================================================================== *)

Module Corrigido.
Import JS Layout.
Local Open Scope js_scope.

Section Helpers.
Context `{Runtime}.

(** The combining diacritical marks, U+0300 to U+036F. *)
Definition is_combining_mark (c : N) : bool := ((768 <=? c) && (c <=? 879))%N.

(** [function normalizar(texto)] *)
Definition normalizar (texto : jsstring) : jsstring :=
  if is_nil texto then []
  else
    trim (toLowerCase
            (filter (fun c => negb (is_combining_mark c)) (normalizeNFD texto))).

(** [arr.findIndex(p)]: the index of the first match, or -1. *)
Fixpoint findIndex {A} (p : A -> bool) (arr : list A) : Z :=
  match arr with
  | [] => (-1)%Z
  | x :: rest =>
      if p x then 0%Z
      else let i := findIndex p rest in
           if (i <? 0)%Z then (-1)%Z else (i + 1)%Z
  end.

(** First loop of [encontrarColuna]: exact match, candidates in order. *)
Fixpoint encontrarColuna_exata (obj : object) (possiveisNomes : list jsstring)
  : M (option jsstring) :=
  match possiveisNomes with
  | [] => ret None
  | nome :: resto =>
      tem <- call_hasOwnProperty obj nome ;;
      if tem then ret (Some nome) else encontrarColuna_exata obj resto
  end.

(** Second loop of [encontrarColuna]: the keys in order, compared after
    normalisation. *)
Fixpoint encontrarColuna_normalizada (normalizados todasChaves : list jsstring)
  : option jsstring :=
  match todasChaves with
  | [] => None
  | chave :: resto =>
      let chaveNormalizada := normalizar chave in
      let indice := findIndex (fun n => str_eqb n chaveNormalizada) normalizados in
      if (0 <=? indice)%Z then Some chave
      else encontrarColuna_normalizada normalizados resto
  end.

(** [function encontrarColuna(obj, possiveisNomes)]; [None] is [null].  The
    entry guard is met by typing: [obj] is an object and [possiveisNomes] an
    array. *)
Definition encontrarColuna (obj : object) (possiveisNomes : list jsstring)
  : M (option jsstring) :=
  exata <- encontrarColuna_exata obj possiveisNomes ;;
  match exata with
  | Some nome => ret (Some nome)
  | None =>
      let normalizados := map normalizar possiveisNomes in
      let todasChaves := keys obj in
      ret (encontrarColuna_normalizada normalizados todasChaves)
  end.

(** The second argument of [obterValorSeguro]: one name or an array. *)
Inductive nomes :=
  | UmNome (nome : jsstring)
  | VariosNomes (lista : list jsstring).

(** [typeof valor === 'string' && valor.trim() === ''] *)
Definition string_em_branco (valor : value) : M bool :=
  if is_string valor then
    t <- call_trim valor ;; ret (str_eqb t [])
  else ret false.

(** [function obterValorSeguro(obj, possiveisNomes, valorPadrao = '')] *)
Definition obterValorSeguro (obj : object) (possiveisNomes : nomes)
    (valorPadrao : value) : M value :=
  match possiveisNomes with
  | UmNome [] => ret valorPadrao
  | _ =>
      let nomes :=
        match possiveisNomes with
        | VariosNomes lista => lista
        | UmNome nome => [nome]
        end in
      nomeEncontrado <- encontrarColuna obj nomes ;;
      match nomeEncontrado with
      | Some (c :: nome) =>
          let valor := get obj (c :: nome) in
          if is_undefined valor || is_null valor then ret valorPadrao
          else
            branco <- string_em_branco valor ;;
            if branco then ret valorPadrao else ret valor
      | _ => ret valorPadrao
      end
  end.

(** [function estaVazio(valor)] *)
Definition estaVazio (valor : value) : M bool :=
  if is_undefined valor || is_null valor then ret true
  else
    branco <- string_em_branco valor ;;
    if branco then ret true else ret false.

(** [function parseNumero(valor, valorPadrao = null)] *)
Definition parseNumero (valor valorPadrao : value) : M value :=
  if is_undefined valor || is_null valor || is_empty_string valor
  then ret valorPadrao
  else
    try_catch
      (match valor with
       | VNumber n => ret (if isNaN n then valorPadrao else valor)
       | _ =>
           let valorStr := replace_first 44 46 (remove_all 46 (ToString valor)) in
           let valorConvertido := StringToNumber valorStr in
           ret (if isNaN valorConvertido then valorPadrao
                else VNumber valorConvertido)
       end)
      (fun error =>
         console_error [js "Erro ao converter valor numérico: " ++ ToString valor;
                        message error] ;;;
         ret valorPadrao).

(** The object returned by [diagnosticarColunas]: for each field the header
    found for it, or [None] for [null] or a missing property. *)
Record mapa := {
  mapa_catalogo : option jsstring;
  mapa_codigo : option jsstring;
  mapa_descricao : option jsstring;
  mapa_unidade : option jsstring;
  mapa_ncm : option jsstring;
  mapa_precoVarejo : option jsstring;
  mapa_precoAtacado : option jsstring;
  mapa_precoPromocao : option jsstring;
  mapa_estoque : option jsstring;
  mapa_precoCompra : option jsstring;
  mapa_codigoOriginal : option jsstring;
  mapa_endereco : option jsstring;
  mapa_endereco2 : option jsstring;
  mapa_fornecedor : option jsstring;
  mapa_garantia : option jsstring;
  mapa_pendencia : option jsstring;
  mapa_linha : option jsstring;
  mapa_grupo : option jsstring
}.

(** [{}] *)
Definition mapa_vazio : mapa :=
  Build_mapa None None None None None None None None None
             None None None None None None None None None.

(** [mapa.campo || [ ... ]] *)
Definition ou (campo : option jsstring) (padrao : list jsstring) : nomes :=
  match campo with
  | Some (c :: nome) => UmNome (c :: nome)
  | _ => VariosNomes padrao
  end.

End Helpers.
End Corrigido.

(* ================================================================== *)
(** * conversor-final-corrigido-v2.js *)
(* ================================================================== *)

Module V2.
Import JS Layout Corrigido.
Local Open Scope js_scope.

Definition aspas : jsstring := [34%N].

(** Comparisons with a [.length] that may be [undefined]. *)
Definition length_ge (len : option nat) (n : nat) : bool :=
  match len with Some l => (n <=? l)%nat | None => false end.

Definition length_gt (len1 len2 : option nat) : bool :=
  match len1, len2 with
  | Some l1, Some l2 => (l2 <? l1)%nat
  | _, _ => false
  end.

Section Conversor.
Context `{Runtime}.

Definition colunasDescricao : list jsstring :=
  [js "Descrição"; js "Descricao"; js "Descr"; js "Desc"; js "Description";
   js "Nome"; js "Nome do Produto"; js "Produto"; js "Denominação";
   js "Denominacao"].

(** Método 1: the description columns, in order. *)
Fixpoint extrairDescricao_metodo1 (produtoAtual : object)
    (colunas : list jsstring) : M (option value) :=
  match colunas with
  | [] => ret None
  | col :: resto =>
      descricao <- obterValorSeguro produtoAtual (VariosNomes [col]) (VString []) ;;
      vazio <- estaVazio descricao ;;
      if negb vazio then ret (Some descricao)
      else extrairDescricao_metodo1 produtoAtual resto
  end.

(** Columns that are skipped by the scan of Método 2. *)
Definition coluna_excluida (col : jsstring) : bool :=
  includes (normalizar col) (js "codigo") ||
  includes (normalizar col) (js "preco") ||
  includes (normalizar col) (js "valor") ||
  includes (normalizar col) (js "ncm") ||
  includes (normalizar col) (js "unidade").

(** Método 2: every column, in order; the first value that looks like a
    description is returned. *)
Fixpoint extrairDescricao_metodo2 (produtoAtual : object)
    (todasColunas : list jsstring) (index : nat) : M (option value) :=
  match todasColunas with
  | [] => ret None
  | col :: resto =>
      if coluna_excluida col then
        extrairDescricao_metodo2 produtoAtual resto index
      else
        let valor := get produtoAtual col in
        vazio <- estaVazio valor ;;
        if negb vazio && is_string valor then
          len <- get_length valor ;;
          if length_ge len 3 && test_letter (ToString valor) then
            console_log
              [js "Descrição encontrada em coluna " ++ aspas ++ col ++ aspas
               ++ js " para produto " ++ string_of_nat (index + 1) ++ js ": "
               ++ aspas ++ ToString valor ++ aspas] ;;;
            ret (Some valor)
          else extrairDescricao_metodo2 produtoAtual resto index
        else extrairDescricao_metodo2 produtoAtual resto index
  end.

(** Método 4, first part: the candidates pushed on
    [possiveisCamposDescricao]. *)
Fixpoint extrairDescricao_candidatos (produtoAtual : object)
    (todasColunas : list jsstring)
    (possiveisCamposDescricao : list (jsstring * value))
  : M (list (jsstring * value)) :=
  match todasColunas with
  | [] => ret possiveisCamposDescricao
  | col :: resto =>
      let valor := get produtoAtual col in
      vazio <- estaVazio valor ;;
      aceita <-
        (if negb vazio && is_string valor then
           len <- get_length valor ;;
           ret (length_gt len (Some 1%nat) && test_letter (ToString valor))
         else ret false) ;;
      extrairDescricao_candidatos produtoAtual resto
        (if aceita then possiveisCamposDescricao ++ [(col, valor)]
         else possiveisCamposDescricao)
  end.

(** [function extrairDescricao(produtoAtual, mapaColunasEncontradas, index)] *)
Definition extrairDescricao (produtoAtual : object)
    (mapaColunasEncontradas : mapa) (index : nat) : M value :=
  m1 <- extrairDescricao_metodo1 produtoAtual colunasDescricao ;;
  match m1 with
  | Some descricao => ret descricao
  | None =>
      let todasColunas := keys produtoAtual in
      m2 <- extrairDescricao_metodo2 produtoAtual todasColunas index ;;
      match m2 with
      | Some valor => ret valor
      | None =>
          codigo <- obterValorSeguro produtoAtual
                      (VariosNomes [js "Código"; js "Codigo"]) (VString []) ;;
          vazio <- estaVazio codigo ;;
          temEspaco <-
            (if negb vazio && is_string codigo
             then call_includes codigo (js " ") else ret false) ;;
          if temEspaco then
            partes <- call_split codigo 32 ;;
            let descricaoInferida := join (js " ") (skipn 1 partes) in
            console_log
              [js "Descrição inferida do código para produto "
               ++ string_of_nat (index + 1) ++ js ": "
               ++ aspas ++ descricaoInferida ++ aspas] ;;;
            ret (VString descricaoInferida)
          else
            possiveisCamposDescricao <-
              extrairDescricao_candidatos produtoAtual todasColunas [] ;;
            if (0 <? length possiveisCamposDescricao)%nat then
              melhorDescricao <-
                reduce
                  (fun max atual =>
                     lenAtual <- get_length (snd atual) ;;
                     lenMax <- get_length (snd max) ;;
                     ret (if length_gt lenAtual lenMax then atual else max))
                  possiveisCamposDescricao ;;
              console_log
                [js "Descrição extraída da coluna " ++ aspas
                 ++ fst melhorDescricao ++ aspas ++ js " para produto "
                 ++ string_of_nat (index + 1) ++ js ": " ++ aspas
                 ++ ToString (snd melhorDescricao) ++ aspas] ;;;
              ret (snd melhorDescricao)
            else ret (VString [])
      end
  end.

Definition zero : value := VNumber (Finite 0).

(** [function converterProduto(produtoAtual, mapaColunasEncontradas, index)] *)
Definition converterProduto (produtoAtual : object)
    (mapaColunasEncontradas : mapa) (index : nat) : M produto :=
  try_catch
    (let mapa := mapaColunasEncontradas in
     catalogo <- obterValorSeguro produtoAtual
       (ou (mapa_catalogo mapa) [js "Catálogo"; js "Catalogo"]) (VString []) ;;
     codigo <- obterValorSeguro produtoAtual
       (ou (mapa_codigo mapa) [js "Código"; js "Codigo"]) (VString []) ;;
     let codigo := if truthy codigo then ToString codigo else [] in
     descricao <- extrairDescricao produtoAtual mapaColunasEncontradas index ;;
     vazio <- estaVazio descricao ;;
     descricao <-
       (if vazio then
          let descricao := js "Produto " ++ string_of_nat (index + 1) in
          console_warn
            [js "⚠️ Usando descrição padrão para produto "
             ++ string_of_nat (index + 1) ++ js ": "
             ++ aspas ++ descricao ++ aspas] ;;;
          ret (VString descricao)
        else ret descricao) ;;
     unidade <- obterValorSeguro produtoAtual
       (ou (mapa_unidade mapa) [js "Unidade"]) (VString []) ;;
     ncm <- obterValorSeguro produtoAtual
       (ou (mapa_ncm mapa)
           [js "NCM"; js "Classificação Fiscal"; js "Classificacao Fiscal"])
       (VString []) ;;
     precoVarejo <- obterValorSeguro produtoAtual
       (ou (mapa_precoVarejo mapa) [js "Preço Varejo"; js "Preco Varejo"])
       (VString []) ;;
     precoAtacado <- obterValorSeguro produtoAtual
       (ou (mapa_precoAtacado mapa) [js "Preço Atacado"; js "Preco Atacado"])
       (VString []) ;;
     precoPromocao <- obterValorSeguro produtoAtual
       (ou (mapa_precoPromocao mapa) [js "Preço Promoção"; js "Preco Promocao"])
       (VString []) ;;
     estoque <- obterValorSeguro produtoAtual
       (ou (mapa_estoque mapa) [js "Saldo Estoque"; js "Estoque"]) (VString []) ;;
     precoCompra <- obterValorSeguro produtoAtual
       (ou (mapa_precoCompra mapa) [js "Preço Compra"; js "Preco Compra"])
       (VString []) ;;
     codigoOriginal <- obterValorSeguro produtoAtual
       (ou (mapa_codigoOriginal mapa) [js "Código Original"; js "Codigo Original"])
       (VString []) ;;
     fornecedor <- obterValorSeguro produtoAtual
       (ou (mapa_fornecedor mapa) [js "Fornecedor"]) (VString []) ;;
     endereco <- obterValorSeguro produtoAtual
       (ou (mapa_endereco mapa) [js "Endereço"; js "Endereco"]) (VString []) ;;
     endereco2 <- obterValorSeguro produtoAtual
       (ou (mapa_endereco2 mapa) [js "Endereço 2"; js "Endereco 2"]) (VString []) ;;
     garantia <- obterValorSeguro produtoAtual
       (ou (mapa_garantia mapa) [js "Garantia"]) (VString []) ;;
     pendencia <- obterValorSeguro produtoAtual
       (ou (mapa_pendencia mapa) [js "Pendência"; js "Pendencia"]) (VString []) ;;
     linha <- obterValorSeguro produtoAtual
       (ou (mapa_linha mapa) [js "Linha"]) (VString []) ;;
     grupo <- obterValorSeguro produtoAtual
       (ou (mapa_grupo mapa) [js "Grupo"]) (VString []) ;;
     let observacoes : jsstring := [] in
     vazioAtacado <- estaVazio precoAtacado ;;
     let observacoes :=
       if negb vazioAtacado
       then observacoes ++ js "Preço atacado: " ++ ToString precoAtacado ++ js "; "
       else observacoes in
     vazioPromocao <- estaVazio precoPromocao ;;
     let observacoes :=
       if negb vazioPromocao
       then observacoes ++ js "Preço promoção: " ++ ToString precoPromocao ++ js "; "
       else observacoes in
     let infoAdicionais : jsstring := [] in
     vazioEndereco2 <- estaVazio endereco2 ;;
     let infoAdicionais :=
       if negb vazioEndereco2
       then infoAdicionais ++ js "Endereço 2: " ++ ToString endereco2 ++ js "; "
       else infoAdicionais in
     vazioPendencia <- estaVazio pendencia ;;
     let infoAdicionais :=
       if negb vazioPendencia
       then infoAdicionais ++ js "Pendência: " ++ ToString pendencia ++ js "; "
       else infoAdicionais in
     preco <- parseNumero precoVarejo zero ;;
     estoqueNumero <- parseNumero estoque zero ;;
     precoDeCusto <- parseNumero precoCompra zero ;;
     precoDeCompra <- parseNumero precoCompra zero ;;
     ret {|
       ID := VNumber (number_of_nat (index + 1));
       Codigo := VString codigo;
       Descricao := descricao;
       Unidade := unidade;
       NCM := ncm;
       Origem := VString [];
       Preco := preco;
       ValorIPIFixo := VNull;
       Observacoes := VString observacoes;
       Situacao := VString [];
       Estoque := estoqueNumero;
       PrecoDeCusto := precoDeCusto;
       CodNoFornecedor := codigoOriginal;
       Fornecedor := fornecedor;
       Localizacao := endereco;
       EstoqueMaximo := VNull;
       EstoqueMinimo := VNull;
       PesoLiquido := VNull;
       PesoBruto := VNull;
       GTIN_EAN := VString [];
       GTIN_EAN_DaEmbalagem := VString [];
       LarguraDoProduto := VNull;
       AlturaDoProduto := VNull;
       ProfundidadeDoProduto := VNull;
       DataValidade := VString [];
       DescricaoDoProdutoNoFornecedor := VString [];
       DescricaoComplementar := VString [];
       ItensPorCaixa := VNull;
       ProdutoVariacao := VString [];
       TipoProducao := VString [];
       ClasseDeEnquadramentoDoIPI := VString [];
       CodigoDaListaDeServicos := VString [];
       TipoDoItem := VString [];
       GrupoDeTags := VString [];
       Tributos := VString [];
       CodigoPai := VString [];
       CodigoIntegracao := VString [];
       GrupoDeProdutos := linha;
       Marca := VString [];
       CEST := VString [];
       Volumes := VNull;
       DescricaoCurta := VString [];
       CrossDocking := VString [];
       URLImagensExternas := VString [];
       LinkExterno := VString [];
       MesesGarantiaNoFornecedor := garantia;
       ClonarDadosDoPai := VString [];
       CondicaoDoProduto := VString [];
       FreteGratis := VString [];
       NumeroFCI := VString [];
       Video := VString [];
       Departamento := grupo;
       UnidadeDeMedida := VString [];
       PrecoDeCompra := precoDeCompra;
       ValorBaseICMSSTParaRetencao := VNull;
       ValorICMSSTParaRetencao := VNull;
       ValorICMSProprioDoSubstituto := VNull;
       CategoriaDoProduto := VString [];
       InformacoesAdicionais := VString infoAdicionais
     |})
    (fun error =>
       throw (Error (js "Erro ao converter produto " ++ string_of_nat (index + 1)
                     ++ js ": " ++ message error))).

(** The accumulators of the main loop of [iniciar]. *)
Record estado := {
  produtosNovos : list produto;
  sucessos : nat;
  falhas : nat;
  erros : list jsstring;
  avisosDescricaoVazia : list (nat * value);
  descricoesInferidas : nat
}.

Definition estado_inicial : estado :=
  {| produtosNovos := []; sucessos := 0; falhas := 0; erros := [];
     avisosDescricaoVazia := []; descricoesInferidas := 0 |}.

(** The progress line written after each row. *)
Definition progresso (index total : nat) : M unit :=
  if ((index + 1) mod 100 =? 0)%nat || (index + 1 =? total)%nat then
    stdout_write ([13%N] ++ js "Processando: " ++ string_of_nat (index + 1)
                  ++ js "/" ++ string_of_nat total ++ js " produtos")
  else ret tt.

(** One turn of the loop [for (const [index, produtoRaw] of
    produtosAtuaisRaw.entries())] of [iniciar]. *)
Definition iniciar_passo (mapaColunasEncontradas : mapa) (total index : nat)
    (produtoRaw : entry) (st : estado) : M estado :=
  st' <-
    try_catch
      (match produtoRaw with
       | NotAnObject _ => throw (Error (js "Produto inválido ou vazio"))
       | Row produtoRaw =>
           produtoNovo <- converterProduto produtoRaw mapaColunasEncontradas index ;;
           vazio <- estaVazio (Descricao produtoNovo) ;;
           let avisos :=
             if vazio then
               avisosDescricaoVazia st ++
               [((index + 1)%nat,
                 if truthy (Codigo produtoNovo) then Codigo produtoNovo
                 else VString (js "Item #" ++ string_of_nat (index + 1)))]
             else avisosDescricaoVazia st in
           ret {| produtosNovos := produtosNovos st ++ [produtoNovo];
                  sucessos := sucessos st + 1;
                  falhas := falhas st;
                  erros := erros st;
                  avisosDescricaoVazia := avisos;
                  descricoesInferidas := descricoesInferidas st |}
       end)
      (fun error =>
         console_error
           [[10%N] ++ js "Erro ao processar o produto "
            ++ string_of_nat (index + 1) ++ js ":"; message error] ;;;
         ret {| produtosNovos := produtosNovos st;
                sucessos := sucessos st;
                falhas := falhas st + 1;
                erros := erros st ++
                         [js "Produto " ++ string_of_nat (index + 1) ++ js ": "
                          ++ message error];
                avisosDescricaoVazia := avisosDescricaoVazia st;
                descricoesInferidas := descricoesInferidas st |}) ;;
  progresso index total ;;;
  ret st'.

Fixpoint iniciar_laco (mapaColunasEncontradas : mapa) (total index : nat)
    (entradas : list entry) (st : estado) : M estado :=
  match entradas with
  | [] => ret st
  | produtoRaw :: resto =>
      st' <- iniciar_passo mapaColunasEncontradas total index produtoRaw st ;;
      iniciar_laco mapaColunasEncontradas total (S index) resto st'
  end.

(** The row-processing part of [iniciar] (from [const produtosNovos = []] to
    the end of the loop), for the rows and the column map read before it. *)
Definition iniciar_processar (produtosAtuaisRaw : list entry)
    (mapaColunasEncontradas : mapa) : M estado :=
  iniciar_laco mapaColunasEncontradas (length produtosAtuaisRaw) 0
               produtosAtuaisRaw estado_inicial.

End Conversor.
End V2.

(* ================================================================== *)
(** * conversor-final-corrigido.js *)
(* ================================================================== *)

Module V1.
Import JS Layout Corrigido.
Local Open Scope js_scope.

Definition aspas : jsstring := [34%N].
Definition zero : value := VNumber (Finite 0).

Section Conversor.
Context `{Runtime}.

(** [function converterProduto(produtoAtual, mapaColunasEncontradas, index)] *)
Definition converterProduto (produtoAtual : object)
    (mapaColunasEncontradas : mapa) (index : nat) : M produto :=
  try_catch
    (let mapa := mapaColunasEncontradas in
     catalogo <- obterValorSeguro produtoAtual
       (ou (mapa_catalogo mapa) [js "Catálogo"; js "Catalogo"]) (VString []) ;;
     codigo <- obterValorSeguro produtoAtual
       (ou (mapa_codigo mapa) [js "Código"; js "Codigo"]) (VString []) ;;
     let codigo := if truthy codigo then ToString codigo else [] in
     descricao <- obterValorSeguro produtoAtual
       (ou (mapa_descricao mapa) [js "Descrição"; js "Descricao"; js "Descr"])
       (VString []) ;;
     descricaoVazia <- estaVazio descricao ;;
     inferir <-
       (if descricaoVazia then
          codigoVazio <- estaVazio (VString codigo) ;;
          if negb codigoVazio then call_includes (VString codigo) (js " ")
          else ret false
        else ret false) ;;
     '(codigo, descricao) <-
       (if inferir then
          partes <- call_split (VString codigo) 32 ;;
          let codigoPuro := hd [] partes in
          let descricao := join (js " ") (skipn 1 partes) in
          console_log
            [[10%N] ++ js "Inferindo descrição para produto "
             ++ string_of_nat (index + 1) ++ js " (Catálogo: "
             ++ ToString catalogo ++ js "):"] ;;;
          console_log [js "- Código original: " ++ aspas ++ codigo ++ aspas] ;;;
          console_log [js "- Código puro: " ++ aspas ++ codigoPuro ++ aspas] ;;;
          console_log [js "- Descrição inferida: " ++ aspas ++ descricao ++ aspas] ;;;
          ret (codigoPuro, VString descricao)
        else ret (codigo, descricao)) ;;
     unidade <- obterValorSeguro produtoAtual
       (ou (mapa_unidade mapa) [js "Unidade"]) (VString []) ;;
     ncm <- obterValorSeguro produtoAtual
       (ou (mapa_ncm mapa)
           [js "NCM"; js "Classificação Fiscal"; js "Classificacao Fiscal"])
       (VString []) ;;
     precoVarejo <- obterValorSeguro produtoAtual
       (ou (mapa_precoVarejo mapa) [js "Preço Varejo"; js "Preco Varejo"])
       (VString []) ;;
     precoAtacado <- obterValorSeguro produtoAtual
       (ou (mapa_precoAtacado mapa) [js "Preço Atacado"; js "Preco Atacado"])
       (VString []) ;;
     precoPromocao <- obterValorSeguro produtoAtual
       (ou (mapa_precoPromocao mapa) [js "Preço Promoção"; js "Preco Promocao"])
       (VString []) ;;
     estoque <- obterValorSeguro produtoAtual
       (ou (mapa_estoque mapa) [js "Saldo Estoque"; js "Estoque"]) (VString []) ;;
     precoCompra <- obterValorSeguro produtoAtual
       (ou (mapa_precoCompra mapa) [js "Preço Compra"; js "Preco Compra"])
       (VString []) ;;
     codigoOriginal <- obterValorSeguro produtoAtual
       (ou (mapa_codigoOriginal mapa) [js "Código Original"; js "Codigo Original"])
       (VString []) ;;
     fornecedor <- obterValorSeguro produtoAtual
       (ou (mapa_fornecedor mapa) [js "Fornecedor"]) (VString []) ;;
     endereco <- obterValorSeguro produtoAtual
       (ou (mapa_endereco mapa) [js "Endereço"; js "Endereco"]) (VString []) ;;
     endereco2 <- obterValorSeguro produtoAtual
       (ou (mapa_endereco2 mapa) [js "Endereço 2"; js "Endereco 2"]) (VString []) ;;
     garantia <- obterValorSeguro produtoAtual
       (ou (mapa_garantia mapa) [js "Garantia"]) (VString []) ;;
     pendencia <- obterValorSeguro produtoAtual
       (ou (mapa_pendencia mapa) [js "Pendência"; js "Pendencia"]) (VString []) ;;
     linha <- obterValorSeguro produtoAtual
       (ou (mapa_linha mapa) [js "Linha"]) (VString []) ;;
     grupo <- obterValorSeguro produtoAtual
       (ou (mapa_grupo mapa) [js "Grupo"]) (VString []) ;;
     let observacoes : jsstring := [] in
     vazioAtacado <- estaVazio precoAtacado ;;
     let observacoes :=
       if negb vazioAtacado
       then observacoes ++ js "Preço atacado: " ++ ToString precoAtacado ++ js "; "
       else observacoes in
     vazioPromocao <- estaVazio precoPromocao ;;
     let observacoes :=
       if negb vazioPromocao
       then observacoes ++ js "Preço promoção: " ++ ToString precoPromocao ++ js "; "
       else observacoes in
     let infoAdicionais : jsstring := [] in
     vazioEndereco2 <- estaVazio endereco2 ;;
     let infoAdicionais :=
       if negb vazioEndereco2
       then infoAdicionais ++ js "Endereço 2: " ++ ToString endereco2 ++ js "; "
       else infoAdicionais in
     vazioPendencia <- estaVazio pendencia ;;
     let infoAdicionais :=
       if negb vazioPendencia
       then infoAdicionais ++ js "Pendência: " ++ ToString pendencia ++ js "; "
       else infoAdicionais in
     preco <- parseNumero precoVarejo zero ;;
     estoqueNumero <- parseNumero estoque zero ;;
     precoDeCusto <- parseNumero precoCompra zero ;;
     precoDeCompra <- parseNumero precoCompra zero ;;
     ret {|
       ID := VNumber (number_of_nat (index + 1));
       Codigo := VString codigo;
       Descricao := descricao;
       Unidade := unidade;
       NCM := ncm;
       Origem := VString [];
       Preco := preco;
       ValorIPIFixo := VNull;
       Observacoes := VString observacoes;
       Situacao := VString [];
       Estoque := estoqueNumero;
       PrecoDeCusto := precoDeCusto;
       CodNoFornecedor := codigoOriginal;
       Fornecedor := fornecedor;
       Localizacao := endereco;
       EstoqueMaximo := VNull;
       EstoqueMinimo := VNull;
       PesoLiquido := VNull;
       PesoBruto := VNull;
       GTIN_EAN := VString [];
       GTIN_EAN_DaEmbalagem := VString [];
       LarguraDoProduto := VNull;
       AlturaDoProduto := VNull;
       ProfundidadeDoProduto := VNull;
       DataValidade := VString [];
       DescricaoDoProdutoNoFornecedor := VString [];
       DescricaoComplementar := VString [];
       ItensPorCaixa := VNull;
       ProdutoVariacao := VString [];
       TipoProducao := VString [];
       ClasseDeEnquadramentoDoIPI := VString [];
       CodigoDaListaDeServicos := VString [];
       TipoDoItem := VString [];
       GrupoDeTags := VString [];
       Tributos := VString [];
       CodigoPai := VString [];
       CodigoIntegracao := VString [];
       GrupoDeProdutos := linha;
       Marca := VString [];
       CEST := VString [];
       Volumes := VNull;
       DescricaoCurta := VString [];
       CrossDocking := VString [];
       URLImagensExternas := VString [];
       LinkExterno := VString [];
       MesesGarantiaNoFornecedor := garantia;
       ClonarDadosDoPai := VString [];
       CondicaoDoProduto := VString [];
       FreteGratis := VString [];
       NumeroFCI := VString [];
       Video := VString [];
       Departamento := grupo;
       UnidadeDeMedida := VString [];
       PrecoDeCompra := precoDeCompra;
       ValorBaseICMSSTParaRetencao := VNull;
       ValorICMSSTParaRetencao := VNull;
       ValorICMSProprioDoSubstituto := VNull;
       CategoriaDoProduto := VString [];
       InformacoesAdicionais := VString infoAdicionais
     |})
    (fun error =>
       throw (Error (js "Erro ao converter produto " ++ string_of_nat (index + 1)
                     ++ js ": " ++ message error))).

(** The accumulators of the main loop of [iniciar]. *)
Record estado := {
  produtosNovos : list produto;
  sucessos : nat;
  falhas : nat;
  erros : list jsstring;
  avisosDescricaoVazia : list (nat * value);
  descricoesInferidas : nat
}.

Definition estado_inicial : estado :=
  {| produtosNovos := []; sucessos := 0; falhas := 0; erros := [];
     avisosDescricaoVazia := []; descricoesInferidas := 0 |}.

(** The progress line written after each row. *)
Definition progresso (index total : nat) : M unit :=
  if ((index + 1) mod 100 =? 0)%nat || (index + 1 =? total)%nat then
    stdout_write ([13%N] ++ js "Processando: " ++ string_of_nat (index + 1)
                  ++ js "/" ++ string_of_nat total ++ js " produtos")
  else ret tt.

(** A column name of the map is truthy: neither missing nor empty. *)
Definition coluna_definida (coluna : option jsstring) : bool :=
  match coluna with
  | Some (_ :: _) => true
  | _ => false
  end.

(** One turn of the loop [for (const [index, produtoRaw] of
    produtosAtuaisRaw.entries())] of [iniciar]. *)
Definition iniciar_passo (mapaColunasEncontradas : mapa) (total index : nat)
    (produtoRaw : entry) (st : estado) : M estado :=
  st' <-
    try_catch
      (match produtoRaw with
       | NotAnObject _ => throw (Error (js "Produto inválido ou vazio"))
       | Row produtoRaw =>
           produtoNovo <- converterProduto produtoRaw mapaColunasEncontradas index ;;
           let colunaCodigo := mapa_codigo mapaColunasEncontradas in
           let colunaDescricao := mapa_descricao mapaColunasEncontradas in
           inferida <-
             (if coluna_definida colunaCodigo then
                semDescricao <-
                  (match colunaDescricao with
                   | Some (c :: nome) => estaVazio (get produtoRaw (c :: nome))
                   | _ => ret true
                   end) ;;
                if semDescricao then
                  vazia <- estaVazio (Descricao produtoNovo) ;;
                  ret (negb vazia)
                else ret false
              else ret false) ;;
           let inferidas :=
             if inferida then (descricoesInferidas st + 1)%nat
             else descricoesInferidas st in
           vazio <- estaVazio (Descricao produtoNovo) ;;
           let avisos :=
             if vazio then
               avisosDescricaoVazia st ++
               [((index + 1)%nat,
                 if truthy (Codigo produtoNovo) then Codigo produtoNovo
                 else VString (js "Item #" ++ string_of_nat (index + 1)))]
             else avisosDescricaoVazia st in
           ret {| produtosNovos := produtosNovos st ++ [produtoNovo];
                  sucessos := sucessos st + 1;
                  falhas := falhas st;
                  erros := erros st;
                  avisosDescricaoVazia := avisos;
                  descricoesInferidas := inferidas |}
       end)
      (fun error =>
         console_error
           [[10%N] ++ js "Erro ao processar o produto "
            ++ string_of_nat (index + 1) ++ js ":"; message error] ;;;
         ret {| produtosNovos := produtosNovos st;
                sucessos := sucessos st;
                falhas := falhas st + 1;
                erros := erros st ++
                         [js "Produto " ++ string_of_nat (index + 1) ++ js ": "
                          ++ message error];
                avisosDescricaoVazia := avisosDescricaoVazia st;
                descricoesInferidas := descricoesInferidas st |}) ;;
  progresso index total ;;;
  ret st'.

Fixpoint iniciar_laco (mapaColunasEncontradas : mapa) (total index : nat)
    (entradas : list entry) (st : estado) : M estado :=
  match entradas with
  | [] => ret st
  | produtoRaw :: resto =>
      st' <- iniciar_passo mapaColunasEncontradas total index produtoRaw st ;;
      iniciar_laco mapaColunasEncontradas total (S index) resto st'
  end.

(** The row-processing part of [iniciar] (from [const produtosNovos = []] to
    the end of the loop), for the rows and the column map read before it. *)
Definition iniciar_processar (produtosAtuaisRaw : list entry)
    (mapaColunasEncontradas : mapa) : M estado :=
  iniciar_laco mapaColunasEncontradas (length produtosAtuaisRaw) 0
               produtosAtuaisRaw estado_inicial.

End Conversor.
End V1.

(* ================================================================== *)
(** * conversor-simples.js *)
(* ================================================================== *)

Module Simples.
Import JS Layout.
Local Open Scope js_scope.

Definition zero : value := VNumber (Finite 0).

Section Conversor.
Context `{Runtime}.

(** [function parseNumero(valor, valorPadrao = null)] *)
Definition parseNumero (valor valorPadrao : value) : M value :=
  if is_undefined valor || is_null valor || is_empty_string valor
  then ret valorPadrao
  else
    try_catch
      (match valor with
       | VNumber n => ret (if isNaN n then valorPadrao else valor)
       | _ =>
           let valorConvertido :=
             StringToNumber (replace_first 44 46 (ToString valor)) in
           ret (if isNaN valorConvertido then valorPadrao
                else VNumber valorConvertido)
       end)
      (fun error =>
         console_error [js "Erro ao converter valor numérico: " ++ ToString valor;
                        message error] ;;;
         ret valorPadrao).

(** [obj[chave]] where [obj] is an array element that passed a truthiness
    test, and [chave] one of the column names of this script: a primitive has
    no such property. *)
Definition prop (obj : entry) (chave : jsstring) : value :=
  match obj with
  | Row r => get r chave
  | NotAnObject _ => VUndefined
  end.

Definition entry_truthy (obj : entry) : bool :=
  match obj with
  | Row _ => true
  | NotAnObject v => truthy v
  end.

(** [function obterValorSeguro(obj, chave, valorPadrao = '')] *)
Definition obterValorSeguro (obj : entry) (chave : jsstring)
    (valorPadrao : value) : value :=
  if negb (entry_truthy obj) || is_undefined (prop obj chave)
     || is_null (prop obj chave)
  then valorPadrao
  else prop obj chave.

(** [function converterProduto(produtoAtual)] *)
Definition converterProduto (produtoAtual : entry) : M produto :=
  if negb (entry_truthy produtoAtual)
  then throw (Error (js "Produto inválido ou vazio"))
  else
  try_catch
    ((if negb (truthy (obterValorSeguro produtoAtual (js "Código") (VString [])))
      then throw (Error (js "Campo Código é obrigatório")) else ret tt) ;;;
     (if negb (truthy (obterValorSeguro produtoAtual (js "Descrição") (VString [])))
      then console_warn
             [js "Produto "
              ++ ToString (obterValorSeguro produtoAtual (js "Código") (VString []))
              ++ js ": Campo Descrição está vazio"]
      else ret tt) ;;;
     let observacoes : jsstring := [] in
     let precoAtacado :=
       obterValorSeguro produtoAtual (js "Preço Atacado") (VString []) in
     let observacoes :=
       if truthy precoAtacado
       then observacoes ++ js "Preço atacado: " ++ ToString precoAtacado ++ js "; "
       else observacoes in
     let precoPromocao :=
       obterValorSeguro produtoAtual (js "Preço Promoção") (VString []) in
     let observacoes :=
       if truthy precoPromocao
       then observacoes ++ js "Preço promoção: " ++ ToString precoPromocao ++ js "; "
       else observacoes in
     let infoAdicionais : jsstring := [] in
     let endereco2 :=
       obterValorSeguro produtoAtual (js "Endereço 2") (VString []) in
     let infoAdicionais :=
       if truthy endereco2
       then infoAdicionais ++ js "Endereço 2: " ++ ToString endereco2 ++ js "; "
       else infoAdicionais in
     let pendencia :=
       obterValorSeguro produtoAtual (js "Pendência") (VString []) in
     let infoAdicionais :=
       if truthy pendencia
       then infoAdicionais ++ js "Pendência: " ++ ToString pendencia ++ js "; "
       else infoAdicionais in
     preco <- parseNumero (prop produtoAtual (js "Preço Varejo")) zero ;;
     estoque <- parseNumero (prop produtoAtual (js "Saldo Estoque")) zero ;;
     precoDeCusto <- parseNumero (prop produtoAtual (js "Preço Compra")) zero ;;
     precoDeCompra <- parseNumero (prop produtoAtual (js "Preço Compra")) zero ;;
     ret {|
       ID := VNull;
       Codigo := obterValorSeguro produtoAtual (js "Código") (VString []);
       Descricao := obterValorSeguro produtoAtual (js "Descrição") (VString []);
       Unidade := obterValorSeguro produtoAtual (js "Unidade") (VString []);
       NCM := obterValorSeguro produtoAtual (js "Classificação Fiscal") (VString []);
       Origem := VString [];
       Preco := preco;
       ValorIPIFixo := VNull;
       Observacoes := VString observacoes;
       Situacao := VString [];
       Estoque := estoque;
       PrecoDeCusto := precoDeCusto;
       CodNoFornecedor :=
         obterValorSeguro produtoAtual (js "Código Original") (VString []);
       Fornecedor := obterValorSeguro produtoAtual (js "Fornecedor") (VString []);
       Localizacao := obterValorSeguro produtoAtual (js "Endereço") (VString []);
       EstoqueMaximo := VNull;
       EstoqueMinimo := VNull;
       PesoLiquido := VNull;
       PesoBruto := VNull;
       GTIN_EAN := VString [];
       GTIN_EAN_DaEmbalagem := VString [];
       LarguraDoProduto := VNull;
       AlturaDoProduto := VNull;
       ProfundidadeDoProduto := VNull;
       DataValidade := VString [];
       DescricaoDoProdutoNoFornecedor := VString [];
       DescricaoComplementar := VString [];
       ItensPorCaixa := VNull;
       ProdutoVariacao := VString [];
       TipoProducao := VString [];
       ClasseDeEnquadramentoDoIPI := VString [];
       CodigoDaListaDeServicos := VString [];
       TipoDoItem := VString [];
       GrupoDeTags := VString [];
       Tributos := VString [];
       CodigoPai := VString [];
       CodigoIntegracao := VString [];
       GrupoDeProdutos := obterValorSeguro produtoAtual (js "Linha") (VString []);
       Marca := VString [];
       CEST := VString [];
       Volumes := VNull;
       DescricaoCurta := VString [];
       CrossDocking := VString [];
       URLImagensExternas := VString [];
       LinkExterno := VString [];
       MesesGarantiaNoFornecedor :=
         obterValorSeguro produtoAtual (js "Garantia") (VString []);
       ClonarDadosDoPai := VString [];
       CondicaoDoProduto := VString [];
       FreteGratis := VString [];
       NumeroFCI := VString [];
       Video := VString [];
       Departamento := obterValorSeguro produtoAtual (js "Grupo") (VString []);
       UnidadeDeMedida := VString [];
       PrecoDeCompra := precoDeCompra;
       ValorBaseICMSSTParaRetencao := VNull;
       ValorICMSSTParaRetencao := VNull;
       ValorICMSProprioDoSubstituto := VNull;
       CategoriaDoProduto := VString [];
       InformacoesAdicionais := VString infoAdicionais
     |})
    (fun error =>
       let codigo :=
         obterValorSeguro produtoAtual (js "Código") (VString (js "desconhecido")) in
       throw (Error (js "Erro ao converter produto " ++ ToString codigo
                     ++ js ": " ++ message error))).

(** The object returned by [verificarEstrutura]; a property that is not set
    is [None]. *)
Record verificacao := {
  valido : bool;
  mensagem : option jsstring;
  colunasAusentes : option (list jsstring)
}.

Definition colunasEsperadas : list jsstring :=
  [js "Código"; js "Descrição"; js "Classificação Fiscal"; js "Preço Compra";
   js "Preço Varejo"; js "Saldo Estoque"].

(** [primeiroItem.hasOwnProperty(coluna)]: as for [call_hasOwnProperty], a
    column named [hasOwnProperty] answers in place of the method. *)
Definition primeiroItem_hasOwnProperty (primeiroItem : object)
    (coluna : jsstring) : M bool :=
  if hasOwn primeiroItem (js "hasOwnProperty")
  then throw (TypeError (js "primeiroItem.hasOwnProperty is not a function"))
  else ret (hasOwn primeiroItem coluna).

(** [colunasEsperadas.filter(coluna => !primeiroItem.hasOwnProperty(coluna))] *)
Fixpoint verificarEstrutura_ausentes (primeiroItem : object)
    (colunas : list jsstring) : M (list jsstring) :=
  match colunas with
  | [] => ret []
  | coluna :: resto =>
      tem <- primeiroItem_hasOwnProperty primeiroItem coluna ;;
      ausentes <- verificarEstrutura_ausentes primeiroItem resto ;;
      ret (if negb tem then coluna :: ausentes else ausentes)
  end.

(** [function verificarEstrutura(dados)], on the array of rows read from the
    sheet. *)
Definition verificarEstrutura (dados : list object) : M verificacao :=
  match dados with
  | [] =>
      ret {| valido := false;
             mensagem := Some (js "Arquivo vazio ou sem dados");
             colunasAusentes := None |}
  | primeiroItem :: _ =>
      ausentes <- verificarEstrutura_ausentes primeiroItem colunasEsperadas ;;
      if (0 <? length ausentes)%nat then
        ret {| valido := false;
               mensagem := Some (js "Colunas obrigatórias ausentes: "
                                 ++ join (js ", ") ausentes);
               colunasAusentes := Some ausentes |}
      else
        ret {| valido := true; mensagem := None; colunasAusentes := None |}
  end.

(** The accumulators of the main loop of [iniciar]. *)
Record estado := {
  produtosNovos : list produto;
  sucessos : nat;
  falhas : nat;
  erros : list jsstring;
  avisosDescricaoVazia : list nat
}.

Definition estado_inicial : estado :=
  {| produtosNovos := []; sucessos := 0; falhas := 0; erros := [];
     avisosDescricaoVazia := [] |}.

Definition progresso (index total : nat) : M unit :=
  if ((index + 1) mod 100 =? 0)%nat || (index + 1 =? total)%nat then
    stdout_write ([13%N] ++ js "Processando: " ++ string_of_nat (index + 1)
                  ++ js "/" ++ string_of_nat total ++ js " produtos")
  else ret tt.

(** One turn of the loop of [iniciar].  The push on [avisosDescricaoVazia]
    comes before the conversion and stays when the conversion throws. *)
Definition iniciar_passo (total index : nat) (produtoRaw : entry)
    (st : estado) : M estado :=
  let avisos :=
    if negb (truthy (obterValorSeguro produtoRaw (js "Descrição") (VString [])))
    then avisosDescricaoVazia st ++ [(index + 1)%nat]
    else avisosDescricaoVazia st in
  st' <-
    try_catch
      (produtoNovo <- converterProduto produtoRaw ;;
       let produtoNovo := set_ID produtoNovo (VNumber (number_of_nat (index + 1))) in
       ret {| produtosNovos := produtosNovos st ++ [produtoNovo];
              sucessos := sucessos st + 1;
              falhas := falhas st;
              erros := erros st;
              avisosDescricaoVazia := avisos |})
      (fun error =>
         console_error
           [[10%N] ++ js "Erro ao processar o produto "
            ++ string_of_nat (index + 1) ++ js ":"; message error] ;;;
         ret {| produtosNovos := produtosNovos st;
                sucessos := sucessos st;
                falhas := falhas st + 1;
                erros := erros st ++
                         [js "Produto " ++ string_of_nat (index + 1) ++ js ": "
                          ++ message error];
                avisosDescricaoVazia := avisos |}) ;;
  progresso index total ;;;
  ret st'.

Fixpoint iniciar_laco (total index : nat) (entradas : list entry)
    (st : estado) : M estado :=
  match entradas with
  | [] => ret st
  | produtoRaw :: resto =>
      st' <- iniciar_passo total index produtoRaw st ;;
      iniciar_laco total (S index) resto st'
  end.

(** The row-processing part of [iniciar]. *)
Definition iniciar_processar (produtosAtuaisRaw : list entry) : M estado :=
  iniciar_laco (length produtosAtuaisRaw) 0 produtosAtuaisRaw estado_inicial.

End Conversor.
End Simples.

(* ================================================================== *)
(** * separador-codigo-descricao.js *)
(* ================================================================== *)

(** The script that splits the code column of a sheet into code and
    description, kept in the repository without its file name: the choice of
    the code column and the loop over the rows, in [main]. *)
Module Separador.
Import JS Layout.
Local Open Scope js_scope.

Definition aspas : jsstring := [34%N].

Section Principal.
Context `{Runtime}.

Definition possiveisColunasCodigo : list jsstring :=
  [js "Código"; js "Codigo"; js "código"; js "codigo"; js "COD"; js "CODIGO"].

(** A column name held in [colunaCodigo]: [None] is [null] or [undefined]. *)
Definition nome_ausente (colunaCodigo : option jsstring) : bool :=
  match colunaCodigo with
  | Some (_ :: _) => false
  | _ => true
  end.

(** The choice of the code column, from [let colunaCodigo = null] to the
    line that reports the choice. *)
Definition main_colunaCodigo (colunas : list jsstring) : M (option jsstring) :=
  let colunaCodigo :=
    find (fun col => existsb (str_eqb col) colunas) possiveisColunasCodigo in
  colunaCodigo <-
    (if nome_ausente colunaCodigo then
       console_error
         [js "Não foi possível identificar a coluna de código. Por favor, digite o nome da coluna:"] ;;;
       let colunaCodigo :=
         find (fun col => includes (toLowerCase col) (js "cod")) colunas in
       if nome_ausente colunaCodigo then
         console_error
           [js "Coluna de código não encontrada. Usando a primeira coluna como código."] ;;;
         ret (nth_error colunas 0)
       else ret colunaCodigo
     else ret colunaCodigo) ;;
  console_log
    [js "Usando coluna " ++ aspas
     ++ match colunaCodigo with Some c => c | None => js "undefined" end
     ++ aspas ++ js " como código."] ;;;
  ret colunaCodigo.

(** The property key a column name denotes; [undefined] reads as the key
    [undefined]. *)
Definition chave (colunaCodigo : option jsstring) : jsstring :=
  match colunaCodigo with Some c => c | None => js "undefined" end.

(** The accumulators of the loop of [main]. *)
Record estado := {
  produtosSeparados : list object;
  codigosSemEspaco : nat;
  codigosComEspaco : nat
}.

(** One turn of the loop [for (let i = 0; i < produtos.length; i++)]. *)
Definition main_passo (colunaCodigo : option jsstring) (produto : object)
    (st : estado) : estado :=
  let produtoNovo := produto in
  if truthy (get produto (chave colunaCodigo)) then
    let codigo := ToString (get produto (chave colunaCodigo)) in
    if includes codigo (js " ") then
      let partes := split 32 codigo in
      let codigoPuro := hd [] partes in
      let descricao := join (js " ") (skipn 1 partes) in
      let produtoNovo := set produtoNovo (chave colunaCodigo) (VString codigoPuro) in
      let produtoNovo := set produtoNovo (js "Descrição") (VString descricao) in
      {| produtosSeparados := produtosSeparados st ++ [produtoNovo];
         codigosSemEspaco := codigosSemEspaco st;
         codigosComEspaco := codigosComEspaco st + 1 |}
    else
      {| produtosSeparados := produtosSeparados st ++ [produtoNovo];
         codigosSemEspaco := codigosSemEspaco st + 1;
         codigosComEspaco := codigosComEspaco st |}
  else
    {| produtosSeparados := produtosSeparados st ++ [produtoNovo];
       codigosSemEspaco := codigosSemEspaco st;
       codigosComEspaco := codigosComEspaco st |}.

Definition main_laco (colunaCodigo : option jsstring) (produtos : list object)
  : estado :=
  fold_left (fun st produto => main_passo colunaCodigo produto st) produtos
    {| produtosSeparados := []; codigosSemEspaco := 0; codigosComEspaco := 0 |}.

End Principal.
End Separador.

(* ================================================================== *)
(** * A runtime for Latin-1 text *)
(* ================================================================== *)

(** An instance of the engine tables that is exact on Basic Latin and the
    Latin-1 Supplement, the characters of the column names in the scripts;
    other code units are left as they are.  It is used to run the converters
    on concrete rows. *)
Module Latin1.
Import JS.

(** Canonical decomposition of one code unit: base letter and combining mark. *)
Definition decompose (c : N) : jsstring :=
  let grave := 768%N in let acute := 769%N in let circ := 770%N in
  let tilde := 771%N in let diaer := 776%N in let ring := 778%N in
  let cedil := 807%N in
  let lower (base : N) (mark : N) := [(base + 32)%N; mark] in
  let upper (base : N) (mark : N) := [base; mark] in
  let table (mk : N -> N -> jsstring) (o : N) : option jsstring :=
    match o with
    | 0%N => Some (mk 65%N grave)  | 1%N => Some (mk 65%N acute)
    | 2%N => Some (mk 65%N circ)   | 3%N => Some (mk 65%N tilde)
    | 4%N => Some (mk 65%N diaer)  | 5%N => Some (mk 65%N ring)
    | 7%N => Some (mk 67%N cedil)
    | 8%N => Some (mk 69%N grave)  | 9%N => Some (mk 69%N acute)
    | 10%N => Some (mk 69%N circ)  | 11%N => Some (mk 69%N diaer)
    | 12%N => Some (mk 73%N grave) | 13%N => Some (mk 73%N acute)
    | 14%N => Some (mk 73%N circ)  | 15%N => Some (mk 73%N diaer)
    | 17%N => Some (mk 78%N tilde)
    | 18%N => Some (mk 79%N grave) | 19%N => Some (mk 79%N acute)
    | 20%N => Some (mk 79%N circ)  | 21%N => Some (mk 79%N tilde)
    | 22%N => Some (mk 79%N diaer)
    | 25%N => Some (mk 85%N grave) | 26%N => Some (mk 85%N acute)
    | 27%N => Some (mk 85%N circ)  | 28%N => Some (mk 85%N diaer)
    | 29%N => Some (mk 89%N acute)
    | _ => None
    end in
  if ((192 <=? c) && (c <=? 223))%N then
    match table upper (c - 192)%N with Some d => d | None => [c] end
  else if (c =? 255)%N then [121%N; diaer]
  else if ((224 <=? c) && (c <=? 254))%N then
    match table lower (c - 224)%N with Some d => d | None => [c] end
  else [c].

Definition nfd (s : jsstring) : jsstring := flat_map decompose s.

Definition lower_unit (c : N) : N :=
  if ((65 <=? c) && (c <=? 90))%N then (c + 32)%N
  else if ((192 <=? c) && (c <=? 222) && negb (c =? 215))%N then (c + 32)%N
  else c.

Definition lower (s : jsstring) : jsstring := map lower_unit s.

(** Fraction digits of [r / d] for [r < d], as long as they terminate. *)
Fixpoint fraction_digits (fuel : nat) (r d : N) : jsstring :=
  match fuel with
  | O => []
  | S f =>
      if (r =? 0)%N then []
      else digit_unit (10 * r / d) :: fraction_digits f ((10 * r) mod d) d
  end.

(** Numbers are printed in plain decimal notation. *)
Definition print_number (n : number) : jsstring :=
  match n with
  | NaN => js "NaN"
  | Infinity false => js "Infinity"
  | Infinity true => js "-Infinity"
  | Finite q =>
      let q := Qred q in
      let a := Z.abs_N (Qnum q) in
      let d := Npos (Qden q) in
      (if (Qnum q <? 0)%Z then js "-" else [])
      ++ string_of_N (a / d)
      ++ (if (a mod d =? 0)%N then []
          else js "." ++ fraction_digits 20 (a mod d) d)
  end.

#[export] Instance runtime : Runtime := {
  normalizeNFD := nfd;
  toLowerCase := lower;
  numberToString := print_number
}.

End Latin1.

(* ================================================================== *)
(** * Specification vocabulary *)
(* ================================================================== *)

(** Pure descriptions of what the helpers compute, and the notions the
    properties below are stated with. *)
Module Spec.
Import JS Layout Corrigido.

(** A value is blank when it is missing, null, or a string of white space. *)
Definition vazio (valor : value) : bool :=
  match valor with
  | VUndefined | VNull => true
  | VString s => str_eqb (trim s) []
  | VNumber _ => false
  end.

(** A row one of whose columns is named [hasOwnProperty]. *)
Definition sombreado (obj : object) : bool := hasOwn obj (js "hasOwnProperty").

Section Resolver.
Context `{Runtime}.

(** The header [encontrarColuna] binds to a candidate list. *)
Definition resolver (obj : object) (possiveisNomes : list jsstring)
  : option jsstring :=
  match find (hasOwn obj) possiveisNomes with
  | Some nome => Some nome
  | None =>
      encontrarColuna_normalizada (map normalizar possiveisNomes) (keys obj)
  end.

Definition lista_de_nomes (possiveisNomes : nomes) : list jsstring :=
  match possiveisNomes with
  | UmNome [] => []
  | UmNome nome => [nome]
  | VariosNomes lista => lista
  end.

(** The value [obterValorSeguro] reads. *)
Definition valorSeguro (obj : object) (possiveisNomes : nomes)
    (valorPadrao : value) : value :=
  match possiveisNomes with
  | UmNome [] => valorPadrao
  | _ =>
      match resolver obj (lista_de_nomes possiveisNomes) with
      | Some (c :: nome) =>
          if vazio (get obj (c :: nome)) then valorPadrao
          else get obj (c :: nome)
      | _ => valorPadrao
      end
  end.

(** The result of [parseNumero]: the default, or a number. *)
Definition numero_ou_padrao (valor valorPadrao : value) : value :=
  if is_undefined valor || is_null valor || is_empty_string valor
  then valorPadrao
  else
    match valor with
    | VNumber n => if isNaN n then valorPadrao else valor
    | _ =>
        let n := StringToNumber
                   (replace_first 44 46 (remove_all 46 (ToString valor))) in
        if isNaN n then valorPadrao else VNumber n
    end.

End Resolver.

(** The exception raised when [hasOwnProperty] is called on such a row. *)
Definition erro_de_sombra : exn :=
  TypeError (js "obj.hasOwnProperty is not a function").

(** ** Splitting a code *)

(** The part of a string before its first space (U+0020), and the part after
    it: what [codigo.split(' ')] yields as [partes[0]] and as
    [partes.slice(1).join(' ')]. *)
Fixpoint antes_do_primeiro_espaco (s : jsstring) : jsstring :=
  match s with
  | [] => []
  | c :: s' => if (c =? 32)%N then [] else c :: antes_do_primeiro_espaco s'
  end.

Fixpoint depois_do_primeiro_espaco (s : jsstring) : jsstring :=
  match s with
  | [] => []
  | c :: s' => if (c =? 32)%N then s' else depois_do_primeiro_espaco s'
  end.

(** The same split on the first run of white space. *)
Fixpoint antes_do_espaco_em_branco (s : jsstring) : jsstring :=
  match s with
  | [] => []
  | c :: s' => if is_space c then [] else c :: antes_do_espaco_em_branco s'
  end.

Fixpoint depois_do_espaco_em_branco (s : jsstring) : jsstring :=
  match s with
  | [] => []
  | c :: s' =>
      if is_space c then trimStart s' else depois_do_espaco_em_branco s'
  end.

(** ** Candidate descriptions *)

(** A value the column scan of Método 2 accepts: a string that is not blank,
    has at least three code units and holds an ASCII letter. *)
Definition qualifica (valor : value) : bool :=
  match valor with
  | VString s => negb (vazio valor) && (3 <=? length s)%nat && test_letter s
  | _ => false
  end.

(** A value the last scan, Método 4, accepts: more than one code unit. *)
Definition qualifica_metodo4 (valor : value) : bool :=
  match valor with
  | VString s => negb (vazio valor) && (1 <? length s)%nat && test_letter s
  | _ => false
  end.

Definition candidata `{Runtime} (obj : object) (col : jsstring) : bool :=
  negb (V2.coluna_excluida col) && qualifica (get obj col).

(** ** Observations *)

(** The text of [Observações] for the two special prices, each segment kept
    unless its price is [ausente]. *)
Definition observacoes_de `{Runtime} (ausente : value -> bool)
    (precoAtacado precoPromocao : value) : jsstring :=
  (if ausente precoAtacado then []
   else js "Preço atacado: " ++ ToString precoAtacado ++ js "; ")
  ++
  (if ausente precoPromocao then []
   else js "Preço promoção: " ++ ToString precoPromocao ++ js "; ").

(** ** Numbers written with a thousands dot and a decimal comma *)

Definition digitos (s : jsstring) : Prop :=
  Forall (fun c => is_digit c = true) s.

(** A group of digits: at least one. *)
Definition so_digitos (s : jsstring) : Prop := s <> [] /\ digitos s.

(** Digit groups joined by dots, then a comma and the decimals, if any. *)
Definition forma_milhar (grupos : list jsstring) (decimais : jsstring)
  : jsstring :=
  join [46%N] grupos ++
  match decimais with
  | [] => []
  | _ => 44%N :: decimais
  end.

(** The number such a string denotes. *)
Definition valor_milhar (grupos : list jsstring) (decimais : jsstring) : Q :=
  scale10 (Z.of_N (digits_value 10 decimal_digit (concat grupos ++ decimais)))
          (0 - Z.of_nat (length decimais)).

(** ** The strict converter *)

(** The Code cell of a row is empty: missing, null, or the empty string. *)
Definition codigo_ausente (r : object) : bool :=
  match get r (js "Código") with
  | VUndefined | VNull | VString [] => true
  | _ => false
  end.

(** ** Console lines of the v2 converter *)

Section Registos.
Context `{Runtime}.

Definition registo_metodo2 (col : jsstring) (index : nat) (valor : value)
  : event :=
  ConsoleLog
    [js "Descrição encontrada em coluna " ++ V2.aspas ++ col ++ V2.aspas
     ++ js " para produto " ++ string_of_nat (index + 1) ++ js ": "
     ++ V2.aspas ++ ToString valor ++ V2.aspas].

Definition registo_metodo3 (index : nat) (descricaoInferida : jsstring)
  : event :=
  ConsoleLog
    [js "Descrição inferida do código para produto "
     ++ string_of_nat (index + 1) ++ js ": "
     ++ V2.aspas ++ descricaoInferida ++ V2.aspas].

Definition registo_metodo4 (index : nat) (melhor : jsstring * value) : event :=
  ConsoleLog
    [js "Descrição extraída da coluna " ++ V2.aspas ++ fst melhor ++ V2.aspas
     ++ js " para produto " ++ string_of_nat (index + 1) ++ js ": "
     ++ V2.aspas ++ ToString (snd melhor) ++ V2.aspas].

(** The placeholder description of the row at [index], and the warning that
    goes with it. *)
Definition descricao_padrao (index : nat) : jsstring :=
  js "Produto " ++ string_of_nat (index + 1).

Definition aviso_descricao_padrao (index : nat) : event :=
  ConsoleWarn
    [js "⚠️ Usando descrição padrão para produto "
     ++ string_of_nat (index + 1) ++ js ": "
     ++ V2.aspas ++ descricao_padrao index ++ V2.aspas].

End Registos.

(** The candidates of Método 4, in column order. *)
Definition candidatos_metodo4 (obj : object) (colunas : list jsstring)
  : list (jsstring * value) :=
  filter (fun cv => qualifica_metodo4 (snd cv))
         (map (fun col => (col, get obj col)) colunas).

Definition comprimento (valor : value) : option nat :=
  match valor with
  | VString s => Some (length s)
  | _ => None
  end.

(** The callback of the [reduce] of Método 4: the strictly longer value
    replaces the current best. *)
Definition mais_longa (max atual : jsstring * value) : jsstring * value :=
  if V2.length_gt (comprimento (snd atual)) (comprimento (snd max))
  then atual else max.

(** ** Console lines of conversor-final-corrigido.js *)

(** The four lines printed when the description is taken from the code. *)
Definition registos_inferencia `{Runtime} (index : nat) (catalogo : value)
    (codigo : jsstring) : list event :=
  [ConsoleLog
     [[10%N] ++ js "Inferindo descrição para produto "
      ++ string_of_nat (index + 1) ++ js " (Catálogo: "
      ++ ToString catalogo ++ js "):"];
   ConsoleLog [js "- Código original: " ++ V1.aspas ++ codigo ++ V1.aspas];
   ConsoleLog [js "- Código puro: " ++ V1.aspas
               ++ antes_do_primeiro_espaco codigo ++ V1.aspas];
   ConsoleLog [js "- Descrição inferida: " ++ V1.aspas
               ++ depois_do_primeiro_espaco codigo ++ V1.aspas]].

(** The text [converterProduto] keeps as the code: [String(codigo)], or [''] for a
    falsy value. *)
Definition texto_do_codigo `{Runtime} (codigo : value) : jsstring :=
  if truthy codigo then ToString codigo else [].

(** The message of the error [converterProduto] rethrows for the row at
    [index]. *)
Definition erro_de_conversao (index : nat) (causa : exn) : exn :=
  Error (js "Erro ao converter produto " ++ string_of_nat (index + 1)
         ++ js ": " ++ message causa).

(** The test of conversor-final-corrigido.js for taking the description from
    the code: no description, a code that is not blank and holds a space. *)
Definition infere_do_codigo (descricao : value) (codigo : jsstring) : bool :=
  vazio descricao && negb (vazio (VString codigo)) && includes codigo (js " ").

(** ** conversor-simples.js *)

(** The result of the [parseNumero] of conversor-simples.js, which leaves the
    dots of the text in place. *)
Definition numero_ou_padrao_simples `{Runtime} (valor valorPadrao : value)
  : value :=
  if is_undefined valor || is_null valor || is_empty_string valor
  then valorPadrao
  else
    match valor with
    | VNumber n => if isNaN n then valorPadrao else valor
    | _ =>
        let n := StringToNumber (replace_first 44 46 (ToString valor)) in
        if isNaN n then valorPadrao else VNumber n
    end.

(** The error of the strict converter for a row without a code. *)
Definition erro_codigo_obrigatorio `{Runtime} (produtoAtual : entry) : exn :=
  Error (js "Erro ao converter produto "
         ++ ToString (Simples.obterValorSeguro produtoAtual (js "Código")
                        (VString (js "desconhecido")))
         ++ js ": " ++ js "Campo Código é obrigatório").

Definition falso (valor : value) : bool := negb (truthy valor).

(** ** Sample rows *)

Definition texto (s : string) : value := VString (js s).

Definition linha_parafuso : object :=
  [(js "Código", texto "123 Parafuso Phillips"); (js "Preço Varejo", texto "10,50")].

Definition linha_dois_espacos : object :=
  [(js "Código", texto "123  Parafuso")].

Definition linha_hasOwnProperty : object :=
  [(js "hasOwnProperty", texto "x")].

Definition linha_duas_candidatas : object :=
  [(js "A", texto "abc"); (js "B", texto "abcdef")].

Definition linha_blue_widget : object :=
  [(js "Col A", texto "AB"); (js "Col B", texto "Blue Widget")].

Definition linha_codigo_com_letras : object :=
  [(js "Código", texto "ABC123")].

Definition linha_so_numeros : object :=
  [(js "Código", texto "12345"); (js "Preço Varejo", texto "7")].

Definition linha_atacado_zero : object :=
  [(js "Código", texto "1"); (js "Preço Atacado", VNumber (Finite 0))].

Definition linha_precos : object :=
  [(js "Código", texto "1"); (js "Descrição", texto "Parafuso");
   (js "Preço Atacado", texto "9,90"); (js "Preço Promoção", texto "8,50");
   (js "Preço Compra", texto "1.234,56")].

Definition linha_sem_codigo : object :=
  [(js "Código", texto ""); (js "Descrição", texto "Parafuso")].

(** ** More notions for the properties of the helpers and the loops *)

(** The length of a string value. *)
Definition tamanho (valor : value) : nat :=
  match valor with
  | VString s => length s
  | _ => 0
  end.

(** The positions, counted from 0, of the entries a run of the v2 loop
    converts. *)
Fixpoint posicoes_convertidas `{Runtime} (mapaColunasEncontradas : mapa)
    (index : nat) (entradas : list entry) : list nat :=
  match entradas with
  | [] => []
  | e :: resto =>
      match e with
      | Row r =>
          match fst (V2.converterProduto r mapaColunasEncontradas index) with
          | Return _ => [index]
          | Throw _ => []
          end
      | NotAnObject _ => []
      end ++ posicoes_convertidas mapaColunasEncontradas (S index) resto
  end.

(** In a list of candidates, [melhor] is the first of the longest ones. *)
Definition primeira_mais_longa (candidatos : list (jsstring * value))
    (melhor : jsstring * value) : Prop :=
  exists antes depois,
    candidatos = antes ++ melhor :: depois
    /\ (forall cv, In cv antes -> tamanho (snd cv) < tamanho (snd melhor))
    /\ (forall cv, In cv depois -> tamanho (snd cv) <= tamanho (snd melhor)).

Definition linha_maiusculas : object :=
  [(js "CÓDIGO", texto "7"); (js "DESCRIÇÃO", texto "Porca")].

Definition linha_com_descricao : object :=
  [(js "Código", texto "55 A"); (js "Descrição", texto "Porca sextavada")].

Definition linha_curtas : object :=
  [(js "Código", texto "X1"); (js "Unidade", texto "UN"); (js "Preço", texto "R$5")].

(** An entry the loops of conversor-final-corrigido.js and
    conversor-final-corrigido-v2.js cannot convert: not a row object, or a
    row with a column named [hasOwnProperty]. *)
Definition entrada_invalida (e : entry) : bool :=
  match e with
  | Row r => sombreado r
  | NotAnObject _ => true
  end.

Definition linha_sem_descricao : object :=
  [(js "Un", texto "CX"); (js "Preço Varejo", texto "R$ 10,00");
   (js "Valor", texto "R$ 20,00"); (js "Código", texto "ABC123")].

(** The positions, counted from 1, of the entries in which the loop of
    conversor-simples.js finds no description. *)
Fixpoint sem_descricao (index : nat) (entradas : list entry) : list nat :=
  match entradas with
  | [] => []
  | e :: resto =>
      (if truthy (Simples.obterValorSeguro e (js "Descrição") (VString []))
       then [] else [(index + 1)%nat])
      ++ sem_descricao (S index) resto
  end.

(** The expected columns that a first row lacks. *)
Definition colunas_em_falta (primeiroItem : object) : list jsstring :=
  filter (fun coluna => negb (hasOwn primeiroItem coluna))
         Simples.colunasEsperadas.

Definition linha_codigo_zero : object :=
  [(js "Código", VNumber (Finite 0)); (js "Descrição", texto "Arruela")].

Definition linha_so_codigo : object :=
  [(js "Código", texto "A1")].

Definition linha_completa : object :=
  [(js "Código", texto "1"); (js "Descrição", texto "Parafuso");
   (js "Classificação Fiscal", texto "7318"); (js "Preço Compra", texto "1,00");
   (js "Preço Varejo", texto "2,00"); (js "Saldo Estoque", texto "3")].

(** The log line that reports the code column of
    separador-codigo-descricao.js. *)
Definition registo_coluna_codigo (coluna : jsstring) : event :=
  ConsoleLog [js "Usando coluna " ++ Separador.aspas ++ coluna
              ++ Separador.aspas ++ js " como código."].

(** A turn of the loop of separador-codigo-descricao.js that pushes
    [produtoNovo] and counts a code with a space. *)
Definition passo_com_espaco (st : Separador.estado) (produtoNovo : object)
  : Separador.estado :=
  {| Separador.produtosSeparados := Separador.produtosSeparados st ++ [produtoNovo];
     Separador.codigosSemEspaco := Separador.codigosSemEspaco st;
     Separador.codigosComEspaco := Separador.codigosComEspaco st + 1 |}.

(** The entry of [avisosDescricaoVazia] for the record made from the row at
    [index]: its position, and its code or [Item #n]. *)
Definition aviso_de `{Runtime} (index : nat) (p : produto) : nat * value :=
  ((index + 1)%nat,
   if truthy (Codigo p) then Codigo p
   else VString (js "Item #" ++ string_of_nat (index + 1))).

Definition linha_sem_nada : object :=
  [(js "Código", texto "77"); (js "Descrição", texto " ")].

Definition linha_so_descricao : object :=
  [(js "Descrição", texto "Parafuso M8")].

(** A column map whose description entry names the price column. *)
Definition mapa_descricao_no_preco : mapa :=
  Build_mapa None None (Some (js "Preço Varejo")) None None None None None None
             None None None None None None None None None.

(** The value [converterProduto] reads for a field, given the column the map
    has for it and the names tried when the map has none: the cell of the
    column resolved, and the default, the empty string, when no column is
    resolved or the cell is blank. *)
Definition campo_lido `{Runtime} (obj : object) (campo : option jsstring)
    (nomes : list jsstring) : value :=
  valorSeguro obj (ou campo nomes) (VString []).

(** The text of [Informações Adicionais] for the second address and the
    pending note, each segment kept unless its value is blank. *)
Definition informacoes_de `{Runtime} (endereco2 pendencia : value) : jsstring :=
  (if vazio endereco2 then []
   else js "Endereço 2: " ++ ToString endereco2 ++ js "; ")
  ++
  (if vazio pendencia then []
   else js "Pendência: " ++ ToString pendencia ++ js "; ").

(** A value that is a number and not NaN. *)
Definition numero_valido (valor : value) : Prop :=
  exists n, valor = VNumber n /\ isNaN n = false.

(** The four numeric columns of a record hold numbers. *)
Definition colunas_numericas (p : produto) : Prop :=
  numero_valido (Preco p) /\ numero_valido (Estoque p)
  /\ numero_valido (PrecoDeCusto p) /\ numero_valido (PrecoDeCompra p).

Definition linha_precos_em_texto : object :=
  [(js "Código", texto "9"); (js "Preço Varejo", texto "a combinar");
   (js "Saldo Estoque", texto "12"); (js "Preço Compra", texto "3,50")].

(** ** Runs *)

(** The records a run of the v2 loop is expected to collect: one for each
    entry, in order, whose conversion succeeds. *)
Fixpoint convertidos `{Runtime} (mapaColunasEncontradas : mapa) (index : nat)
    (entradas : list entry) : list produto :=
  match entradas with
  | [] => []
  | e :: resto =>
      match e with
      | Row r =>
          match fst (V2.converterProduto r mapaColunasEncontradas index) with
          | Return p => [p]
          | Throw _ => []
          end
      | NotAnObject _ => []
      end ++ convertidos mapaColunasEncontradas (S index) resto
  end.

(** How many entries of a run fail. *)
Fixpoint falhados `{Runtime} (mapaColunasEncontradas : mapa) (index : nat)
    (entradas : list entry) : nat :=
  match entradas with
  | [] => 0
  | e :: resto =>
      match e with
      | Row r =>
          match fst (V2.converterProduto r mapaColunasEncontradas index) with
          | Return _ => 0
          | Throw _ => 1
          end
      | NotAnObject _ => 1
      end + falhados mapaColunasEncontradas (S index) resto
  end.

End Spec.

(* ================================================================== *)
(** * Facts about the runtime model *)
(* ================================================================== *)

Module JSFacts.
Import JS.
Local Open Scope js_scope.

Lemma bind_ret_l {A B} (a : A) (f : A -> M B) : bind (ret a) f = f a.
Proof. unfold bind, ret. destruct (f a) as [r l]. reflexivity. Qed.

Lemma bind_throw {A B} (e : exn) (l : list event) (f : A -> M B) :
  bind (Throw e, l) f = (Throw e, l).
Proof. reflexivity. Qed.

Lemma bind_Return_inv {A B} (m : M A) (f : A -> M B) (b : B) (l : list event) :
  bind m f = (Return b, l) ->
  exists a l1 l2, m = (Return a, l1) /\ f a = (Return b, l2) /\ l = l1 ++ l2.
Proof.
  destruct m as [[a | e] l1]; cbn.
  - destruct (f a) as [r l2] eqn:E. intros Heq. inversion Heq; subst.
    exists a, l1, l2. auto.
  - discriminate.
Qed.

Lemma bind_Return {A B} (m : M A) (f : A -> M B) a l1 b l2 :
  m = (Return a, l1) -> f a = (Return b, l2) ->
  bind m f = (Return b, l1 ++ l2).
Proof. intros -> Hf. cbn. rewrite Hf. reflexivity. Qed.

Lemma try_catch_Return {A} (a : A) l (h : exn -> M A) :
  try_catch (Return a, l) h = (Return a, l).
Proof. reflexivity. Qed.

Lemma try_catch_ret {A} (a : A) (h : exn -> M A) : try_catch (ret a) h = ret a.
Proof. reflexivity. Qed.

(** A handler that always rethrows lets only normal results through. *)
Lemma try_catch_rethrow_inv {A} (m : M A) (h : exn -> exn) a l :
  try_catch m (fun e => throw (h e)) = (Return a, l) -> m = (Return a, l).
Proof. destruct m as [[a' | e] l']; cbn; [auto | discriminate]. Qed.

(** Reading a field of the record a computation returned. *)
Lemma campo_de {A B} (m : M A) p l (f : A -> B) (padrao v : B) :
  m = (Return p, l) ->
  match fst m with Return q => f q | Throw _ => padrao end = v ->
  f p = v.
Proof. intros -> Hv. exact Hv. Qed.

Lemma registo_de {A} (m : M A) p l (v : list event) :
  m = (Return p, l) -> snd m = v -> l = v.
Proof. intros -> Hv. exact Hv. Qed.

Lemma str_eqb_eq s t : str_eqb s t = true <-> s = t.
Proof.
  revert t. induction s as [| a s IH]; destruct t as [| b t]; cbn;
    try (split; [discriminate | discriminate]); try tauto.
  rewrite andb_true_iff, N.eqb_eq, IH. split.
  - intros [-> ->]. reflexivity.
  - intros Heq. inversion Heq. auto.
Qed.

Lemma str_eqb_refl s : str_eqb s s = true.
Proof. apply str_eqb_eq. reflexivity. Qed.

Lemma str_eqb_neq s t : str_eqb s t = false <-> s <> t.
Proof.
  rewrite <- str_eqb_eq. destruct (str_eqb s t); split; congruence.
Qed.

Lemma hasOwn_In (o : object) k : hasOwn o k = true <-> In k (keys o).
Proof.
  unfold hasOwn. rewrite existsb_exists. split.
  - intros (x & Hin & Heq). apply str_eqb_eq in Heq. subst. exact Hin.
  - intros Hin. exists k. split; [exact Hin | apply str_eqb_refl].
Qed.

Lemma hasOwn_false (o : object) k : hasOwn o k = false <-> ~ In k (keys o).
Proof.
  rewrite <- hasOwn_In. destruct (hasOwn o k); split; congruence.
Qed.

End JSFacts.

(* ================================================================== *)
(** * The shared helpers *)
(* ================================================================== *)

Module CorrigidoFacts.
Import JS Layout Corrigido Spec JSFacts.
Local Open Scope js_scope.

Section Facts.
Context `{Runtime}.

Lemma string_em_branco_ret valor :
  string_em_branco valor =
  ret (match valor with VString s => str_eqb (trim s) [] | _ => false end).
Proof. destruct valor; reflexivity. Qed.

(** [estaVazio] never throws; it decides blankness. *)
Lemma estaVazio_ret valor : estaVazio valor = ret (vazio valor).
Proof.
  destruct valor as [| | s | n]; try reflexivity.
  unfold estaVazio. cbn [is_undefined is_null orb].
  rewrite string_em_branco_ret, bind_ret_l. cbn [vazio].
  destruct (str_eqb (trim s) []); reflexivity.
Qed.

Lemma encontrarColuna_exata_sem_sombra obj possiveisNomes :
  sombreado obj = false ->
  encontrarColuna_exata obj possiveisNomes = ret (find (hasOwn obj) possiveisNomes).
Proof.
  intros Hs. induction possiveisNomes as [| nome resto IH]; [reflexivity |].
  cbn [encontrarColuna_exata find]. unfold call_hasOwnProperty.
  unfold sombreado in Hs. rewrite Hs, bind_ret_l.
  destruct (hasOwn obj nome); [reflexivity | exact IH].
Qed.

Lemma encontrarColuna_exata_sombreado obj nome resto :
  sombreado obj = true ->
  encontrarColuna_exata obj (nome :: resto) = throw erro_de_sombra.
Proof.
  intros Hs. cbn [encontrarColuna_exata]. unfold call_hasOwnProperty.
  unfold sombreado in Hs. rewrite Hs. reflexivity.
Qed.

(** On a row without a column named [hasOwnProperty], [encontrarColuna]
    returns the header described by [resolver]. *)
Lemma encontrarColuna_sem_sombra obj possiveisNomes :
  sombreado obj = false ->
  encontrarColuna obj possiveisNomes = ret (resolver obj possiveisNomes).
Proof.
  intros Hs. unfold encontrarColuna, resolver.
  rewrite encontrarColuna_exata_sem_sombra, bind_ret_l by exact Hs.
  destruct (find (hasOwn obj) possiveisNomes); reflexivity.
Qed.

Lemma encontrarColuna_sombreado obj nome resto :
  sombreado obj = true ->
  encontrarColuna obj (nome :: resto) = throw erro_de_sombra.
Proof.
  intros Hs. unfold encontrarColuna.
  rewrite encontrarColuna_exata_sombreado by exact Hs. reflexivity.
Qed.

Lemma obterValorSeguro_sem_sombra obj possiveisNomes valorPadrao :
  sombreado obj = false ->
  obterValorSeguro obj possiveisNomes valorPadrao =
  ret (valorSeguro obj possiveisNomes valorPadrao).
Proof.
  intros Hs. unfold obterValorSeguro, valorSeguro.
  assert (Hgo : forall lista,
    (nomeEncontrado <- encontrarColuna obj lista ;;
     match nomeEncontrado with
     | Some (c :: nome) =>
         let valor := get obj (c :: nome) in
         if is_undefined valor || is_null valor then ret valorPadrao
         else
           branco <- string_em_branco valor ;;
           if branco then ret valorPadrao else ret valor
     | _ => ret valorPadrao
     end) =
    ret (match resolver obj lista with
         | Some (c :: nome) =>
             if vazio (get obj (c :: nome)) then valorPadrao
             else get obj (c :: nome)
         | _ => valorPadrao
         end)).
  { intros lista. rewrite encontrarColuna_sem_sombra, bind_ret_l by exact Hs.
    destruct (resolver obj lista) as [[| c nome] |]; try reflexivity.
    cbv zeta. destruct (get obj (c :: nome)) as [| | s | n]; try reflexivity.
    cbn [is_undefined is_null orb]. rewrite string_em_branco_ret, bind_ret_l.
    cbn [vazio]. destruct (str_eqb (trim s) []); reflexivity. }
  destruct possiveisNomes as [[| c nome] | lista]; [reflexivity | apply Hgo ..].
Qed.

Lemma obterValorSeguro_sombreado obj possiveisNomes valorPadrao :
  sombreado obj = true ->
  lista_de_nomes possiveisNomes <> [] ->
  obterValorSeguro obj possiveisNomes valorPadrao = throw erro_de_sombra.
Proof.
  intros Hs Hne. unfold obterValorSeguro.
  destruct possiveisNomes as [[| c nome] | [| nome resto]]; cbn in Hne;
    try congruence.
  - rewrite encontrarColuna_sombreado by exact Hs. reflexivity.
  - rewrite encontrarColuna_sombreado by exact Hs. reflexivity.
Qed.

Lemma lista_de_nomes_ou campo nome resto :
  lista_de_nomes (ou campo (nome :: resto)) <> [].
Proof. destruct campo as [[| c s] |]; cbn; discriminate. Qed.

(** What [obterValorSeguro] returns is the default or a value that is not
    blank. *)
Lemma valorSeguro_padrao_ou_cheio obj possiveisNomes valorPadrao :
  valorSeguro obj possiveisNomes valorPadrao = valorPadrao \/
  vazio (valorSeguro obj possiveisNomes valorPadrao) = false.
Proof.
  unfold valorSeguro.
  destruct possiveisNomes as [[| c nome] | lista]; auto;
    (destruct (resolver obj _) as [[| c' nome'] |]; auto;
     destruct (vazio (get obj (c' :: nome'))) eqn:E; auto).
Qed.

Lemma parseNumero_ret valor valorPadrao :
  parseNumero valor valorPadrao = ret (numero_ou_padrao valor valorPadrao).
Proof.
  unfold parseNumero, numero_ou_padrao.
  destruct (is_undefined valor || is_null valor || is_empty_string valor);
    [reflexivity |].
  destruct valor; reflexivity.
Qed.

End Facts.
End CorrigidoFacts.

(* ================================================================== *)
(** * The column resolver *)
(* ================================================================== *)

Module ResolverFacts.
Import JS Layout Corrigido Spec JSFacts CorrigidoFacts.
Local Open Scope js_scope.

Section Facts.
Context `{Runtime}.

Lemma findIndex_found {A} (p : A -> bool) (arr : list A) :
  (0 <=? findIndex p arr)%Z = existsb p arr.
Proof.
  induction arr as [| x rest IH]; [reflexivity |].
  cbn [findIndex existsb]. destruct (p x); [reflexivity |].
  cbn [orb]. rewrite <- IH.
  destruct (findIndex p rest <? 0)%Z eqn:E.
  - apply Z.ltb_lt in E. symmetry. apply Z.leb_gt. exact E.
  - apply Z.ltb_ge in E. rewrite (proj2 (Z.leb_le _ _) E).
    apply Z.leb_le. lia.
Qed.

Lemma existsb_str_eqb_In (x : jsstring) (l : list jsstring) :
  existsb (fun n => str_eqb n x) l = true <-> In x l.
Proof.
  rewrite existsb_exists. split.
  - intros (n & Hin & Heq). apply str_eqb_eq in Heq. subst. exact Hin.
  - intros Hin. exists x. split; [exact Hin | apply str_eqb_refl].
Qed.

(** The second loop returns the first key, in key order, whose normal form
    is the normal form of a candidate. *)
Lemma encontrarColuna_normalizada_primeira normalizados antes chave depois :
  In (normalizar chave) normalizados ->
  (forall k, In k antes -> ~ In (normalizar k) normalizados) ->
  encontrarColuna_normalizada normalizados (antes ++ chave :: depois) = Some chave.
Proof.
  intros Hin Hantes. induction antes as [| k antes IH]; cbn [app encontrarColuna_normalizada].
  - rewrite findIndex_found.
    rewrite (proj2 (existsb_str_eqb_In _ _) Hin). reflexivity.
  - rewrite findIndex_found.
    destruct (existsb (fun n => str_eqb n (normalizar k)) normalizados) eqn:E.
    + apply existsb_str_eqb_In in E. exfalso.
      apply (Hantes k); [left; reflexivity | exact E].
    + apply IH. intros k' Hk'. apply Hantes. right. exact Hk'.
Qed.

Lemma encontrarColuna_normalizada_nenhuma normalizados chaves :
  (forall k, In k chaves -> ~ In (normalizar k) normalizados) ->
  encontrarColuna_normalizada normalizados chaves = None.
Proof.
  intros Hno. induction chaves as [| k chaves IH]; [reflexivity |].
  cbn [encontrarColuna_normalizada]. rewrite findIndex_found.
  destruct (existsb (fun n => str_eqb n (normalizar k)) normalizados) eqn:E.
  - apply existsb_str_eqb_In in E. exfalso.
    apply (Hno k); [left; reflexivity | exact E].
  - apply IH. intros k' Hk'. apply Hno. right. exact Hk'.
Qed.

Lemma find_primeiro {A} (p : A -> bool) antes x depois :
  p x = true -> (forall y, In y antes -> p y = false) ->
  find p (antes ++ x :: depois) = Some x.
Proof.
  intros Hx Hantes. induction antes as [| y antes IH]; cbn [app find].
  - rewrite Hx. reflexivity.
  - rewrite (Hantes y (or_introl eq_refl)). apply IH.
    intros z Hz. apply Hantes. right. exact Hz.
Qed.

Lemma find_nenhum {A} (p : A -> bool) l :
  (forall y, In y l -> p y = false) -> find p l = None.
Proof.
  intros Hl. induction l as [| y l IH]; [reflexivity |].
  cbn [find]. rewrite (Hl y (or_introl eq_refl)). apply IH.
  intros z Hz. apply Hl. right. exact Hz.
Qed.

(** An exact match wins, candidates taken in priority order. *)
Lemma resolver_exata obj antes nome depois :
  In nome (keys obj) ->
  (forall n, In n antes -> ~ In n (keys obj)) ->
  resolver obj (antes ++ nome :: depois) = Some nome.
Proof.
  intros Hin Hantes. unfold resolver.
  rewrite (find_primeiro (hasOwn obj) antes nome depois); [reflexivity | |].
  - apply hasOwn_In. exact Hin.
  - intros n Hn. apply hasOwn_false. apply Hantes. exact Hn.
Qed.

(** Without an exact match, the first header whose normal form is that of a
    candidate wins, headers taken in their own order. *)
Lemma resolver_normalizada obj possiveisNomes antes chave depois :
  (forall n, In n possiveisNomes -> ~ In n (keys obj)) ->
  keys obj = antes ++ chave :: depois ->
  In (normalizar chave) (map normalizar possiveisNomes) ->
  (forall k, In k antes -> ~ In (normalizar k) (map normalizar possiveisNomes)) ->
  resolver obj possiveisNomes = Some chave.
Proof.
  intros Hex Hkeys Hin Hantes. unfold resolver.
  rewrite find_nenhum.
  - rewrite Hkeys. apply encontrarColuna_normalizada_primeira; assumption.
  - intros n Hn. apply hasOwn_false. apply Hex. exact Hn.
Qed.

(** With neither, the field stays unresolved. *)
Lemma resolver_nenhuma obj possiveisNomes :
  (forall n, In n possiveisNomes -> ~ In n (keys obj)) ->
  (forall k, In k (keys obj) ->
             ~ In (normalizar k) (map normalizar possiveisNomes)) ->
  resolver obj possiveisNomes = None.
Proof.
  intros Hex Hno. unfold resolver. rewrite find_nenhum.
  - apply encontrarColuna_normalizada_nenhuma. exact Hno.
  - intros n Hn. apply hasOwn_false. apply Hex. exact Hn.
Qed.

(** C6 — for every candidate list and every row that reaches the resolver,
    the resolver binds the field to the first candidate, in candidate order,
    that is a header; otherwise to the first header, in header order, whose
    normal form (NFD, combining marks removed, lower case, trimmed) is that
    of a candidate; otherwise it leaves the field unresolved; and it raises
    no error.  A row that reaches the resolver has no column named
    [hasOwnProperty]: in conversor-final-corrigido-v2.js the column report
    of [diagnosticarColunas] runs before every call, over rows that all have
    the headers of the sheet, and it does not get past a column of that
    name. *)
Theorem encontrarColuna_ordem_de_resolucao obj possiveisNomes :
  sombreado obj = false ->
  exists resultado,
    encontrarColuna obj possiveisNomes = ret resultado /\
    (forall antes nome depois,
        possiveisNomes = antes ++ nome :: depois ->
        In nome (keys obj) ->
        (forall n, In n antes -> ~ In n (keys obj)) ->
        resultado = Some nome) /\
    ((forall n, In n possiveisNomes -> ~ In n (keys obj)) ->
     forall antes chave depois,
        keys obj = antes ++ chave :: depois ->
        In (normalizar chave) (map normalizar possiveisNomes) ->
        (forall k, In k antes ->
                   ~ In (normalizar k) (map normalizar possiveisNomes)) ->
        resultado = Some chave) /\
    ((forall n, In n possiveisNomes -> ~ In n (keys obj)) ->
     (forall k, In k (keys obj) ->
                ~ In (normalizar k) (map normalizar possiveisNomes)) ->
     resultado = None).
Proof.
  intros Hs. exists (resolver obj possiveisNomes).
  split; [apply encontrarColuna_sem_sombra; exact Hs |].
  split; [| split].
  - intros antes nome depois -> Hin Hantes. apply resolver_exata; assumption.
  - intros Hex antes chave depois Hkeys Hin Hantes.
    eapply resolver_normalizada; eassumption.
  - intros Hex Hno. apply resolver_nenhuma; assumption.
Qed.

End Facts.

(** What a direct call does on a row with a column named [hasOwnProperty]:
    the call [obj.hasOwnProperty(nome)] reaches the cell of that column
    instead of the inherited method, and [encontrarColuna] ends with a
    TypeError. *)
Lemma encontrarColuna_coluna_hasOwnProperty :
  forall `{Runtime},
    encontrarColuna [(js "hasOwnProperty", VString (js "x"))]
                    [js "Código"; js "Codigo"]
    = (Throw erro_de_sombra, []).
Proof. intros R. reflexivity. Qed.

End ResolverFacts.

(* ================================================================== *)
(** * Strings: splitting and trimming *)
(* ================================================================== *)

Module StringFacts.
Import JS Spec JSFacts.

Lemma js_espaco : js " " = [32%N].
Proof. reflexivity. Qed.

Lemma split_not_nil sep s : split sep s <> [].
Proof.
  destruct s as [| c s]; cbn; [discriminate |].
  destruct (c =? sep)%N; [discriminate |].
  destruct (split sep s); discriminate.
Qed.

Lemma join_cons sep p q ps : join sep (p :: q :: ps) = p ++ sep ++ join sep (q :: ps).
Proof. reflexivity. Qed.

(** Joining the parts of a split gives the string back. *)
Lemma join_split sep s : join [sep] (split sep s) = s.
Proof.
  induction s as [| c s IH]; [reflexivity |].
  cbn [split]. destruct (c =? sep)%N eqn:E.
  - apply N.eqb_eq in E. subst c.
    destruct (split sep s) as [| p ps] eqn:Es;
      [exfalso; eapply split_not_nil; eassumption |].
    rewrite join_cons, IH. reflexivity.
  - destruct (split sep s) as [| p ps] eqn:Es;
      [exfalso; eapply split_not_nil; eassumption |].
    destruct ps as [| q ps].
    + cbn in IH |- *. rewrite IH. reflexivity.
    + rewrite join_cons in IH. rewrite join_cons, <- app_comm_cons, IH.
      reflexivity.
Qed.

(** [partes[0]] is the text before the first space. *)
Lemma split_primeira s :
  hd [] (split 32 s) = antes_do_primeiro_espaco s.
Proof.
  induction s as [| c s IH]; [reflexivity |].
  cbn [split antes_do_primeiro_espaco]. destruct (c =? 32)%N; [reflexivity |].
  destruct (split 32 s) as [| p ps] eqn:Es;
    [exfalso; eapply split_not_nil; eassumption |].
  cbn in IH |- *. rewrite IH. reflexivity.
Qed.

(** [partes.slice(1).join(' ')] is the text after the first space. *)
Lemma split_resto s :
  includes s [32%N] = true ->
  join [32%N] (skipn 1 (split 32 s)) = depois_do_primeiro_espaco s.
Proof.
  induction s as [| c s IH]; [discriminate |].
  cbn [includes starts_with split depois_do_primeiro_espaco].
  destruct (c =? 32)%N eqn:E.
  - intros _. cbn [skipn]. apply join_split.
  - cbn [andb orb]. intros Hinc.
    destruct (split 32 s) as [| p ps] eqn:Es;
      [exfalso; eapply split_not_nil; eassumption |].
    cbn [skipn] in IH |- *. apply IH.
    rewrite N.eqb_sym, E in Hinc. exact Hinc.
Qed.

Lemma letter_not_space c : is_ascii_letter c = true -> is_space c = false.
Proof.
  unfold is_ascii_letter, is_space. intros Hl.
  rewrite orb_true_iff, !andb_true_iff, !N.leb_le in Hl.
  rewrite !orb_false_iff, !andb_false_iff, !N.eqb_neq, !N.leb_gt. lia.
Qed.

Lemma trimStart_keeps c s : In c s -> is_space c = false -> In c (trimStart s).
Proof.
  intros Hin Hc. induction s as [| x s IH]; [contradiction |].
  cbn [trimStart]. destruct (is_space x) eqn:Ex.
  - destruct Hin as [-> | Hin]; [congruence | auto].
  - exact Hin.
Qed.

Lemma trim_keeps c s : In c s -> is_space c = false -> In c (trim s).
Proof.
  intros Hin Hc. unfold trim, trimEnd.
  apply in_rev. rewrite rev_involutive.
  apply trimStart_keeps; [| exact Hc].
  apply -> in_rev. apply trimStart_keeps; assumption.
Qed.

(** A string that holds a letter is not blank. *)
Lemma letter_not_blank s : test_letter s = true -> vazio (VString s) = false.
Proof.
  unfold test_letter. rewrite existsb_exists. intros (c & Hin & Hc).
  cbn [vazio]. apply str_eqb_neq. intros Hnil.
  pose proof (trim_keeps c s Hin (letter_not_space c Hc)) as Hk.
  rewrite Hnil in Hk. contradiction.
Qed.

Lemma trimStart_id s :
  Forall (fun c => is_space c = false) s -> trimStart s = s.
Proof.
  intros Hs. destruct s as [| c s]; [reflexivity |].
  inversion Hs; subst. cbn [trimStart]. rewrite H1. reflexivity.
Qed.

(** A string without white space is its own trim. *)
Lemma trim_id s : Forall (fun c => is_space c = false) s -> trim s = s.
Proof.
  intros Hs. unfold trim, trimEnd. rewrite (trimStart_id s Hs).
  rewrite trimStart_id; [apply rev_involutive |].
  apply Forall_rev. exact Hs.
Qed.

End StringFacts.

(* ================================================================== *)
(** * The description heuristic of conversor-final-corrigido-v2.js *)
(* ================================================================== *)

Module V2Facts.
Import JS Layout Corrigido Spec JSFacts CorrigidoFacts StringFacts.
Import V2.
Local Open Scope js_scope.

Section Facts.
Context `{Runtime}.

(** *** Método 1 *)

Lemma metodo1_cons obj col resto :
  sombreado obj = false ->
  extrairDescricao_metodo1 obj (col :: resto) =
  if vazio (valorSeguro obj (VariosNomes [col]) (VString []))
  then extrairDescricao_metodo1 obj resto
  else ret (Some (valorSeguro obj (VariosNomes [col]) (VString []))).
Proof.
  intros Hs. cbn [extrairDescricao_metodo1].
  rewrite obterValorSeguro_sem_sombra, bind_ret_l by exact Hs.
  rewrite estaVazio_ret, bind_ret_l.
  destruct (vazio _); reflexivity.
Qed.

Lemma metodo1_nada obj colunas :
  sombreado obj = false ->
  (forall col, In col colunas ->
               vazio (valorSeguro obj (VariosNomes [col]) (VString [])) = true) ->
  extrairDescricao_metodo1 obj colunas = ret None.
Proof.
  intros Hs Hall. induction colunas as [| col resto IH]; [reflexivity |].
  rewrite metodo1_cons by exact Hs.
  rewrite (Hall col (or_introl eq_refl)). apply IH.
  intros c Hc. apply Hall. right. exact Hc.
Qed.

Lemma metodo1_total obj colunas :
  sombreado obj = false ->
  exists r, extrairDescricao_metodo1 obj colunas = ret r.
Proof.
  intros Hs. induction colunas as [| col resto IH]; [exists None; reflexivity |].
  rewrite metodo1_cons by exact Hs.
  destruct (vazio _); [exact IH | eexists; reflexivity].
Qed.

(** A description returned by Método 1 is never blank. *)
Lemma metodo1_cheia obj colunas d :
  sombreado obj = false ->
  extrairDescricao_metodo1 obj colunas = ret (Some d) -> vazio d = false.
Proof.
  intros Hs. induction colunas as [| col resto IH]; [discriminate |].
  rewrite metodo1_cons by exact Hs.
  destruct (vazio (valorSeguro obj _ _)) eqn:E; [exact IH |].
  intros Heq. inversion Heq; subst. exact E.
Qed.

Lemma metodo1_sombreado obj col resto :
  sombreado obj = true ->
  extrairDescricao_metodo1 obj (col :: resto) = throw erro_de_sombra.
Proof.
  intros Hs. cbn [extrairDescricao_metodo1].
  rewrite obterValorSeguro_sombreado; [reflexivity | exact Hs | discriminate].
Qed.

(** *** Método 2 *)

Lemma metodo2_cons obj col resto index :
  extrairDescricao_metodo2 obj (col :: resto) index =
  if candidata obj col
  then (Return (Some (get obj col)), [registo_metodo2 col index (get obj col)])
  else extrairDescricao_metodo2 obj resto index.
Proof.
  cbn [extrairDescricao_metodo2]. unfold candidata.
  destruct (coluna_excluida col); [reflexivity |]. cbn [negb andb].
  rewrite estaVazio_ret, bind_ret_l.
  destruct (get obj col) as [| | s | n]; try reflexivity.
  unfold qualifica. cbn [is_string typeof].
  destruct (vazio (VString s)); [reflexivity |]. cbn [negb andb].
  cbn [get_length]. rewrite bind_ret_l. cbn [length_ge ToString].
  destruct ((3 <=? length s)%nat && test_letter s); reflexivity.
Qed.

Lemma metodo2_nada obj colunas index :
  (forall col, In col colunas -> candidata obj col = false) ->
  extrairDescricao_metodo2 obj colunas index = ret None.
Proof.
  intros Hall. induction colunas as [| col resto IH]; [reflexivity |].
  rewrite metodo2_cons, (Hall col (or_introl eq_refl)). apply IH.
  intros c Hc. apply Hall. right. exact Hc.
Qed.

(** Método 2 returns the first candidate in column order. *)
Lemma metodo2_primeira obj antes col depois index :
  (forall c, In c antes -> candidata obj c = false) ->
  candidata obj col = true ->
  extrairDescricao_metodo2 obj (antes ++ col :: depois) index =
  (Return (Some (get obj col)), [registo_metodo2 col index (get obj col)]).
Proof.
  intros Hantes Hcol. induction antes as [| c antes IH]; cbn [app].
  - rewrite metodo2_cons, Hcol. reflexivity.
  - rewrite metodo2_cons, (Hantes c (or_introl eq_refl)). apply IH.
    intros c' Hc'. apply Hantes. right. exact Hc'.
Qed.

Lemma metodo2_total obj colunas index :
  exists r l, extrairDescricao_metodo2 obj colunas index = (Return r, l).
Proof.
  induction colunas as [| col resto IH]; [exists None, []; reflexivity |].
  rewrite metodo2_cons. destruct (candidata obj col); [| exact IH].
  eexists; eexists; reflexivity.
Qed.

Lemma qualifica_cheia valor : qualifica valor = true -> vazio valor = false.
Proof.
  destruct valor as [| | s | n]; try discriminate. unfold qualifica.
  destruct (vazio (VString s)); [discriminate | reflexivity].
Qed.

Lemma metodo2_cheia obj colunas index d l :
  extrairDescricao_metodo2 obj colunas index = (Return (Some d), l) ->
  vazio d = false.
Proof.
  induction colunas as [| col resto IH]; [discriminate |].
  rewrite metodo2_cons. destruct (candidata obj col) eqn:E; [| exact IH].
  intros Heq. inversion Heq; subst.
  unfold candidata in E. apply andb_true_iff in E. destruct E as [_ E].
  apply qualifica_cheia. exact E.
Qed.

(** *** Método 4 *)

Lemma candidatos_ret obj colunas acc :
  extrairDescricao_candidatos obj colunas acc =
  ret (acc ++ candidatos_metodo4 obj colunas).
Proof.
  revert acc. induction colunas as [| col resto IH]; intros acc.
  - cbn. rewrite app_nil_r. reflexivity.
  - cbn [extrairDescricao_candidatos]. rewrite estaVazio_ret, bind_ret_l.
    assert (Hac :
      (if negb (vazio (get obj col)) && is_string (get obj col)
       then len <- get_length (get obj col) ;;
            ret (length_gt len (Some 1%nat)
                 && test_letter (ToString (get obj col)))
       else ret false) = ret (qualifica_metodo4 (get obj col))).
    { destruct (get obj col) as [| | s | n]; try reflexivity.
      unfold qualifica_metodo4. cbn [is_string typeof].
      destruct (vazio (VString s)); reflexivity. }
    rewrite Hac, bind_ret_l, IH. unfold candidatos_metodo4.
    cbn [map filter snd].
    destruct (qualifica_metodo4 (get obj col));
      [rewrite <- app_assoc |]; reflexivity.
Qed.

Lemma candidatos_metodo4_strings obj colunas :
  Forall (fun cv => is_string (snd cv) = true) (candidatos_metodo4 obj colunas).
Proof.
  unfold candidatos_metodo4. apply Forall_forall. intros cv Hin.
  apply filter_In in Hin. destruct Hin as [_ Hq].
  destruct (snd cv); try discriminate. reflexivity.
Qed.

Lemma candidatos_metodo4_nenhum obj colunas :
  (forall col, In col colunas -> qualifica_metodo4 (get obj col) = false) ->
  candidatos_metodo4 obj colunas = [].
Proof.
  intros Hall. unfold candidatos_metodo4.
  induction colunas as [| col resto IH]; [reflexivity |].
  cbn [map filter snd]. rewrite (Hall col (or_introl eq_refl)). apply IH.
  intros c Hc. apply Hall. right. exact Hc.
Qed.

Lemma get_length_string valor :
  is_string valor = true -> get_length valor = ret (comprimento valor).
Proof. destruct valor; try discriminate. reflexivity. Qed.

Lemma mais_longa_string max atual :
  is_string (snd max) = true -> is_string (snd atual) = true ->
  is_string (snd (mais_longa max atual)) = true.
Proof. unfold mais_longa. destruct (length_gt _ _); auto. Qed.

(** On string candidates the [reduce] of Método 4 never throws and folds
    [mais_longa] over the array. *)
Lemma reduce_mais_longa x resto :
  Forall (fun cv => is_string (snd cv) = true) (x :: resto) ->
  reduce
    (fun max atual : jsstring * value =>
       lenAtual <- get_length (snd atual) ;;
       lenMax <- get_length (snd max) ;;
       ret (if length_gt lenAtual lenMax then atual else max))
    (x :: resto)
  = ret (fold_left mais_longa resto x).
Proof.
  cbn [reduce]. revert x. induction resto as [| y resto IH]; intros x Hall.
  - reflexivity.
  - inversion Hall as [| ? ? Hx Hrest]; subst.
    inversion Hrest as [| ? ? Hy Hresto]; subst.
    cbn [fold_left]. rewrite bind_ret_l.
    rewrite (get_length_string _ Hy), bind_ret_l.
    rewrite (get_length_string _ Hx), bind_ret_l.
    change (if length_gt (comprimento (snd y)) (comprimento (snd x)) then y else x)
      with (mais_longa x y).
    apply IH. constructor; [| exact Hresto].
    apply mais_longa_string; assumption.
Qed.

Lemma fold_mais_longa_cheia resto x :
  Forall (fun cv => qualifica_metodo4 (snd cv) = true) (x :: resto) ->
  qualifica_metodo4 (snd (fold_left mais_longa resto x)) = true.
Proof.
  revert x. induction resto as [| y resto IH]; intros x Hall.
  - inversion Hall; subst. assumption.
  - inversion Hall as [| ? ? Hx Hrest]; subst.
    inversion Hrest as [| ? ? Hy Hresto]; subst.
    cbn [fold_left]. apply IH. constructor; [| exact Hresto].
    unfold mais_longa. destruct (length_gt _ _); assumption.
Qed.

End Facts.
End V2Facts.

Module V2Extracao.
Import JS Layout Corrigido Spec JSFacts CorrigidoFacts StringFacts V2Facts.
Import V2.
Local Open Scope js_scope.

Section Facts.
Context `{Runtime}.

(** One step of a computation whose first part is known. *)
Lemma bind_step {A B} (m : M A) (f : A -> M B) a l1 r l2 :
  m = (Return a, l1) -> f a = (r, l2) -> bind m f = (r, l1 ++ l2).
Proof. intros -> Hf. cbn. rewrite Hf. reflexivity. Qed.

Lemma bind_step_silent {A B} (m : M A) (f : A -> M B) a l1 r :
  m = (Return a, l1) -> f a = (r, []) -> bind m f = (r, l1).
Proof. intros -> Hf. cbn. rewrite Hf, app_nil_r. reflexivity. Qed.

Lemma metodo1_sem_sombra obj col resto r l :
  extrairDescricao_metodo1 obj (col :: resto) = (Return r, l) ->
  sombreado obj = false.
Proof.
  intros Hm. destruct (sombreado obj) eqn:Hs; [| reflexivity].
  rewrite metodo1_sombreado in Hm by exact Hs. discriminate.
Qed.

Lemma metodo1_sem_registo obj colunas r l :
  sombreado obj = false ->
  extrairDescricao_metodo1 obj colunas = (Return r, l) -> l = [].
Proof.
  intros Hs Hm. destruct (metodo1_total obj colunas Hs) as [r' Hr].
  rewrite Hr in Hm. inversion Hm. reflexivity.
Qed.

(** The test of Método 3 on the code read from the row. *)
Lemma tem_espaco_ret codigo :
  (if negb (vazio codigo) && is_string codigo
   then call_includes codigo (js " ") else ret false)
  = ret (match codigo with
         | VString s => negb (vazio codigo) && includes s (js " ")
         | _ => false
         end).
Proof.
  destruct codigo as [| | s | n]; try reflexivity.
  cbn [is_string typeof]. destruct (vazio (VString s)); reflexivity.
Qed.

(** Método 4 as a whole: nothing when there is no candidate, else the
    longest candidate, the earliest one among equals. *)
Lemma metodo4_ret obj colunas index :
  (possiveisCamposDescricao <- extrairDescricao_candidatos obj colunas [] ;;
   if (0 <? length possiveisCamposDescricao)%nat then
     melhorDescricao <-
       reduce
         (fun max atual : jsstring * value =>
            lenAtual <- get_length (snd atual) ;;
            lenMax <- get_length (snd max) ;;
            ret (if length_gt lenAtual lenMax then atual else max))
         possiveisCamposDescricao ;;
     console_log
       [js "Descrição extraída da coluna " ++ aspas
        ++ fst melhorDescricao ++ aspas ++ js " para produto "
        ++ string_of_nat (index + 1) ++ js ": " ++ aspas
        ++ ToString (snd melhorDescricao) ++ aspas] ;;;
     ret (snd melhorDescricao)
   else ret (VString []))
  = match candidatos_metodo4 obj colunas with
    | [] => ret (VString [])
    | x :: resto =>
        (Return (snd (fold_left mais_longa resto x)),
         [registo_metodo4 index (fold_left mais_longa resto x)])
    end.
Proof.
  rewrite candidatos_ret, bind_ret_l. cbn [app].
  pose proof (candidatos_metodo4_strings obj colunas) as Hstr.
  destruct (candidatos_metodo4 obj colunas) as [| x resto]; [reflexivity |].
  cbn [length Nat.ltb Nat.leb].
  rewrite (reduce_mais_longa x resto Hstr), bind_ret_l. reflexivity.
Qed.

(** The code read by Método 3 is the default [''] or is not blank. *)
Lemma codigo_com_espaco_cheio obj possiveisNomes s :
  valorSeguro obj possiveisNomes (VString []) = VString s ->
  includes s (js " ") = true ->
  vazio (VString s) = false.
Proof.
  intros Hv Hinc.
  destruct (valorSeguro_padrao_ou_cheio obj possiveisNomes (VString []))
    as [Hd | Hc].
  - rewrite Hd in Hv. inversion Hv; subst. discriminate.
  - rewrite Hv in Hc. exact Hc.
Qed.

(** Método 3: when the first two methods find nothing and the code holds a
    space, the description is the text after the first space. *)
Lemma extrairDescricao_do_codigo obj mapa index l1 l2 l3 codigo :
  extrairDescricao_metodo1 obj colunasDescricao = (Return None, l1) ->
  extrairDescricao_metodo2 obj (keys obj) index = (Return None, l2) ->
  obterValorSeguro obj (VariosNomes [js "Código"; js "Codigo"]) (VString [])
    = (Return (VString codigo), l3) ->
  includes codigo (js " ") = true ->
  extrairDescricao obj mapa index =
  (Return (VString (depois_do_primeiro_espaco codigo)),
   l1 ++ l2 ++ l3 ++
   [registo_metodo3 index (depois_do_primeiro_espaco codigo)]).
Proof.
  intros H1 H2 H3 Hinc.
  pose proof (metodo1_sem_sombra _ _ _ _ _ H1) as Hs.
  assert (Hv : valorSeguro obj (VariosNomes [js "Código"; js "Codigo"])
                 (VString []) = VString codigo).
  { rewrite obterValorSeguro_sem_sombra in H3 by exact Hs.
    inversion H3. reflexivity. }
  pose proof (codigo_com_espaco_cheio _ _ _ Hv Hinc) as Hcheio.
  unfold extrairDescricao.
  apply (bind_step _ _ _ _ _ _ H1). cbv zeta.
  apply (bind_step _ _ _ _ _ _ H2).
  apply (bind_step _ _ _ _ _ _ H3).
  rewrite estaVazio_ret, bind_ret_l, tem_espaco_ret, bind_ret_l.
  rewrite Hcheio, Hinc. cbn [negb andb call_split].
  rewrite bind_ret_l. rewrite js_espaco in *.
  rewrite (split_resto codigo Hinc). reflexivity.
Qed.

Lemma qualifica_metodo4_de_qualifica valor :
  qualifica valor = true -> qualifica_metodo4 valor = true.
Proof.
  destruct valor as [| | s | n]; try discriminate.
  unfold qualifica, qualifica_metodo4.
  rewrite !andb_true_iff, Nat.leb_le, Nat.ltb_lt.
  intros [[Hv Hl] Ht]. repeat split; auto. lia.
Qed.

(** Every method comes back empty-handed: the result is [''], silently. *)
Lemma extrairDescricao_nada obj mapa index l1 l3 codigo :
  extrairDescricao_metodo1 obj colunasDescricao = (Return None, l1) ->
  (forall col, In col (keys obj) -> qualifica_metodo4 (get obj col) = false) ->
  obterValorSeguro obj (VariosNomes [js "Código"; js "Codigo"]) (VString [])
    = (Return codigo, l3) ->
  match codigo with
  | VString s => includes s (js " ") = false
  | _ => True
  end ->
  extrairDescricao obj mapa index = (Return (VString []), l1 ++ l3).
Proof.
  intros H1 Hcols H3 Hcod.
  assert (H2 : extrairDescricao_metodo2 obj (keys obj) index = ret None).
  { apply metodo2_nada. intros col Hin. unfold candidata.
    destruct (qualifica (get obj col)) eqn:E.
    - apply qualifica_metodo4_de_qualifica in E.
      rewrite (Hcols col Hin) in E. discriminate.
    - apply andb_false_r. }
  unfold extrairDescricao.
  apply (bind_step _ _ _ _ _ _ H1). cbv zeta.
  rewrite H2, bind_ret_l.
  apply (bind_step_silent _ _ _ _ _ H3).
  rewrite estaVazio_ret, bind_ret_l, tem_espaco_ret, bind_ret_l.
  assert (Hno : match codigo with
                | VString s => negb (vazio codigo) && includes s (js " ")
                | _ => false
                end = false).
  { destruct codigo as [| | s | n]; try reflexivity.
    rewrite Hcod. apply andb_false_r. }
  rewrite Hno, metodo4_ret, (candidatos_metodo4_nenhum _ _ Hcols).
  reflexivity.
Qed.

(** Método 2 decides when Método 1 finds nothing and a column qualifies:
    the first qualifying column, in column order, gives the description. *)
Lemma extrairDescricao_da_varredura obj mapa index l1 antes col depois :
  extrairDescricao_metodo1 obj colunasDescricao = (Return None, l1) ->
  keys obj = antes ++ col :: depois ->
  (forall c, In c antes -> candidata obj c = false) ->
  candidata obj col = true ->
  extrairDescricao obj mapa index =
  (Return (get obj col), l1 ++ [registo_metodo2 col index (get obj col)]).
Proof.
  intros H1 Hkeys Hantes Hcol. unfold extrairDescricao.
  apply (bind_step _ _ _ _ _ _ H1). cbv zeta.
  rewrite Hkeys, (metodo2_primeira obj antes col depois index Hantes Hcol).
  reflexivity.
Qed.

Lemma extrairDescricao_sombreado obj mapa index :
  sombreado obj = true ->
  extrairDescricao obj mapa index = throw erro_de_sombra.
Proof.
  intros Hs. unfold extrairDescricao, colunasDescricao.
  rewrite metodo1_sombreado by exact Hs. reflexivity.
Qed.

(** On a row without a column named [hasOwnProperty] the heuristic always
    returns. *)
Lemma extrairDescricao_total obj mapa index :
  sombreado obj = false ->
  exists d l, extrairDescricao obj mapa index = (Return d, l).
Proof.
  intros Hs. unfold extrairDescricao.
  destruct (metodo1_total obj colunasDescricao Hs) as [r1 H1].
  rewrite H1, bind_ret_l. destruct r1 as [d |]; [eexists; eexists; reflexivity |].
  cbv zeta.
  destruct (metodo2_total obj (keys obj) index) as (r2 & l2 & H2).
  destruct r2 as [d |].
  { eexists; eexists. eapply bind_step; [exact H2 | reflexivity]. }
  rewrite obterValorSeguro_sem_sombra by exact Hs.
  set (codigo := valorSeguro obj _ _).
  assert (Hrest : exists d l,
    (codigo0 <- ret codigo ;;
     vazio0 <- estaVazio codigo0 ;;
     temEspaco <-
       (if negb vazio0 && is_string codigo0
        then call_includes codigo0 (js " ") else ret false) ;;
     if temEspaco then
       partes <- call_split codigo0 32 ;;
       let descricaoInferida := join (js " ") (skipn 1 partes) in
       console_log
         [js "Descrição inferida do código para produto "
          ++ string_of_nat (index + 1) ++ js ": "
          ++ aspas ++ descricaoInferida ++ aspas] ;;;
       ret (VString descricaoInferida)
     else
       possiveisCamposDescricao <-
         extrairDescricao_candidatos obj (keys obj) [] ;;
       if (0 <? length possiveisCamposDescricao)%nat then
         melhorDescricao <-
           reduce
             (fun max atual : jsstring * value =>
                lenAtual <- get_length (snd atual) ;;
                lenMax <- get_length (snd max) ;;
                ret (if length_gt lenAtual lenMax then atual else max))
             possiveisCamposDescricao ;;
         console_log
           [js "Descrição extraída da coluna " ++ aspas
            ++ fst melhorDescricao ++ aspas ++ js " para produto "
            ++ string_of_nat (index + 1) ++ js ": " ++ aspas
            ++ ToString (snd melhorDescricao) ++ aspas] ;;;
         ret (snd melhorDescricao)
       else ret (VString [])) = (Return d, l)).
  { rewrite bind_ret_l, estaVazio_ret, bind_ret_l, tem_espaco_ret, bind_ret_l.
    destruct codigo as [| | s | n];
      try (rewrite metodo4_ret;
           destruct (candidatos_metodo4 obj (keys obj));
           eexists; eexists; reflexivity).
    destruct (negb (vazio (VString s)) && includes s (js " ")).
    - cbn [call_split]. rewrite bind_ret_l. eexists; eexists; reflexivity.
    - rewrite metodo4_ret. destruct (candidatos_metodo4 obj (keys obj));
        eexists; eexists; reflexivity. }
  destruct Hrest as (d & l & Hrest).
  exists d, (l2 ++ l). apply (bind_step _ _ _ _ _ _ H2). exact Hrest.
Qed.

End Facts.
End V2Extracao.

(* ================================================================== *)
(** * converterProduto, conversor-final-corrigido-v2.js *)
(* ================================================================== *)

Module V2Conversao.
Import JS Layout Corrigido Spec JSFacts CorrigidoFacts StringFacts.
Import V2Facts V2Extracao.
Import V2.
Local Open Scope js_scope.

Section Facts.
Context `{Runtime}.

Lemma try_catch_bind_step {A B} (a : A) l (f : A -> M B) (h : exn -> M B) p l2 :
  f a = (Return p, l2) ->
  try_catch (bind (Return a, l) f) h = (Return p, l ++ l2).
Proof. intros Hf. cbn. rewrite Hf. reflexivity. Qed.

(** The placeholder step: a blank description is replaced and a warning
    written. *)
Lemma descricao_ou_padrao (vz : bool) index d :
  (if vz then
     let descricao := js "Produto " ++ string_of_nat (index + 1) in
     console_warn
       [js "⚠️ Usando descrição padrão para produto "
        ++ string_of_nat (index + 1) ++ js ": "
        ++ aspas ++ descricao ++ aspas] ;;;
     ret (VString descricao)
   else ret d)
  = (Return (if vz then VString (descricao_padrao index) else d),
     if vz then [aviso_descricao_padrao index] else []).
Proof. destruct vz; reflexivity. Qed.

Lemma observacoes_de_vazio a p :
  (if negb (vazio p)
   then (if negb (vazio a)
         then [] ++ js "Preço atacado: " ++ ToString a ++ js "; "
         else [])
        ++ js "Preço promoção: " ++ ToString p ++ js "; "
   else (if negb (vazio a)
         then [] ++ js "Preço atacado: " ++ ToString a ++ js "; "
         else []))
  = observacoes_de vazio a p.
Proof.
  unfold observacoes_de. destruct (vazio a), (vazio p); cbn [negb];
    rewrite ?app_nil_l, ?app_nil_r; reflexivity.
Qed.

(** What [converterProduto] returns on a row without a column named
    [hasOwnProperty], given the description the heuristic extracted. *)
Lemma v2_converterProduto_resumo obj mapa index d l :
  sombreado obj = false ->
  extrairDescricao obj mapa index = (Return d, l) ->
  exists p,
    converterProduto obj mapa index =
      (Return p, l ++ if vazio d then [aviso_descricao_padrao index] else [])
    /\ ID p = VNumber (number_of_nat (index + 1))
    /\ Codigo p =
         VString (texto_do_codigo
                    (valorSeguro obj (ou (mapa_codigo mapa)
                                         [js "Código"; js "Codigo"])
                                 (VString [])))
    /\ Descricao p = (if vazio d then VString (descricao_padrao index) else d)
    /\ Observacoes p =
         VString (observacoes_de vazio
           (valorSeguro obj (ou (mapa_precoAtacado mapa)
                                [js "Preço Atacado"; js "Preco Atacado"])
                        (VString []))
           (valorSeguro obj (ou (mapa_precoPromocao mapa)
                                [js "Preço Promoção"; js "Preco Promocao"])
                        (VString [])))
    /\ PrecoDeCusto p =
         numero_ou_padrao
           (valorSeguro obj (ou (mapa_precoCompra mapa)
                                [js "Preço Compra"; js "Preco Compra"])
                        (VString [])) zero
    /\ PrecoDeCompra p =
         numero_ou_padrao
           (valorSeguro obj (ou (mapa_precoCompra mapa)
                                [js "Preço Compra"; js "Preco Compra"])
                        (VString [])) zero.
Proof.
  intros Hs Hd. unfold converterProduto. cbv zeta.
  rewrite !(obterValorSeguro_sem_sombra _ _ _ Hs).
  rewrite !bind_ret_l, Hd.
  eexists. split.
  - apply try_catch_bind_step.
    rewrite estaVazio_ret, bind_ret_l, descricao_ou_padrao.
    eapply bind_step_silent; [reflexivity |].
    repeat (rewrite bind_ret_l || rewrite estaVazio_ret
            || rewrite parseNumero_ret).
    reflexivity.
  - cbn [ID Codigo Descricao Observacoes PrecoDeCusto PrecoDeCompra].
    rewrite observacoes_de_vazio.
    repeat split; reflexivity.
Qed.

Lemma v2_converterProduto_sombreado obj mapa index :
  sombreado obj = true ->
  converterProduto obj mapa index =
  throw (erro_de_conversao index erro_de_sombra).
Proof.
  intros Hs. unfold converterProduto. cbv zeta.
  rewrite (obterValorSeguro_sombreado obj (ou (mapa_catalogo mapa) _) _ Hs)
    by apply lista_de_nomes_ou.
  reflexivity.
Qed.

(** On a row without a column named [hasOwnProperty], [converterProduto]
    returns a record. *)
Lemma v2_converterProduto_total obj mapa index :
  sombreado obj = false ->
  exists p l, converterProduto obj mapa index = (Return p, l).
Proof.
  intros Hs.
  destruct (extrairDescricao_total obj mapa index Hs) as (d & l & Hd).
  destruct (v2_converterProduto_resumo obj mapa index d l Hs Hd) as (p & Hp & _).
  eexists; eexists; exact Hp.
Qed.

(** A conversion that returns was run on a row without such a column. *)
Lemma v2_converterProduto_sem_sombra obj mapa index p l :
  converterProduto obj mapa index = (Return p, l) -> sombreado obj = false.
Proof.
  intros Hp. destruct (sombreado obj) eqn:Hs; [| reflexivity].
  rewrite v2_converterProduto_sombreado in Hp by exact Hs. discriminate.
Qed.

(** The summary, read from a conversion that returned. *)
Lemma v2_converterProduto_inv obj mapa index p log :
  converterProduto obj mapa index = (Return p, log) ->
  exists d l,
    extrairDescricao obj mapa index = (Return d, l)
    /\ log = l ++ (if vazio d then [aviso_descricao_padrao index] else [])
    /\ Codigo p =
         VString (texto_do_codigo
                    (valorSeguro obj (ou (mapa_codigo mapa)
                                         [js "Código"; js "Codigo"])
                                 (VString [])))
    /\ Descricao p = (if vazio d then VString (descricao_padrao index) else d)
    /\ Observacoes p =
         VString (observacoes_de vazio
           (valorSeguro obj (ou (mapa_precoAtacado mapa)
                                [js "Preço Atacado"; js "Preco Atacado"])
                        (VString []))
           (valorSeguro obj (ou (mapa_precoPromocao mapa)
                                [js "Preço Promoção"; js "Preco Promocao"])
                        (VString [])))
    /\ PrecoDeCusto p =
         numero_ou_padrao
           (valorSeguro obj (ou (mapa_precoCompra mapa)
                                [js "Preço Compra"; js "Preco Compra"])
                        (VString [])) zero
    /\ PrecoDeCompra p =
         numero_ou_padrao
           (valorSeguro obj (ou (mapa_precoCompra mapa)
                                [js "Preço Compra"; js "Preco Compra"])
                        (VString [])) zero.
Proof.
  intros Hp. pose proof (v2_converterProduto_sem_sombra _ _ _ _ _ Hp) as Hs.
  destruct (extrairDescricao_total obj mapa index Hs) as (d & l & Hd).
  destruct (v2_converterProduto_resumo obj mapa index d l Hs Hd)
    as (p' & Hp' & _ & Hc & Hde & Ho & Hcu & Hco).
  rewrite Hp' in Hp. inversion Hp; subst.
  exists d, l. repeat split; assumption.
Qed.

End Facts.
End V2Conversao.

(* ================================================================== *)
(** * converterProduto, conversor-final-corrigido.js *)
(* ================================================================== *)

Module V1Conversao.
Import JS Layout Corrigido Spec JSFacts CorrigidoFacts StringFacts.
Import V2Extracao.
Import V1.
Local Open Scope js_scope.

Section Facts.
Context `{Runtime}.

Lemma try_catch_bind_silent {A B} (a : A) l (f : A -> M B) (h : exn -> M B) p :
  f a = (Return p, []) ->
  try_catch (bind (Return a, l) f) h = (Return p, l).
Proof. intros Hf. cbn. rewrite Hf, app_nil_r. reflexivity. Qed.

(** The condition under which the description is inferred. *)
Lemma inferir_ret descricao codigo :
  (if vazio descricao then
     codigoVazio <- estaVazio (VString codigo) ;;
     if negb codigoVazio then call_includes (VString codigo) (js " ")
     else ret false
   else ret false)
  = ret (infere_do_codigo descricao codigo).
Proof.
  unfold infere_do_codigo. destruct (vazio descricao); [| reflexivity].
  rewrite estaVazio_ret, bind_ret_l.
  destruct (vazio (VString codigo)); reflexivity.
Qed.

(** The split itself, with its four console lines. *)
Lemma inferencia_ret index catalogo codigo :
  includes codigo (js " ") = true ->
  (partes <- call_split (VString codigo) 32 ;;
   console_log
     [[10%N] ++ js "Inferindo descrição para produto "
      ++ string_of_nat (index + 1) ++ js " (Catálogo: "
      ++ ToString catalogo ++ js "):"] ;;;
   console_log [js "- Código original: " ++ aspas ++ codigo ++ aspas] ;;;
   console_log [js "- Código puro: " ++ aspas ++ hd [] partes ++ aspas] ;;;
   console_log [js "- Descrição inferida: " ++ aspas
                ++ join (js " ") (skipn 1 partes) ++ aspas] ;;;
   ret (hd [] partes, VString (join (js " ") (skipn 1 partes))))
  = (Return (antes_do_primeiro_espaco codigo,
             VString (depois_do_primeiro_espaco codigo)),
     registos_inferencia index catalogo codigo).
Proof.
  intros Hinc. cbn [call_split]. rewrite bind_ret_l.
  rewrite js_espaco in *.
  rewrite split_primeira, (split_resto codigo Hinc). reflexivity.
Qed.

Lemma infere_tem_espaco descricao codigo :
  infere_do_codigo descricao codigo = true -> includes codigo (js " ") = true.
Proof.
  unfold infere_do_codigo. rewrite !andb_true_iff. tauto.
Qed.

(** What [converterProduto] returns on a row without a column named
    [hasOwnProperty]. *)
Lemma v1_converterProduto_resumo obj mapa index :
  sombreado obj = false ->
  let catalogo :=
    valorSeguro obj (ou (mapa_catalogo mapa) [js "Catálogo"; js "Catalogo"])
                (VString []) in
  let codigo :=
    texto_do_codigo
      (valorSeguro obj (ou (mapa_codigo mapa) [js "Código"; js "Codigo"])
                   (VString [])) in
  let descricao :=
    valorSeguro obj
      (ou (mapa_descricao mapa) [js "Descrição"; js "Descricao"; js "Descr"])
      (VString []) in
  exists p,
    converterProduto obj mapa index =
      (Return p,
       if infere_do_codigo descricao codigo
       then registos_inferencia index catalogo codigo else [])
    /\ Codigo p =
         VString (if infere_do_codigo descricao codigo
                  then antes_do_primeiro_espaco codigo else codigo)
    /\ Descricao p =
         (if infere_do_codigo descricao codigo
          then VString (depois_do_primeiro_espaco codigo) else descricao)
    /\ Observacoes p =
         VString (observacoes_de vazio
           (valorSeguro obj (ou (mapa_precoAtacado mapa)
                                [js "Preço Atacado"; js "Preco Atacado"])
                        (VString []))
           (valorSeguro obj (ou (mapa_precoPromocao mapa)
                                [js "Preço Promoção"; js "Preco Promocao"])
                        (VString [])))
    /\ PrecoDeCusto p =
         numero_ou_padrao
           (valorSeguro obj (ou (mapa_precoCompra mapa)
                                [js "Preço Compra"; js "Preco Compra"])
                        (VString [])) zero
    /\ PrecoDeCompra p =
         numero_ou_padrao
           (valorSeguro obj (ou (mapa_precoCompra mapa)
                                [js "Preço Compra"; js "Preco Compra"])
                        (VString [])) zero.
Proof.
  intros Hs catalogo codigo descricao.
  unfold converterProduto. cbv zeta.
  rewrite !(obterValorSeguro_sem_sombra _ _ _ Hs).
  rewrite !bind_ret_l, estaVazio_ret, bind_ret_l, inferir_ret.
  fold catalogo descricao. unfold texto_do_codigo in codigo. fold codigo.
  destruct (infere_do_codigo descricao codigo) eqn:E.
  - rewrite bind_ret_l.
    rewrite (inferencia_ret index catalogo codigo (infere_tem_espaco _ _ E)).
    eexists. split.
    + apply try_catch_bind_silent.
      repeat (rewrite bind_ret_l || rewrite estaVazio_ret
              || rewrite parseNumero_ret).
      reflexivity.
    + cbn [ID Codigo Descricao Observacoes PrecoDeCusto PrecoDeCompra].
      rewrite V2Conversao.observacoes_de_vazio. repeat split; reflexivity.
  - eexists. split.
    + repeat (rewrite bind_ret_l || rewrite estaVazio_ret
              || rewrite parseNumero_ret).
      reflexivity.
    + cbn [ID Codigo Descricao Observacoes PrecoDeCusto PrecoDeCompra].
      rewrite V2Conversao.observacoes_de_vazio. repeat split; reflexivity.
Qed.

Lemma v1_converterProduto_sombreado obj mapa index :
  sombreado obj = true ->
  converterProduto obj mapa index =
  throw (erro_de_conversao index erro_de_sombra).
Proof.
  intros Hs. unfold converterProduto. cbv zeta.
  rewrite (obterValorSeguro_sombreado obj (ou (mapa_catalogo mapa) _) _ Hs)
    by apply lista_de_nomes_ou.
  reflexivity.
Qed.

Lemma v1_converterProduto_sem_sombra obj mapa index p l :
  converterProduto obj mapa index = (Return p, l) -> sombreado obj = false.
Proof.
  intros Hp. destruct (sombreado obj) eqn:Hs; [| reflexivity].
  rewrite v1_converterProduto_sombreado in Hp by exact Hs. discriminate.
Qed.

End Facts.
End V1Conversao.

(* ================================================================== *)
(** * conversor-simples.js: the strict converter *)
(* ================================================================== *)

Module SimplesFacts.
Import JS Layout Spec JSFacts StringFacts.
Import Simples.
Local Open Scope js_scope.

Section Facts.
Context `{Runtime}.

Lemma simples_parseNumero_ret valor valorPadrao :
  parseNumero valor valorPadrao = ret (numero_ou_padrao_simples valor valorPadrao).
Proof.
  unfold parseNumero, numero_ou_padrao_simples.
  destruct (is_undefined valor || is_null valor || is_empty_string valor);
    [reflexivity |].
  destruct valor; reflexivity.
Qed.

Lemma observacoes_de_falso a p :
  (if truthy p
   then (if truthy a
         then [] ++ js "Preço atacado: " ++ ToString a ++ js "; "
         else [])
        ++ js "Preço promoção: " ++ ToString p ++ js "; "
   else (if truthy a
         then [] ++ js "Preço atacado: " ++ ToString a ++ js "; "
         else []))
  = observacoes_de falso a p.
Proof.
  unfold observacoes_de, falso. destruct (truthy a), (truthy p); cbn [negb];
    rewrite ?app_nil_l, ?app_nil_r; reflexivity.
Qed.

(** A row without a code is refused. *)
Lemma simples_converterProduto_sem_codigo produtoAtual :
  entry_truthy produtoAtual = true ->
  truthy (obterValorSeguro produtoAtual (js "Código") (VString [])) = false ->
  converterProduto produtoAtual = throw (erro_codigo_obrigatorio produtoAtual).
Proof.
  intros Ht Hc. unfold converterProduto. rewrite Ht, Hc. reflexivity.
Qed.

Lemma simples_converterProduto_invalido produtoAtual :
  entry_truthy produtoAtual = false ->
  converterProduto produtoAtual = throw (Error (js "Produto inválido ou vazio")).
Proof. intros Ht. unfold converterProduto. rewrite Ht. reflexivity. Qed.

(** A row with a code is always converted. *)
Lemma simples_converterProduto_resumo produtoAtual :
  entry_truthy produtoAtual = true ->
  truthy (obterValorSeguro produtoAtual (js "Código") (VString [])) = true ->
  exists p l,
    converterProduto produtoAtual = (Return p, l)
    /\ ID p = VNull
    /\ Codigo p = obterValorSeguro produtoAtual (js "Código") (VString [])
    /\ Observacoes p =
         VString (observacoes_de falso
           (obterValorSeguro produtoAtual (js "Preço Atacado") (VString []))
           (obterValorSeguro produtoAtual (js "Preço Promoção") (VString [])))
    /\ PrecoDeCusto p =
         numero_ou_padrao_simples (prop produtoAtual (js "Preço Compra")) zero
    /\ PrecoDeCompra p =
         numero_ou_padrao_simples (prop produtoAtual (js "Preço Compra")) zero.
Proof.
  intros Ht Hc. unfold converterProduto. rewrite Ht, Hc. cbn [negb]. cbv zeta.
  rewrite bind_ret_l.
  destruct (truthy (obterValorSeguro produtoAtual (js "Descrição") (VString [])));
    cbn [negb].
  - eexists; eexists. split.
    + repeat (rewrite bind_ret_l || rewrite simples_parseNumero_ret).
      reflexivity.
    + cbn [ID Codigo Observacoes PrecoDeCusto PrecoDeCompra].
      rewrite observacoes_de_falso. repeat split; reflexivity.
  - eexists; eexists. split.
    + unfold console_warn, emit.
      apply V1Conversao.try_catch_bind_silent.
      repeat (rewrite bind_ret_l || rewrite simples_parseNumero_ret).
      reflexivity.
    + cbn [ID Codigo Observacoes PrecoDeCusto PrecoDeCompra].
      rewrite observacoes_de_falso. repeat split; reflexivity.
Qed.

Lemma simples_progresso_total index total :
  exists l, progresso index total = (Return tt, l).
Proof.
  unfold progresso. destruct (_ || _); eexists; reflexivity.
Qed.

(** A turn of the loop whose conversion throws: the failure is counted and
    nothing else changes but the warnings. *)
Lemma simples_passo_falha total index produtoRaw st ex l :
  converterProduto produtoRaw = (Throw ex, l) ->
  exists st' l',
    iniciar_passo total index produtoRaw st = (Return st', l')
    /\ produtosNovos st' = produtosNovos st
    /\ sucessos st' = sucessos st
    /\ falhas st' = falhas st + 1
    /\ erros st' =
         erros st ++ [js "Produto " ++ string_of_nat (index + 1) ++ js ": "
                      ++ message ex].
Proof.
  intros Hc. unfold iniciar_passo. cbv zeta. rewrite Hc.
  destruct (simples_progresso_total index total) as [lp Hp].
  rewrite Hp. eexists; eexists. split; [reflexivity |].
  cbn [produtosNovos sucessos falhas erros]. repeat split; reflexivity.
Qed.

(** A turn of the loop whose conversion returns: one record is appended. *)
Lemma simples_passo_sucesso total index produtoRaw st p l :
  converterProduto produtoRaw = (Return p, l) ->
  exists st' l',
    iniciar_passo total index produtoRaw st = (Return st', l')
    /\ produtosNovos st' =
         produtosNovos st ++ [set_ID p (VNumber (number_of_nat (index + 1)))]
    /\ sucessos st' = sucessos st + 1
    /\ falhas st' = falhas st
    /\ erros st' = erros st.
Proof.
  intros Hc. unfold iniciar_passo. cbv zeta. rewrite Hc.
  destruct (simples_progresso_total index total) as [lp Hp].
  rewrite Hp. eexists; eexists. split; [reflexivity |].
  cbn [produtosNovos sucessos falhas erros]. repeat split; reflexivity.
Qed.

Lemma simples_passo_total total index produtoRaw st :
  exists st' l,
    iniciar_passo total index produtoRaw st = (Return st', l)
    /\ length (produtosNovos st') + falhas st'
       = length (produtosNovos st) + falhas st + 1.
Proof.
  destruct (converterProduto produtoRaw) as [[p | ex] l] eqn:Hc.
  - destruct (simples_passo_sucesso total index produtoRaw st p l Hc)
      as (st' & l' & Hst & Hp & _ & Hf & _).
    exists st', l'. split; [exact Hst |].
    rewrite Hp, Hf, length_app. cbn [length]. lia.
  - destruct (simples_passo_falha total index produtoRaw st ex l Hc)
      as (st' & l' & Hst & Hp & _ & Hf & _).
    exists st', l'. split; [exact Hst |]. rewrite Hp, Hf. lia.
Qed.

(** The loop of the strict converter never aborts, and every entry ends up
    either as a record or as a counted failure. *)
Lemma simples_laco_total total entradas :
  forall index st,
  exists st' l,
    iniciar_laco total index entradas st = (Return st', l)
    /\ length (produtosNovos st') + falhas st'
       = length (produtosNovos st) + falhas st + length entradas.
Proof.
  induction entradas as [| e resto IH]; intros index st.
  - exists st, []. split; [reflexivity | cbn [length]; lia].
  - destruct (simples_passo_total total index e st) as (st1 & l1 & H1 & Hn1).
    destruct (IH (S index) st1) as (st2 & l2 & H2 & Hn2).
    exists st2, (l1 ++ l2). split.
    + cbn [iniciar_laco]. eapply V2Extracao.bind_step; eassumption.
    + cbn [length]. lia.
Qed.

End Facts.
End SimplesFacts.

(* ================================================================== *)
(** * The main loop of conversor-final-corrigido-v2.js *)
(* ================================================================== *)

Module V2Laco.
Import JS Layout Corrigido Spec JSFacts CorrigidoFacts.
Import V2Extracao V2Conversao.
Import V2.
Local Open Scope js_scope.

Section Facts.
Context `{Runtime}.

Lemma v2_progresso_total index total :
  exists l, progresso index total = (Return tt, l).
Proof.
  unfold progresso. destruct (_ || _); eexists; reflexivity.
Qed.

(** A turn whose conversion returns appends exactly one record. *)
Lemma v2_passo_sucesso mapa total index r st p l :
  converterProduto r mapa index = (Return p, l) ->
  exists st' l',
    iniciar_passo mapa total index (Row r) st = (Return st', l')
    /\ produtosNovos st' = produtosNovos st ++ [p]
    /\ sucessos st' = sucessos st + 1
    /\ falhas st' = falhas st
    /\ erros st' = erros st.
Proof.
  intros Hc. unfold iniciar_passo. rewrite Hc.
  destruct (v2_progresso_total index total) as [lp Hp]. rewrite Hp.
  eexists; eexists. split.
  - eapply bind_step; [| reflexivity].
    cbn [bind try_catch]. rewrite estaVazio_ret, bind_ret_l. cbv zeta.
    reflexivity.
  - cbn [produtosNovos sucessos falhas erros]. repeat split; reflexivity.
Qed.

(** A turn whose conversion throws counts one failure and keeps the
    records. *)
Lemma v2_passo_falha mapa total index r st ex l :
  converterProduto r mapa index = (Throw ex, l) ->
  exists st' l',
    iniciar_passo mapa total index (Row r) st = (Return st', l')
    /\ produtosNovos st' = produtosNovos st
    /\ sucessos st' = sucessos st
    /\ falhas st' = falhas st + 1
    /\ erros st' =
         erros st ++ [js "Produto " ++ string_of_nat (index + 1) ++ js ": "
                      ++ message ex].
Proof.
  intros Hc. unfold iniciar_passo. rewrite Hc.
  destruct (v2_progresso_total index total) as [lp Hp]. rewrite Hp.
  eexists; eexists. split; [reflexivity |].
  cbn [produtosNovos sucessos falhas erros]. repeat split; reflexivity.
Qed.

(** An entry that is not an object counts one failure. *)
Lemma v2_passo_nao_objeto mapa total index v st :
  exists st' l',
    iniciar_passo mapa total index (NotAnObject v) st = (Return st', l')
    /\ produtosNovos st' = produtosNovos st
    /\ sucessos st' = sucessos st
    /\ falhas st' = falhas st + 1
    /\ erros st' =
         erros st ++ [js "Produto " ++ string_of_nat (index + 1) ++ js ": "
                      ++ js "Produto inválido ou vazio"].
Proof.
  unfold iniciar_passo.
  destruct (v2_progresso_total index total) as [lp Hp]. rewrite Hp.
  eexists; eexists. split; [reflexivity |].
  cbn [produtosNovos sucessos falhas erros]. repeat split; reflexivity.
Qed.

(** The loop never aborts; it collects the records of [convertidos] and
    counts the failures of [falhados]. *)
Lemma v2_laco_total mapa total entradas :
  forall index st,
  exists st' l,
    iniciar_laco mapa total index entradas st = (Return st', l)
    /\ produtosNovos st' = produtosNovos st ++ convertidos mapa index entradas
    /\ sucessos st' = sucessos st + length (convertidos mapa index entradas)
    /\ falhas st' = falhas st + falhados mapa index entradas
    /\ length (erros st') = length (erros st) + falhados mapa index entradas.
Proof.
  induction entradas as [| e resto IH]; intros index st.
  - exists st, []. cbn [convertidos falhados length].
    rewrite app_nil_r, !Nat.add_0_r. repeat split; reflexivity.
  - assert (Hpasso : exists st1 l1,
      iniciar_passo mapa total index e st = (Return st1, l1)
      /\ produtosNovos st1 = produtosNovos st ++ convertidos mapa index [e]
      /\ sucessos st1 = sucessos st + length (convertidos mapa index [e])
      /\ falhas st1 = falhas st + falhados mapa index [e]
      /\ length (erros st1) = length (erros st) + falhados mapa index [e]).
    { cbn [convertidos falhados]. destruct e as [r | v].
      - destruct (converterProduto r mapa index) as [[p | ex] l] eqn:Hc.
        + destruct (v2_passo_sucesso mapa total index r st p l Hc)
            as (st1 & l1 & Hst & Hp & Hsu & Hf & He).
          exists st1, l1. cbn [fst app length].
          rewrite Hp, Hsu, Hf, He. repeat split; auto; lia.
        + destruct (v2_passo_falha mapa total index r st ex l Hc)
            as (st1 & l1 & Hst & Hp & Hsu & Hf & He).
          exists st1, l1. cbn [fst app length].
          rewrite Hp, Hsu, Hf, He, length_app, app_nil_r. cbn [length].
          repeat split; auto; lia.
      - destruct (v2_passo_nao_objeto mapa total index v st)
          as (st1 & l1 & Hst & Hp & Hsu & Hf & He).
        exists st1, l1. cbn [app length].
        rewrite Hp, Hsu, Hf, He, length_app, app_nil_r. cbn [length].
        repeat split; auto; lia. }
    destruct Hpasso as (st1 & l1 & H1 & Hp1 & Hs1 & Hf1 & He1).
    destruct (IH (S index) st1) as (st2 & l2 & H2 & Hp2 & Hs2 & Hf2 & He2).
    exists st2, (l1 ++ l2). split.
    + cbn [iniciar_laco]. eapply bind_step; eassumption.
    + cbn [convertidos falhados] in *.
      rewrite app_nil_r in Hp1.
      rewrite Hp2, Hs2, Hf2, He2, Hp1, Hs1, Hf1, He1.
      rewrite !length_app, <- app_assoc. rewrite !Nat.add_0_r.
      repeat split; lia.
Qed.

(** Each entry is one record or one failure. *)
Lemma convertidos_mais_falhados mapa entradas :
  forall index,
    length (convertidos mapa index entradas) + falhados mapa index entradas
    = length entradas.
Proof.
  induction entradas as [| e resto IH]; intros index; [reflexivity |].
  cbn [convertidos falhados length]. rewrite length_app.
  specialize (IH (S index)).
  destruct e as [r | v]; [| cbn [length]; lia].
  destruct (fst (converterProduto r mapa index)); cbn [length]; lia.
Qed.

End Facts.
End V2Laco.

(* ================================================================== *)
(** * Reading numbers *)
(* ================================================================== *)

Module NumberFacts.
Import JS Layout Corrigido Spec JSFacts CorrigidoFacts StringFacts.
Local Open Scope js_scope.

Lemma is_digit_range c : is_digit c = true <-> (48 <= c <= 57)%N.
Proof.
  unfold is_digit. rewrite andb_true_iff, !N.leb_le. tauto.
Qed.

Lemma digit_not_space c : is_digit c = true -> is_space c = false.
Proof.
  intros Hd. apply is_digit_range in Hd. unfold is_space.
  rewrite !orb_false_iff, !andb_false_iff, !N.eqb_neq, !N.leb_gt. lia.
Qed.

Lemma digit_neqb c k :
  is_digit c = true -> (k < 48 \/ 57 < k)%N -> (c =? k)%N = false.
Proof.
  intros Hd Hk. apply is_digit_range in Hd. apply N.eqb_neq. lia.
Qed.

Lemma digitos_app s t : digitos s -> digitos t -> digitos (s ++ t).
Proof. intros Hs Ht. apply Forall_app. split; assumption. Qed.

Lemma digitos_concat grupos :
  Forall so_digitos grupos -> digitos (concat grupos).
Proof.
  induction 1 as [| g gs [_ Hg] _ IH]; [constructor |].
  cbn [concat]. apply digitos_app; assumption.
Qed.

Lemma concat_not_nil grupos :
  grupos <> [] -> Forall so_digitos grupos -> concat grupos <> [].
Proof.
  intros Hne Hall. destruct grupos as [| g gs]; [congruence |].
  inversion Hall as [| ? ? [Hg _] _]; subst. cbn [concat].
  destruct g; [congruence | discriminate].
Qed.

Lemma remove_all_digitos s : digitos s -> remove_all 46 s = s.
Proof.
  induction 1 as [| c s Hc _ IH]; [reflexivity |].
  cbn [remove_all filter]. rewrite (digit_neqb c 46 Hc) by lia.
  cbn [negb]. fold (remove_all 46 s). rewrite IH. reflexivity.
Qed.

Lemma remove_all_app c s t :
  remove_all c (s ++ t) = remove_all c s ++ remove_all c t.
Proof. apply filter_app. Qed.

(** Removing the dots of the groups leaves their digits. *)
Lemma remove_all_join grupos :
  Forall so_digitos grupos ->
  remove_all 46 (join [46%N] grupos) = concat grupos.
Proof.
  induction 1 as [| g gs [_ Hg] Hgs IH]; [reflexivity |].
  destruct gs as [| g' gs].
  - cbn [join concat]. rewrite app_nil_r. apply remove_all_digitos. exact Hg.
  - rewrite join_cons, !remove_all_app, IH, (remove_all_digitos g Hg).
    reflexivity.
Qed.

Lemma replace_first_digitos s : digitos s -> replace_first 44 46 s = s.
Proof.
  induction 1 as [| c s Hc _ IH]; [reflexivity |].
  cbn [replace_first]. rewrite (digit_neqb c 44 Hc) by lia.
  rewrite IH. reflexivity.
Qed.

Lemma replace_first_comma s t :
  digitos s -> replace_first 44 46 (s ++ 44%N :: t) = s ++ 46%N :: t.
Proof.
  induction 1 as [| c s Hc _ IH]; [reflexivity |].
  cbn [app replace_first]. rewrite (digit_neqb c 44 Hc) by lia.
  rewrite IH. reflexivity.
Qed.

Lemma span_digits_all s : digitos s -> span_digits s = (s, []).
Proof.
  induction 1 as [| c s Hc _ IH]; [reflexivity |].
  cbn [span_digits]. rewrite Hc, IH. reflexivity.
Qed.

Lemma span_digits_dot s t :
  digitos s -> span_digits (s ++ 46%N :: t) = (s, 46%N :: t).
Proof.
  induction 1 as [| c s Hc _ IH]; [reflexivity |].
  cbn [app span_digits]. rewrite Hc, IH. reflexivity.
Qed.

Lemma trim_digitos s : digitos s -> trim s = s.
Proof.
  intros Hs. apply trim_id. eapply Forall_impl; [| exact Hs].
  intros c Hc. apply digit_not_space. exact Hc.
Qed.

Lemma trim_decimal s t : digitos s -> digitos t -> trim (s ++ 46%N :: t) = s ++ 46%N :: t.
Proof.
  intros Hs Ht. apply trim_id. apply Forall_app. split.
  - eapply Forall_impl; [| exact Hs]. intros c Hc. apply digit_not_space. exact Hc.
  - constructor; [reflexivity |].
    eapply Forall_impl; [| exact Ht]. intros c Hc. apply digit_not_space. exact Hc.
Qed.

(** A literal that starts with a digit followed by a digit or a dot has no
    radix prefix. *)
Lemma parse_non_decimal_digits c resto :
  (forall p r, resto = p :: r -> is_digit p = true \/ p = 46%N) ->
  parse_non_decimal (c :: resto) = None.
Proof.
  intros Hp. destruct resto as [| p r]; [reflexivity |].
  cbn [parse_non_decimal].
  assert (Hb : ((p =? 120) || (p =? 88) = false /\ (p =? 111) || (p =? 79) = false
                /\ (p =? 98) || (p =? 66) = false)%N).
  { rewrite !orb_false_iff, !N.eqb_neq.
    destruct (Hp p r eq_refl) as [Hd | ->]; [| lia].
    apply is_digit_range in Hd. lia. }
  destruct Hb as (H1 & H2 & H3). rewrite H1, H2, H3.
  destruct (negb (c =? 48)%N); reflexivity.
Qed.

(** Rounding at work: an integer halfway between two floats goes to the one
    with the even significand, a literal beyond the largest float reads as
    an infinity and one below the smallest as zero, and a decimal fraction
    reads as the float next to it. *)
Lemma StringToNumber_arredonda :
  StringToNumber (js "9007199254740993") = Finite 9007199254740992
  /\ StringToNumber (js "9007199254740995") = Finite 9007199254740996
  /\ StringToNumber (js "1e400") = Infinity false
  /\ StringToNumber (js "-1e400") = Infinity true
  /\ StringToNumber (js "1e-400") = Finite 0
  /\ StringToNumber (js "0.1") = Finite (3602879701896397 # 36028797018963968)
  /\ StringToNumber (js "0x1F") = Finite 31.
Proof. repeat split; vm_compute; reflexivity. Qed.

Lemma Qred_inteiro (z : Z) (d : positive) :
  Qred (Qmake (z * Zpos d) d) = inject_Z z.
Proof.
  assert (E : Qeq (Qmake (z * Zpos d) d) (inject_Z z)).
  { unfold Qeq, inject_Z. cbn [Qnum Qden]. lia. }
  rewrite (Qred_complete _ _ E).
  unfold Qred, inject_Z.
  pose proof (Z.ggcd_gcd z 1) as Hg.
  pose proof (Z.ggcd_correct_divisors z 1) as Hd.
  destruct (Z.ggcd z 1) as [g [a b]]. cbn [fst snd] in *.
  rewrite Z.gcd_1_r in Hg. subst g. destruct Hd as [Ha Hb].
  rewrite !Z.mul_1_l in *. subst. reflexivity.
Qed.

Lemma round_half_even_1 z : round_half_even z 1 = z.
Proof.
  unfold round_half_even. rewrite Z.mod_1_r, Z.div_1_r. reflexivity.
Qed.

Lemma floor_log2_inteiro n : floor_log2 n 1 = Z.log2 (Zpos n).
Proof.
  unfold floor_log2. change (Z.log2 1) with 0%Z. rewrite Z.sub_0_r.
  pose proof (Z.log2_nonneg (Zpos n)) as Hn.
  destruct (Z.leb_spec 0 (Z.log2 (Zpos n))); [| lia].
  rewrite Z.shiftl_1_l.
  pose proof (Z.log2_spec (Zpos n) ltac:(lia)) as [Hl _].
  destruct (Z.leb_spec (2 ^ Z.log2 (Zpos n)) (Zpos n)); [reflexivity | lia].
Qed.

(** An integer below 2^53 is a float: rounding leaves it as it is. *)
Lemma binary64_inteiro z :
  (Z.abs z < 2 ^ 53)%Z -> binary64 (inject_Z z) = Finite (inject_Z z).
Proof.
  assert (Hpos : forall n, (Zpos n < 2 ^ 53)%Z ->
                 binary64_magnitude n 1 = Some (inject_Z (Zpos n))).
  { intros n Hn. unfold binary64_magnitude. rewrite floor_log2_inteiro.
    assert (Hk : (0 <= Z.log2 (Zpos n) < 53)%Z).
    { split; [apply Z.log2_nonneg |]. apply Z.log2_lt_pow2; lia. }
    set (k := Z.log2 (Zpos n)) in *.
    rewrite Z.max_l by lia.
    destruct (Z.leb_spec 0 (k - 52)) as [He | He].
    - assert (k - 52 = 0)%Z as -> by lia.
      change (Pos.shiftl 1 (Z.to_N 0)) with 1%positive.
      rewrite round_half_even_1. cbn [Z.ltb Z.eqb Z.compare orb andb].
      rewrite Z.shiftl_0_r. reflexivity.
    - rewrite round_half_even_1.
      destruct (Z.ltb_spec 971 (k - 52)); [lia |].
      destruct (Z.eqb_spec (k - 52) 971); [lia |]. cbn [orb andb].
      rewrite !Z.shiftl_mul_pow2 by lia. rewrite Z.mul_1_l.
      assert (Hp : (0 < 2 ^ (- (k - 52)))%Z) by (apply Z.pow_pos_nonneg; lia).
      destruct (2 ^ (- (k - 52)))%Z as [| d | d] eqn:Ed; try lia.
      cbn [Z.to_pos]. rewrite Qred_inteiro. reflexivity. }
  intros Hz. unfold binary64, inject_Z. cbn [Qnum Qden].
  destruct z as [| n | n]; [reflexivity | |].
  - rewrite Hpos by (cbn [Z.abs] in Hz; exact Hz). reflexivity.
  - rewrite Hpos by (cbn [Z.abs] in Hz; exact Hz). reflexivity.
Qed.

(** Rounding gives a number. *)
Lemma isNaN_binary64 q : isNaN (binary64 q) = false.
Proof.
  unfold binary64.
  destruct (Qnum q); [reflexivity | |];
    destruct (binary64_magnitude _ _); reflexivity.
Qed.

(** The digits alone read as the float nearest to the integer they spell. *)
Lemma StringToNumber_inteiro s :
  s <> [] -> digitos s ->
  StringToNumber s =
  binary64 (scale10 (Z.of_N (digits_value 10 decimal_digit s)) 0).
Proof.
  intros Hne Hs. unfold StringToNumber. rewrite (trim_digitos s Hs).
  destruct s as [| c s]; [congruence |]. cbn [is_nil].
  inversion Hs as [| ? ? Hc Hs']; subst.
  rewrite parse_non_decimal_digits.
  2:{ intros p r ->. left. inversion Hs'; subst. assumption. }
  unfold parse_decimal. cbn [starts_with].
  rewrite (N.eqb_sym 43 c), (digit_neqb c 43 Hc) by lia.
  rewrite (N.eqb_sym 45 c), (digit_neqb c 45 Hc) by lia. cbn [andb].
  unfold parse_unsigned_decimal.
  replace (str_eqb (c :: s) (js "Infinity")) with false.
  2:{ symmetry. change (js "Infinity") with (73%N :: js "nfinity").
      cbn [str_eqb]. rewrite (digit_neqb c 73 Hc) by lia. reflexivity. }
  rewrite (span_digits_all (c :: s) Hs). cbn [starts_with is_nil parse_exponent].
  reflexivity.
Qed.

(** Digits, a dot and more digits read as the float nearest to the decimal
    fraction they spell. *)
Lemma StringToNumber_decimal s t :
  s <> [] -> digitos s -> digitos t ->
  StringToNumber (s ++ 46%N :: t) =
  binary64 (scale10 (Z.of_N (digits_value 10 decimal_digit (s ++ t)))
                    (0 - Z.of_nat (length t))).
Proof.
  intros Hne Hs Ht. unfold StringToNumber. rewrite (trim_decimal s t Hs Ht).
  destruct s as [| c s]; [congruence |]. cbn [app is_nil].
  inversion Hs as [| ? ? Hc Hs']; subst.
  rewrite parse_non_decimal_digits.
  2:{ intros p r Heq. destruct s as [| c' s'].
      - cbn in Heq. inversion Heq. right. reflexivity.
      - cbn in Heq. inversion Heq; subst. left.
        inversion Hs'; subst. assumption. }
  unfold parse_decimal. cbn [starts_with].
  rewrite (N.eqb_sym 43 c), (digit_neqb c 43 Hc) by lia.
  rewrite (N.eqb_sym 45 c), (digit_neqb c 45 Hc) by lia. cbn [andb].
  unfold parse_unsigned_decimal.
  replace (str_eqb (c :: s ++ 46%N :: t) (js "Infinity")) with false.
  2:{ symmetry. change (js "Infinity") with (73%N :: js "nfinity").
      cbn [str_eqb]. rewrite (digit_neqb c 73 Hc) by lia. reflexivity. }
  change (c :: s ++ 46%N :: t) with ((c :: s) ++ 46%N :: t).
  rewrite (span_digits_dot (c :: s) t Hs).
  cbn [starts_with tl N.eqb Pos.eqb andb].
  rewrite (span_digits_all t Ht). cbn [is_nil andb parse_exponent].
  reflexivity.
Qed.

Section Parser.
Context `{Runtime}.

(** The text handed to [Number] by the final converters for a number written
    with thousands dots and a decimal comma. *)
Lemma texto_convertido grupos decimais :
  Forall so_digitos grupos -> digitos decimais ->
  replace_first 44 46 (remove_all 46 (forma_milhar grupos decimais)) =
  concat grupos ++ match decimais with [] => [] | _ => 46%N :: decimais end.
Proof.
  intros Hg Hd. unfold forma_milhar.
  rewrite remove_all_app, (remove_all_join grupos Hg).
  destruct decimais as [| d ds].
  - cbn [remove_all filter]. rewrite app_nil_r.
    rewrite replace_first_digitos by (apply digitos_concat; exact Hg).
    reflexivity.
  - change (remove_all 46 (44%N :: d :: ds))
      with (44%N :: remove_all 46 (d :: ds)).
    rewrite (remove_all_digitos (d :: ds) Hd).
    apply replace_first_comma. apply digitos_concat. exact Hg.
Qed.

(** The final converters read such a text as the number it denotes. *)
Lemma parseNumero_forma_milhar grupos decimais valorPadrao :
  grupos <> [] -> Forall so_digitos grupos -> digitos decimais ->
  parseNumero (VString (forma_milhar grupos decimais)) valorPadrao =
  ret (VNumber (binary64 (valor_milhar grupos decimais))).
Proof.
  intros Hne Hg Hd. rewrite parseNumero_ret. unfold numero_ou_padrao.
  pose proof (concat_not_nil grupos Hne Hg) as Hc.
  pose proof (digitos_concat grupos Hg) as Hdc.
  assert (Hnv : is_empty_string (VString (forma_milhar grupos decimais)) = false).
  { unfold forma_milhar. cbn [is_empty_string].
    destruct (join [46%N] grupos ++ _) eqn:E; [| reflexivity].
    exfalso. apply (f_equal (remove_all 46)) in E.
    rewrite remove_all_app, (remove_all_join grupos Hg) in E.
    apply app_eq_nil in E. destruct E as [E _]. contradiction. }
  cbn [is_undefined is_null orb]. rewrite Hnv. cbn [ToString].
  rewrite (texto_convertido grupos decimais Hg Hd). unfold valor_milhar.
  destruct decimais as [| d ds].
  - rewrite !app_nil_r, (StringToNumber_inteiro _ Hc Hdc), isNaN_binary64.
    reflexivity.
  - rewrite (StringToNumber_decimal _ _ Hc Hdc Hd), isNaN_binary64.
    reflexivity.
Qed.

End Parser.
End NumberFacts.

(* ================================================================== *)
(** * The description taken from the code *)
(* ================================================================== *)

Module CodeSplit.
Import JS Layout Corrigido Spec JSFacts CorrigidoFacts StringFacts.
Import V2Extracao V2Conversao V1Conversao.
Local Open Scope js_scope.

Lemma texto_do_codigo_string `{Runtime} codigo :
  includes codigo (js " ") = true -> texto_do_codigo (VString codigo) = codigo.
Proof.
  intros Hinc. unfold texto_do_codigo.
  destruct codigo; [discriminate | reflexivity].
Qed.

(** C1, as amended — for every row whose Code is a string that holds a space
    (U+0020) and for which no other source gives a description, the converted
    record has Descrição equal to the text of the Code after its first space:
    in conversor-final-corrigido.js whenever the description column is blank,
    and there Código is the text before that space; in
    conversor-final-corrigido-v2.js whenever Método 1 and Método 2 find
    nothing and the text after the space is not blank. *)
Theorem descricao_inferida_do_codigo `{Runtime} :
  (forall obj mapa index p log codigo l1 descricao l2,
      V1.converterProduto obj mapa index = (Return p, log) ->
      obterValorSeguro obj (ou (mapa_codigo mapa) [js "Código"; js "Codigo"])
                       (VString []) = (Return (VString codigo), l1) ->
      includes codigo (js " ") = true ->
      obterValorSeguro obj
        (ou (mapa_descricao mapa) [js "Descrição"; js "Descricao"; js "Descr"])
        (VString []) = (Return descricao, l2) ->
      vazio descricao = true ->
      Descricao p = VString (depois_do_primeiro_espaco codigo)
      /\ Codigo p = VString (antes_do_primeiro_espaco codigo))
  /\
  (forall obj mapa index p log codigo l1 l2 l3,
      V2.converterProduto obj mapa index = (Return p, log) ->
      V2.extrairDescricao_metodo1 obj V2.colunasDescricao = (Return None, l1) ->
      V2.extrairDescricao_metodo2 obj (keys obj) index = (Return None, l2) ->
      obterValorSeguro obj (VariosNomes [js "Código"; js "Codigo"]) (VString [])
        = (Return (VString codigo), l3) ->
      includes codigo (js " ") = true ->
      vazio (VString (depois_do_primeiro_espaco codigo)) = false ->
      Descricao p = VString (depois_do_primeiro_espaco codigo)).
Proof.
  split.
  - intros obj mapa index p log codigo l1 descricao l2 Hp Hc Hinc Hd Hv.
    pose proof (v1_converterProduto_sem_sombra _ _ _ _ _ Hp) as Hs.
    rewrite obterValorSeguro_sem_sombra in Hc, Hd by exact Hs.
    inversion Hc as [Hc']. inversion Hd as [Hd'].
    destruct (v1_converterProduto_resumo obj mapa index Hs)
      as (p' & Hp' & Hcod & Hdesc & _).
    rewrite Hp' in Hp. inversion Hp; subst p'.
    rewrite Hc', Hd', (texto_do_codigo_string codigo Hinc) in Hcod, Hdesc.
    assert (Hinf : infere_do_codigo descricao codigo = true).
    { unfold infere_do_codigo. rewrite Hv, Hinc.
      rewrite (codigo_com_espaco_cheio _ _ _ Hc' Hinc). reflexivity. }
    rewrite Hinf in Hcod, Hdesc. split; assumption.
  - intros obj mapa index p log codigo l1 l2 l3 Hp H1 H2 H3 Hinc Hv.
    destruct (v2_converterProduto_inv _ _ _ _ _ Hp)
      as (d & l & Hd & _ & _ & Hdesc & _).
    rewrite (extrairDescricao_do_codigo obj mapa index l1 l2 l3 codigo
               H1 H2 H3 Hinc) in Hd.
    inversion Hd; subst d. rewrite Hv in Hdesc. exact Hdesc.
Qed.

Lemma descricao_inferida_do_codigo_witness :
  (exists p l,
      V1.converterProduto (H := Latin1.runtime) linha_parafuso mapa_vazio 0
      = (Return p, l)
      /\ Descricao p = texto "Parafuso Phillips" /\ Codigo p = texto "123")
  /\
  (exists p l,
      V2.converterProduto (H := Latin1.runtime) linha_parafuso mapa_vazio 0
      = (Return p, l)
      /\ Descricao p = texto "Parafuso Phillips").
Proof.
  split.
  - destruct (V1.converterProduto (H := Latin1.runtime) linha_parafuso mapa_vazio 0)
      as [[p | e] l] eqn:E; [| vm_compute in E; discriminate].
    exists p, l. split; [reflexivity |].
    assert (Hd : depois_do_primeiro_espaco (js "123 Parafuso Phillips")
                 = js "Parafuso Phillips") by (vm_compute; reflexivity).
    assert (Ha : antes_do_primeiro_espaco (js "123 Parafuso Phillips")
                 = js "123") by (vm_compute; reflexivity).
    unfold texto. rewrite <- Hd, <- Ha.
    apply (proj1 (@descricao_inferida_do_codigo Latin1.runtime)
             linha_parafuso mapa_vazio 0 p l (js "123 Parafuso Phillips")
             [] (VString []) []);
      [exact E | vm_compute; reflexivity ..].
  - destruct (V2.converterProduto (H := Latin1.runtime) linha_parafuso mapa_vazio 0)
      as [[p | e] l] eqn:E; [| vm_compute in E; discriminate].
    exists p, l. split; [reflexivity |].
    assert (Hd : depois_do_primeiro_espaco (js "123 Parafuso Phillips")
                 = js "Parafuso Phillips") by (vm_compute; reflexivity).
    unfold texto. rewrite <- Hd.
    apply (proj2 (@descricao_inferida_do_codigo Latin1.runtime)
             linha_parafuso mapa_vazio 0 p l (js "123 Parafuso Phillips")
             [] [] []);
      [exact E | vm_compute; reflexivity ..].
Defined.

(** C1 as stated fails twice.  With two spaces after the code, the text after
    the first white-space run is [Parafuso], and conversor-final-corrigido.js
    gives Descrição the text after the first space, which starts with a space.
    And conversor-final-corrigido-v2.js leaves Código whole. *)
Lemma descricao_apos_espacos_counterexample :
  (exists p l,
      V1.converterProduto (H := Latin1.runtime) linha_dois_espacos mapa_vazio 0
      = (Return p, l)
      /\ get linha_dois_espacos (js "Código") = texto "123  Parafuso"
      /\ depois_do_espaco_em_branco (js "123  Parafuso") = js "Parafuso"
      /\ Descricao p = texto " Parafuso"
      /\ Descricao p
         <> VString (depois_do_espaco_em_branco (js "123  Parafuso")))
  /\
  (exists p l,
      V2.converterProduto (H := Latin1.runtime) linha_parafuso mapa_vazio 0
      = (Return p, l)
      /\ get linha_parafuso (js "Código") = texto "123 Parafuso Phillips"
      /\ antes_do_espaco_em_branco (js "123 Parafuso Phillips") = js "123"
      /\ Codigo p = texto "123 Parafuso Phillips"
      /\ Codigo p
         <> VString (antes_do_espaco_em_branco (js "123 Parafuso Phillips"))).
Proof.
  split.
  - destruct (V1.converterProduto (H := Latin1.runtime) linha_dois_espacos mapa_vazio 0)
      as [[p | e] l] eqn:E; [| vm_compute in E; discriminate].
    exists p, l. split; [reflexivity |].
    assert (Hd : Descricao p = texto " Parafuso")
      by (apply (campo_de _ _ _ Descricao VUndefined _ E); vm_compute; reflexivity).
    rewrite Hd. repeat split; try (vm_compute; reflexivity).
    vm_compute. discriminate.
  - destruct (V2.converterProduto (H := Latin1.runtime) linha_parafuso mapa_vazio 0)
      as [[p | e] l] eqn:E; [| vm_compute in E; discriminate].
    exists p, l. split; [reflexivity |].
    assert (Hd : Codigo p = texto "123 Parafuso Phillips")
      by (apply (campo_de _ _ _ Codigo VUndefined _ E); vm_compute; reflexivity).
    rewrite Hd. repeat split; try (vm_compute; reflexivity).
    vm_compute. discriminate.
Qed.

End CodeSplit.

(* ================================================================== *)
(** * The description found by scanning the columns *)
(* ================================================================== *)

Module Varredura.
Import JS Layout Corrigido Spec JSFacts CorrigidoFacts StringFacts.
Import V2Facts V2Extracao V2Conversao.
Local Open Scope js_scope.

(** C2, as amended — for every row in which no description column or
    synonym-named column supplies a value, when columns that are not skipped
    hold qualifying strings (at least three code units, one of them an ASCII
    letter), the inferred description is the first such value in column
    order; a value of fewer than three code units, like [AB], is passed
    over, so that with [AB] and [Blue Widget] the description is
    [Blue Widget]. *)
Theorem descricao_da_primeira_candidata `{Runtime} :
  forall obj mapa index l1 antes col depois,
    V2.extrairDescricao_metodo1 obj V2.colunasDescricao = (Return None, l1) ->
    keys obj = antes ++ col :: depois ->
    (forall c, In c antes -> candidata obj c = false) ->
    candidata obj col = true ->
    V2.extrairDescricao obj mapa index =
    (Return (get obj col), l1 ++ [registo_metodo2 col index (get obj col)]).
Proof.
  intros obj mapa index l1 antes col depois H1 Hk Ha Hc.
  eapply extrairDescricao_da_varredura; eassumption.
Qed.

Lemma descricao_da_primeira_candidata_witness :
  fst (V2.extrairDescricao (H := Latin1.runtime) linha_blue_widget mapa_vazio 0)
  = Return (texto "Blue Widget").
Proof.
  rewrite (@descricao_da_primeira_candidata Latin1.runtime
             linha_blue_widget mapa_vazio 0 [] [js "Col A"] (js "Col B") []).
  - vm_compute. reflexivity.
  - vm_compute. reflexivity.
  - vm_compute. reflexivity.
  - intros c [<- | []]. vm_compute. reflexivity.
  - vm_compute. reflexivity.
Defined.

(** C2 as stated fails: two columns qualify, the second holds the longer
    text, and the description is the first. *)
Lemma descricao_mais_longa_counterexample :
  V2.extrairDescricao_metodo1 (H := Latin1.runtime)
    linha_duas_candidatas V2.colunasDescricao = (Return None, [])
  /\ candidata (H := Latin1.runtime) linha_duas_candidatas (js "A") = true
  /\ candidata (H := Latin1.runtime) linha_duas_candidatas (js "B") = true
  /\ get linha_duas_candidatas (js "A") = texto "abc"
  /\ get linha_duas_candidatas (js "B") = texto "abcdef"
  /\ (length (js "abc") < length (js "abcdef"))%nat
  /\ fst (V2.extrairDescricao (H := Latin1.runtime)
            linha_duas_candidatas mapa_vazio 0) = Return (texto "abc")
  /\ fst (V2.extrairDescricao (H := Latin1.runtime)
            linha_duas_candidatas mapa_vazio 0) <> Return (texto "abcdef").
Proof.
  repeat split; try (vm_compute; reflexivity).
  - vm_compute. lia.
  - vm_compute. discriminate.
Qed.

End Varredura.

(* ================================================================== *)
(** * The placeholder description *)
(* ================================================================== *)

Module Placeholder.
Import JS Layout Corrigido Spec JSFacts CorrigidoFacts StringFacts.
Import V2Facts V2Extracao V2Conversao.
Local Open Scope js_scope.

(** C8, as amended — for every converted row at 1-based position n in which
    no description column gives a value, the Code holds no space, and no
    column at all (the code, price, value, NCM and unit columns included)
    holds a string of more than one code unit with an ASCII letter, Descrição
    is the text [Produto n] and the warning is written. *)
Theorem descricao_padrao_sem_fontes `{Runtime} :
  forall obj mapa index p log l1 codigo l3,
    V2.converterProduto obj mapa index = (Return p, log) ->
    V2.extrairDescricao_metodo1 obj V2.colunasDescricao = (Return None, l1) ->
    (forall col, In col (keys obj) -> qualifica_metodo4 (get obj col) = false) ->
    obterValorSeguro obj (VariosNomes [js "Código"; js "Codigo"]) (VString [])
      = (Return codigo, l3) ->
    match codigo with
    | VString s => includes s (js " ") = false
    | _ => True
    end ->
    Descricao p = VString (js "Produto " ++ string_of_nat (index + 1))
    /\ In (aviso_descricao_padrao index) log.
Proof.
  intros obj mapa index p log l1 codigo l3 Hp H1 Hcols H3 Hcod.
  destruct (v2_converterProduto_inv _ _ _ _ _ Hp)
    as (d & l & Hd & Hlog & _ & Hdesc & _).
  rewrite (extrairDescricao_nada obj mapa index l1 l3 codigo H1 Hcols H3 Hcod)
    in Hd.
  inversion Hd; subst d l.
  change (vazio (VString [])) with true in Hdesc, Hlog.
  split; [exact Hdesc |].
  rewrite Hlog. apply in_or_app. right. left. reflexivity.
Qed.

Lemma descricao_padrao_sem_fontes_witness :
  exists p l,
    V2.converterProduto (H := Latin1.runtime) linha_so_numeros mapa_vazio 0
    = (Return p, l)
    /\ Descricao p = texto "Produto 1"
    /\ In (aviso_descricao_padrao 0) l.
Proof.
  destruct (V2.converterProduto (H := Latin1.runtime) linha_so_numeros mapa_vazio 0)
    as [[p | e] l] eqn:E; [| vm_compute in E; discriminate].
  exists p, l. split; [reflexivity |].
  assert (Hn : js "Produto " ++ string_of_nat (0 + 1) = js "Produto 1")
    by (vm_compute; reflexivity).
  unfold texto. rewrite <- Hn.
  apply (@descricao_padrao_sem_fontes Latin1.runtime
           linha_so_numeros mapa_vazio 0 p l [] (texto "12345") []).
  - exact E.
  - vm_compute. reflexivity.
  - intros col [<- | [<- | []]]; vm_compute; reflexivity.
  - vm_compute. reflexivity.
  - vm_compute. reflexivity.
Defined.

(** C8 as stated fails: the only column is the Code, which the scan of
    Método 2 skips and which holds no white space, yet Descrição is the code
    itself, taken by Método 4, and no warning is written. *)
Lemma descricao_padrao_counterexample :
  exists p l,
    V2.converterProduto (H := Latin1.runtime) linha_codigo_com_letras mapa_vazio 0
    = (Return p, l)
    /\ V2.extrairDescricao_metodo1 (H := Latin1.runtime)
         linha_codigo_com_letras V2.colunasDescricao = (Return None, [])
    /\ V2.extrairDescricao_metodo2 (H := Latin1.runtime)
         linha_codigo_com_letras (keys linha_codigo_com_letras) 0
       = (Return None, [])
    /\ get linha_codigo_com_letras (js "Código") = texto "ABC123"
    /\ existsb is_space (js "ABC123") = false
    /\ Descricao p = texto "ABC123"
    /\ Descricao p <> texto "Produto 1"
    /\ ~ In (aviso_descricao_padrao 0) l.
Proof.
  destruct (V2.converterProduto (H := Latin1.runtime) linha_codigo_com_letras mapa_vazio 0)
    as [[p | e] l] eqn:E; [| vm_compute in E; discriminate].
  exists p, l. split; [reflexivity |].
  assert (Hd : Descricao p = texto "ABC123")
    by (apply (campo_de _ _ _ Descricao VUndefined _ E); vm_compute; reflexivity).
  assert (Hl : l = [registo_metodo4 (H := Latin1.runtime) 0
                      (js "Código", texto "ABC123")])
    by (apply (registo_de _ _ _ _ E); vm_compute; reflexivity).
  rewrite Hd, Hl. repeat split; try (vm_compute; reflexivity).
  - vm_compute. discriminate.
  - intros [Hin | []]. vm_compute in Hin. discriminate.
Qed.

End Placeholder.

(* ================================================================== *)
(** * Totality of the extraction *)
(* ================================================================== *)

Module Totalidade.
Import JS Layout Corrigido Spec JSFacts CorrigidoFacts.
Import V2Extracao V2Conversao.
Local Open Scope js_scope.

Lemma informacoes_de_vazio `{Runtime} e p :
  (if negb (vazio p)
   then (if negb (vazio e)
         then [] ++ js "Endereço 2: " ++ ToString e ++ js "; "
         else [])
        ++ js "Pendência: " ++ ToString p ++ js "; "
   else (if negb (vazio e)
         then [] ++ js "Endereço 2: " ++ ToString e ++ js "; "
         else []))
  = informacoes_de e p.
Proof.
  unfold informacoes_de. destruct (vazio e), (vazio p); cbn [negb];
    rewrite ?app_nil_l, ?app_nil_r; reflexivity.
Qed.

(** What a direct call does on a row with a column named [hasOwnProperty]:
    the first lookup calls [obj.hasOwnProperty(nome)] on the row, reaches
    the cell instead of the inherited method, and the TypeError is rethrown
    as the conversion error. *)
Lemma converterProduto_coluna_hasOwnProperty :
  forall `{Runtime} mapa index,
    V2.converterProduto linha_hasOwnProperty mapa index =
    (Throw (Error (js "Erro ao converter produto " ++ string_of_nat (index + 1)
                   ++ js ": " ++ js "obj.hasOwnProperty is not a function")),
     []).
Proof.
  intros R mapa index.
  rewrite v2_converterProduto_sombreado by reflexivity. reflexivity.
Qed.

(** C7 — for every row that reaches it and every column map,
    [converterProduto] returns a record and raises nothing, and the record
    has a default wherever a field is unresolved or blank: the empty string
    in the text columns, 0 in the numeric columns, and [Produto n], with a
    warning, as Descrição when [extrairDescricao] finds nothing.  A row that
    reaches [converterProduto] has no column named [hasOwnProperty]: the
    column report of [diagnosticarColunas] runs first, over rows that all
    have the headers of the sheet, and does not get past a column of that
    name. *)
Theorem converterProduto_devolve_registo `{Runtime} :
  forall obj mapa index,
    hasOwn obj (js "hasOwnProperty") = false ->
    exists p l d ld,
      V2.converterProduto obj mapa index = (Return p, l)
      /\ V2.extrairDescricao obj mapa index = (Return d, ld)
      /\ l = ld ++ (if vazio d then [aviso_descricao_padrao index] else [])
      /\ Descricao p = (if vazio d then VString (descricao_padrao index) else d)
      /\ Codigo p =
           VString (texto_do_codigo
                      (campo_lido obj (mapa_codigo mapa)
                                  [js "Código"; js "Codigo"]))
      /\ Unidade p = campo_lido obj (mapa_unidade mapa) [js "Unidade"]
      /\ NCM p =
           campo_lido obj (mapa_ncm mapa)
             [js "NCM"; js "Classificação Fiscal"; js "Classificacao Fiscal"]
      /\ Preco p =
           numero_ou_padrao
             (campo_lido obj (mapa_precoVarejo mapa)
                         [js "Preço Varejo"; js "Preco Varejo"]) V2.zero
      /\ Observacoes p =
           VString (observacoes_de vazio
             (campo_lido obj (mapa_precoAtacado mapa)
                         [js "Preço Atacado"; js "Preco Atacado"])
             (campo_lido obj (mapa_precoPromocao mapa)
                         [js "Preço Promoção"; js "Preco Promocao"]))
      /\ Estoque p =
           numero_ou_padrao
             (campo_lido obj (mapa_estoque mapa)
                         [js "Saldo Estoque"; js "Estoque"]) V2.zero
      /\ PrecoDeCusto p =
           numero_ou_padrao
             (campo_lido obj (mapa_precoCompra mapa)
                         [js "Preço Compra"; js "Preco Compra"]) V2.zero
      /\ CodNoFornecedor p =
           campo_lido obj (mapa_codigoOriginal mapa)
             [js "Código Original"; js "Codigo Original"]
      /\ Fornecedor p = campo_lido obj (mapa_fornecedor mapa) [js "Fornecedor"]
      /\ Localizacao p =
           campo_lido obj (mapa_endereco mapa) [js "Endereço"; js "Endereco"]
      /\ GrupoDeProdutos p = campo_lido obj (mapa_linha mapa) [js "Linha"]
      /\ MesesGarantiaNoFornecedor p =
           campo_lido obj (mapa_garantia mapa) [js "Garantia"]
      /\ Departamento p = campo_lido obj (mapa_grupo mapa) [js "Grupo"]
      /\ PrecoDeCompra p =
           numero_ou_padrao
             (campo_lido obj (mapa_precoCompra mapa)
                         [js "Preço Compra"; js "Preco Compra"]) V2.zero
      /\ InformacoesAdicionais p =
           VString (informacoes_de
             (campo_lido obj (mapa_endereco2 mapa)
                         [js "Endereço 2"; js "Endereco 2"])
             (campo_lido obj (mapa_pendencia mapa)
                         [js "Pendência"; js "Pendencia"]))
      /\ (forall campo nomes,
             obterValorSeguro obj (ou campo nomes) (VString [])
             = (Return (campo_lido obj campo nomes), []))
      /\ (forall valor,
             parseNumero valor V2.zero
             = (Return (numero_ou_padrao valor V2.zero), [])).
Proof.
  intros obj mapa index Hs.
  destruct (extrairDescricao_total obj mapa index Hs) as (d & ld & Hd).
  assert (Hlido : forall campo nomes,
             obterValorSeguro obj (ou campo nomes) (VString [])
             = (Return (campo_lido obj campo nomes), [])).
  { intros campo nomes. apply obterValorSeguro_sem_sombra. exact Hs. }
  revert Hlido.
  unfold campo_lido, V2.converterProduto. cbv zeta. intros Hlido.
  rewrite !(obterValorSeguro_sem_sombra _ _ _ Hs).
  rewrite !bind_ret_l, Hd.
  eexists; eexists; exists d, ld. split.
  - apply try_catch_bind_step.
    rewrite estaVazio_ret, bind_ret_l, descricao_ou_padrao.
    eapply bind_step_silent; [reflexivity |].
    repeat (rewrite bind_ret_l || rewrite estaVazio_ret
            || rewrite parseNumero_ret).
    reflexivity.
  - split; [reflexivity |]. split; [reflexivity |].
    cbn [Descricao Codigo Unidade NCM Preco Observacoes Estoque PrecoDeCusto
         CodNoFornecedor Fornecedor Localizacao GrupoDeProdutos
         MesesGarantiaNoFornecedor Departamento PrecoDeCompra
         InformacoesAdicionais].
    rewrite observacoes_de_vazio, informacoes_de_vazio.
    repeat split; try reflexivity;
      [exact Hlido | intros valor; rewrite parseNumero_ret; reflexivity].
Qed.

Lemma converterProduto_devolve_registo_witness :
  exists p l,
    V2.converterProduto (H := Latin1.runtime) linha_so_numeros mapa_vazio 0
    = (Return p, l)
    /\ l = [aviso_descricao_padrao 0]
    /\ Descricao p = texto "Produto 1"
    /\ Codigo p = texto "12345"
    /\ Unidade p = VString []
    /\ Preco p = VNumber (Finite 7)
    /\ Estoque p = VNumber (Finite 0).
Proof.
  destruct (@converterProduto_devolve_registo Latin1.runtime linha_so_numeros
              mapa_vazio 0)
    as (p & l & d & ld & Hp & Hd & Hl & Hdesc & Hcod & Hun & _ & Hpreco & _
        & Hest & _).
  - vm_compute. reflexivity.
  - assert (Ed : V2.extrairDescricao (H := Latin1.runtime) linha_so_numeros
                   mapa_vazio 0 = (Return (VString []), []))
      by (vm_compute; reflexivity).
    rewrite Ed in Hd. inversion Hd; subst d ld.
    exists p, l. split; [exact Hp |].
    split; [rewrite Hl; reflexivity |].
    split; [rewrite Hdesc; vm_compute; reflexivity |].
    split; [rewrite Hcod; vm_compute; reflexivity |].
    split; [rewrite Hun; vm_compute; reflexivity |].
    split; [rewrite Hpreco; vm_compute; reflexivity |].
    rewrite Hest. vm_compute. reflexivity.
Defined.

End Totalidade.

(* ================================================================== *)
(** * Fields of the converted record *)
(* ================================================================== *)

Module Campos.
Import JS Layout Corrigido Spec JSFacts CorrigidoFacts.
Import V2Extracao V2Conversao V1Conversao SimplesFacts.
Local Open Scope js_scope.

Section Facts.
Context `{Runtime}.

(** A conversion of the strict converter that returned was run on a row
    with a code. *)
Lemma simples_converterProduto_inv produtoAtual p log :
  Simples.converterProduto produtoAtual = (Return p, log) ->
  Observacoes p =
    VString (observacoes_de falso
      (Simples.obterValorSeguro produtoAtual (js "Preço Atacado") (VString []))
      (Simples.obterValorSeguro produtoAtual (js "Preço Promoção") (VString [])))
  /\ PrecoDeCusto p =
       numero_ou_padrao_simples
         (Simples.prop produtoAtual (js "Preço Compra")) Simples.zero
  /\ PrecoDeCompra p =
       numero_ou_padrao_simples
         (Simples.prop produtoAtual (js "Preço Compra")) Simples.zero.
Proof.
  intros Hp.
  destruct (Simples.entry_truthy produtoAtual) eqn:Ht.
  2:{ rewrite simples_converterProduto_invalido in Hp by exact Ht.
      discriminate. }
  destruct (truthy (Simples.obterValorSeguro produtoAtual (js "Código")
                      (VString []))) eqn:Hc.
  2:{ rewrite simples_converterProduto_sem_codigo in Hp by assumption.
      discriminate. }
  destruct (simples_converterProduto_resumo produtoAtual Ht Hc)
    as (p' & l' & Hp' & _ & _ & Ho & Hcu & Hco).
  rewrite Hp' in Hp. inversion Hp; subst. repeat split; assumption.
Qed.

Lemma v1_converterProduto_inv obj mapa index p log :
  V1.converterProduto obj mapa index = (Return p, log) ->
  sombreado obj = false
  /\ Observacoes p =
       VString (observacoes_de vazio
         (valorSeguro obj (ou (mapa_precoAtacado mapa)
                              [js "Preço Atacado"; js "Preco Atacado"])
                      (VString []))
         (valorSeguro obj (ou (mapa_precoPromocao mapa)
                              [js "Preço Promoção"; js "Preco Promocao"])
                      (VString [])))
  /\ PrecoDeCusto p =
       numero_ou_padrao
         (valorSeguro obj (ou (mapa_precoCompra mapa)
                              [js "Preço Compra"; js "Preco Compra"])
                      (VString [])) V1.zero
  /\ PrecoDeCompra p =
       numero_ou_padrao
         (valorSeguro obj (ou (mapa_precoCompra mapa)
                              [js "Preço Compra"; js "Preco Compra"])
                      (VString [])) V1.zero.
Proof.
  intros Hp. pose proof (v1_converterProduto_sem_sombra _ _ _ _ _ Hp) as Hs.
  destruct (v1_converterProduto_resumo obj mapa index Hs)
    as (p' & Hp' & _ & _ & Ho & Hcu & Hco).
  rewrite Hp' in Hp. inversion Hp; subst. repeat split; assumption.
Qed.

End Facts.

(** C9, as amended — in every converted record Observações is the
    concatenation, in this order, of [Preço atacado: {wholesale}; ] and
    [Preço promoção: {promo}; ], each segment kept exactly when its price
    passes the test of the script: in conversor-final-corrigido.js and
    conversor-final-corrigido-v2.js when the value read is not blank (not
    missing, null or a string of white space), in conversor-simples.js when
    it is truthy (not missing, null, the empty string, 0 or NaN). *)
Theorem observacoes_dos_precos `{Runtime} :
  (forall obj mapa index p log atacado la promocao lp,
      V2.converterProduto obj mapa index = (Return p, log) ->
      obterValorSeguro obj
        (ou (mapa_precoAtacado mapa) [js "Preço Atacado"; js "Preco Atacado"])
        (VString []) = (Return atacado, la) ->
      obterValorSeguro obj
        (ou (mapa_precoPromocao mapa) [js "Preço Promoção"; js "Preco Promocao"])
        (VString []) = (Return promocao, lp) ->
      Observacoes p = VString (observacoes_de vazio atacado promocao))
  /\
  (forall obj mapa index p log atacado la promocao lp,
      V1.converterProduto obj mapa index = (Return p, log) ->
      obterValorSeguro obj
        (ou (mapa_precoAtacado mapa) [js "Preço Atacado"; js "Preco Atacado"])
        (VString []) = (Return atacado, la) ->
      obterValorSeguro obj
        (ou (mapa_precoPromocao mapa) [js "Preço Promoção"; js "Preco Promocao"])
        (VString []) = (Return promocao, lp) ->
      Observacoes p = VString (observacoes_de vazio atacado promocao))
  /\
  (forall produtoAtual p log,
      Simples.converterProduto produtoAtual = (Return p, log) ->
      Observacoes p =
      VString (observacoes_de (fun valor => negb (truthy valor))
        (Simples.obterValorSeguro produtoAtual (js "Preço Atacado") (VString []))
        (Simples.obterValorSeguro produtoAtual (js "Preço Promoção") (VString [])))).
Proof.
  split; [| split].
  - intros obj mapa index p log atacado la promocao lp Hp Ha Hpr.
    pose proof (v2_converterProduto_sem_sombra _ _ _ _ _ Hp) as Hs.
    rewrite obterValorSeguro_sem_sombra in Ha, Hpr by exact Hs.
    inversion Ha. inversion Hpr.
    destruct (v2_converterProduto_inv _ _ _ _ _ Hp)
      as (d & l & _ & _ & _ & _ & Ho & _).
    exact Ho.
  - intros obj mapa index p log atacado la promocao lp Hp Ha Hpr.
    destruct (v1_converterProduto_inv _ _ _ _ _ Hp) as (Hs & Ho & _).
    rewrite obterValorSeguro_sem_sombra in Ha, Hpr by exact Hs.
    inversion Ha. inversion Hpr. exact Ho.
  - intros produtoAtual p log Hp.
    destruct (simples_converterProduto_inv _ _ _ Hp) as (Ho & _).
    exact Ho.
Qed.

Lemma observacoes_dos_precos_witness :
  (exists p l,
      V2.converterProduto (H := Latin1.runtime) linha_precos mapa_vazio 0
      = (Return p, l)
      /\ Observacoes p = texto "Preço atacado: 9,90; Preço promoção: 8,50; ")
  /\ (exists p l,
      V1.converterProduto (H := Latin1.runtime) linha_precos mapa_vazio 0
      = (Return p, l)
      /\ Observacoes p = texto "Preço atacado: 9,90; Preço promoção: 8,50; ")
  /\ (exists p l,
      Simples.converterProduto (H := Latin1.runtime) (Row linha_precos)
      = (Return p, l)
      /\ Observacoes p = texto "Preço atacado: 9,90; Preço promoção: 8,50; ").
Proof.
  split; [| split].
  - destruct (V2.converterProduto (H := Latin1.runtime) linha_precos mapa_vazio 0)
      as [[p | e] l] eqn:E; [| vm_compute in E; discriminate].
    exists p, l. split; [reflexivity |].
    assert (Ho : observacoes_de (H := Latin1.runtime) vazio
                   (texto "9,90") (texto "8,50")
                 = js "Preço atacado: 9,90; Preço promoção: 8,50; ")
      by (vm_compute; reflexivity).
    unfold texto at 1. rewrite <- Ho.
    apply (proj1 (@observacoes_dos_precos Latin1.runtime)
             linha_precos mapa_vazio 0 p l (texto "9,90") [] (texto "8,50") []);
      [exact E | vm_compute; reflexivity ..].
  - destruct (V1.converterProduto (H := Latin1.runtime) linha_precos mapa_vazio 0)
      as [[p | e] l] eqn:E; [| vm_compute in E; discriminate].
    exists p, l. split; [reflexivity |].
    assert (Ho : observacoes_de (H := Latin1.runtime) vazio
                   (texto "9,90") (texto "8,50")
                 = js "Preço atacado: 9,90; Preço promoção: 8,50; ")
      by (vm_compute; reflexivity).
    unfold texto at 1. rewrite <- Ho.
    apply (proj1 (proj2 (@observacoes_dos_precos Latin1.runtime))
             linha_precos mapa_vazio 0 p l (texto "9,90") [] (texto "8,50") []);
      [exact E | vm_compute; reflexivity ..].
  - destruct (Simples.converterProduto (H := Latin1.runtime) (Row linha_precos))
      as [[p | e] l] eqn:E; [| vm_compute in E; discriminate].
    exists p, l. split; [reflexivity |].
    assert (Ho : observacoes_de (H := Latin1.runtime)
                   (fun valor => negb (truthy valor))
                   (Simples.obterValorSeguro (Row linha_precos)
                      (js "Preço Atacado") (VString []))
                   (Simples.obterValorSeguro (Row linha_precos)
                      (js "Preço Promoção") (VString []))
                 = js "Preço atacado: 9,90; Preço promoção: 8,50; ")
      by (vm_compute; reflexivity).
    unfold texto. rewrite <- Ho.
    exact (proj2 (proj2 (@observacoes_dos_precos Latin1.runtime))
             (Row linha_precos) p l E).
Defined.

(** C9 as stated fails in conversor-simples.js: a wholesale price that is
    the number 0 is a value, not an empty cell, and its segment is left
    out. *)
Lemma observacoes_counterexample :
  exists p l,
    Simples.converterProduto (H := Latin1.runtime) (Row linha_atacado_zero)
    = (Return p, l)
    /\ get linha_atacado_zero (js "Preço Atacado") = VNumber (Finite 0)
    /\ vazio (VNumber (Finite 0)) = false
    /\ is_empty_string (VNumber (Finite 0)) = false
    /\ Observacoes p = VString []
    /\ Observacoes p
       <> VString (observacoes_de (H := Latin1.runtime) vazio
                     (VNumber (Finite 0)) (VString [])).
Proof.
  destruct (Simples.converterProduto (H := Latin1.runtime) (Row linha_atacado_zero))
    as [[p | e] l] eqn:E; [| vm_compute in E; discriminate].
  exists p, l. split; [reflexivity |].
  assert (Ho : Observacoes p = VString [])
    by (apply (campo_de _ _ _ Observacoes VUndefined _ E); vm_compute; reflexivity).
  rewrite Ho. repeat split; try (vm_compute; reflexivity).
  vm_compute. discriminate.
Qed.

(** C10 — in every record produced by any of the three converters, the
    columns [Preço de custo] and [Preço de compra] hold the same value: the
    purchase price parsed by [parseNumero] with default 0. *)
Theorem preco_de_custo_e_de_compra `{Runtime} :
  (forall obj mapa index p log,
      V2.converterProduto obj mapa index = (Return p, log) ->
      PrecoDeCusto p = PrecoDeCompra p
      /\ exists precoCompra,
           obterValorSeguro obj
             (ou (mapa_precoCompra mapa) [js "Preço Compra"; js "Preco Compra"])
             (VString []) = (Return precoCompra, [])
           /\ parseNumero precoCompra (VNumber (Finite 0))
              = (Return (PrecoDeCusto p), []))
  /\
  (forall obj mapa index p log,
      V1.converterProduto obj mapa index = (Return p, log) ->
      PrecoDeCusto p = PrecoDeCompra p
      /\ exists precoCompra,
           obterValorSeguro obj
             (ou (mapa_precoCompra mapa) [js "Preço Compra"; js "Preco Compra"])
             (VString []) = (Return precoCompra, [])
           /\ parseNumero precoCompra (VNumber (Finite 0))
              = (Return (PrecoDeCusto p), []))
  /\
  (forall produtoAtual p log,
      Simples.converterProduto produtoAtual = (Return p, log) ->
      PrecoDeCusto p = PrecoDeCompra p
      /\ Simples.parseNumero (Simples.prop produtoAtual (js "Preço Compra"))
                             (VNumber (Finite 0))
         = (Return (PrecoDeCusto p), [])).
Proof.
  split; [| split].
  - intros obj mapa index p log Hp.
    pose proof (v2_converterProduto_sem_sombra _ _ _ _ _ Hp) as Hs.
    destruct (v2_converterProduto_inv _ _ _ _ _ Hp)
      as (d & l & _ & _ & _ & _ & _ & Hcu & Hco).
    split; [congruence |]. eexists. split.
    + apply obterValorSeguro_sem_sombra. exact Hs.
    + rewrite parseNumero_ret, Hcu. reflexivity.
  - intros obj mapa index p log Hp.
    destruct (v1_converterProduto_inv _ _ _ _ _ Hp) as (Hs & _ & Hcu & Hco).
    split; [congruence |]. eexists. split.
    + apply obterValorSeguro_sem_sombra. exact Hs.
    + rewrite parseNumero_ret, Hcu. reflexivity.
  - intros produtoAtual p log Hp.
    destruct (simples_converterProduto_inv _ _ _ Hp) as (_ & Hcu & Hco).
    split; [congruence |].
    rewrite simples_parseNumero_ret, Hcu. reflexivity.
Qed.

Lemma preco_de_custo_e_de_compra_witness :
  (exists p l,
      V2.converterProduto (H := Latin1.runtime) linha_precos mapa_vazio 0
      = (Return p, l)
      /\ PrecoDeCusto p = PrecoDeCompra p
      /\ PrecoDeCusto p = VNumber (binary64 (30864 # 25)))
  /\ (exists p l,
      V1.converterProduto (H := Latin1.runtime) linha_precos mapa_vazio 0
      = (Return p, l)
      /\ PrecoDeCusto p = PrecoDeCompra p)
  /\ (exists p l,
      Simples.converterProduto (H := Latin1.runtime) (Row linha_precos)
      = (Return p, l)
      /\ PrecoDeCusto p = PrecoDeCompra p).
Proof.
  split; [| split].
  - destruct (V2.converterProduto (H := Latin1.runtime) linha_precos mapa_vazio 0)
      as [[p | e] l] eqn:E; [| vm_compute in E; discriminate].
    exists p, l. split; [reflexivity |]. split.
    + exact (proj1 (proj1 (@preco_de_custo_e_de_compra Latin1.runtime)
                      linha_precos mapa_vazio 0 p l E)).
    + apply (campo_de _ _ _ PrecoDeCusto VUndefined _ E).
      vm_compute. reflexivity.
  - destruct (V1.converterProduto (H := Latin1.runtime) linha_precos mapa_vazio 0)
      as [[p | e] l] eqn:E; [| vm_compute in E; discriminate].
    exists p, l. split; [reflexivity |].
    exact (proj1 (proj1 (proj2 (@preco_de_custo_e_de_compra Latin1.runtime))
                    linha_precos mapa_vazio 0 p l E)).
  - destruct (Simples.converterProduto (H := Latin1.runtime) (Row linha_precos))
      as [[p | e] l] eqn:E; [| vm_compute in E; discriminate].
    exists p, l. split; [reflexivity |].
    exact (proj1 (proj2 (proj2 (@preco_de_custo_e_de_compra Latin1.runtime))
                    (Row linha_precos) p l E)).
Defined.

End Campos.

(* ================================================================== *)
(** * Runs over all the rows *)
(* ================================================================== *)

Module Execucao.
Import JS Layout Corrigido Spec JSFacts CorrigidoFacts.
Import V2Extracao V2Conversao SimplesFacts V2Laco.
Local Open Scope js_scope.

(** C5 — every run of the loop of conversor-final-corrigido-v2.js ends
    normally, and each entry of the input is either converted into exactly
    one record or counted as a failure: the records are those of the entries
    whose conversion succeeds, once each and in input order, and the number
    of records plus the number of failures is the number of entries. *)
Theorem registos_mais_falhas `{Runtime} :
  forall produtosAtuaisRaw mapaColunasEncontradas,
  exists st log,
    V2.iniciar_processar produtosAtuaisRaw mapaColunasEncontradas
    = (Return st, log)
    /\ length (V2.produtosNovos st) + V2.falhas st = length produtosAtuaisRaw
    /\ V2.produtosNovos st = convertidos mapaColunasEncontradas 0 produtosAtuaisRaw
    /\ V2.falhas st = falhados mapaColunasEncontradas 0 produtosAtuaisRaw
    /\ V2.sucessos st = length (V2.produtosNovos st)
    /\ length (V2.erros st) = V2.falhas st.
Proof.
  intros entradas mapa. unfold V2.iniciar_processar.
  destruct (v2_laco_total mapa (length entradas) entradas 0 V2.estado_inicial)
    as (st & l & Hl & Hp & Hs & Hf & He).
  cbn [V2.estado_inicial V2.produtosNovos V2.sucessos V2.falhas V2.erros
       app length Nat.add] in Hp, Hs, Hf, He.
  exists st, l. split; [exact Hl |].
  rewrite Hp, Hf, Hs, He.
  repeat split; try reflexivity.
  apply convertidos_mais_falhados.
Qed.

(** C4 — in the strict converter, conversor-simples.js, a row whose Code is
    empty makes [converterProduto] throw the required-field error; the turn
    of the loop catches it, appends no record, adds one to the failure
    count, and the loop goes on with the remaining rows and ends normally. *)
Theorem codigo_ausente_conta_falha `{Runtime} :
  forall r total index resto st,
    codigo_ausente r = true ->
    Simples.converterProduto (Row r)
    = (Throw (Error (js "Erro ao converter produto "
                     ++ ToString (Simples.obterValorSeguro (Row r) (js "Código")
                                    (VString (js "desconhecido")))
                     ++ js ": " ++ js "Campo Código é obrigatório")), [])
    /\ exists st1 log1,
         Simples.iniciar_passo total index (Row r) st = (Return st1, log1)
         /\ Simples.produtosNovos st1 = Simples.produtosNovos st
         /\ Simples.sucessos st1 = Simples.sucessos st
         /\ Simples.falhas st1 = Simples.falhas st + 1
         /\ exists st2 log2,
              Simples.iniciar_laco total (S index) resto st1 = (Return st2, log2)
              /\ Simples.iniciar_laco total index (Row r :: resto) st
                 = (Return st2, log1 ++ log2)
              /\ length (Simples.produtosNovos st2) + Simples.falhas st2
                 = length (Simples.produtosNovos st) + Simples.falhas st
                   + 1 + length resto.
Proof.
  intros r total index resto st Hc.
  assert (Hf : truthy (Simples.obterValorSeguro (Row r) (js "Código")
                         (VString [])) = false).
  { unfold codigo_ausente in Hc. unfold Simples.obterValorSeguro.
    cbn [Simples.entry_truthy Simples.prop negb orb].
    destruct (get r (js "Código")) as [| | [| c s] | n]; try discriminate;
      reflexivity. }
  assert (Hthrow : Simples.converterProduto (Row r)
                   = throw (erro_codigo_obrigatorio (Row r))).
  { apply simples_converterProduto_sem_codigo; [reflexivity | exact Hf]. }
  split; [exact Hthrow |].
  destruct (simples_passo_falha total index (Row r) st _ _ Hthrow)
    as (st1 & l1 & H1 & Hp1 & Hs1 & Hf1 & _).
  exists st1, l1. repeat (split; [assumption |]).
  destruct (simples_laco_total total resto (S index) st1)
    as (st2 & l2 & H2 & Hn2).
  exists st2, l2. split; [exact H2 |]. split.
  - cbn [Simples.iniciar_laco]. eapply bind_step; eassumption.
  - rewrite Hn2, Hp1, Hf1. lia.
Qed.

Lemma codigo_ausente_conta_falha_witness :
  exists st log,
    Simples.iniciar_processar (H := Latin1.runtime)
      [Row linha_sem_codigo; Row linha_precos] = (Return st, log)
    /\ length (Simples.produtosNovos st) = 1%nat
    /\ Simples.falhas st = 1%nat.
Proof.
  destruct (@codigo_ausente_conta_falha Latin1.runtime linha_sem_codigo
              2 0 [Row linha_precos] Simples.estado_inicial)
    as (_ & st1 & l1 & _ & _ & _ & _ & st2 & l2 & _ & Hrun & _).
  - vm_compute. reflexivity.
  - exists st2, (l1 ++ l2). split; [exact Hrun |].
    split.
    + apply (campo_de _ _ _ (fun s => length (Simples.produtosNovos s)) 0%nat _ Hrun).
      vm_compute. reflexivity.
    + apply (campo_de _ _ _ Simples.falhas 0%nat _ Hrun).
      vm_compute. reflexivity.
Defined.

End Execucao.

(* ================================================================== *)
(** * The numeric parsers *)
(* ================================================================== *)

Module Numeros.
Import JS Layout Corrigido Spec JSFacts CorrigidoFacts StringFacts.
Import SimplesFacts NumberFacts.
Local Open Scope js_scope.

Lemma numero_ou_padrao_casos `{Runtime} valor valorPadrao :
  numero_ou_padrao valor valorPadrao = valorPadrao
  \/ exists n, numero_ou_padrao valor valorPadrao = VNumber n /\ isNaN n = false.
Proof.
  unfold numero_ou_padrao.
  destruct (is_undefined valor || is_null valor || is_empty_string valor);
    [left; reflexivity |].
  destruct valor as [| | s | n].
  - destruct (isNaN _) eqn:E; [left; reflexivity | right; eauto].
  - destruct (isNaN _) eqn:E; [left; reflexivity | right; eauto].
  - destruct (isNaN _) eqn:E; [left; reflexivity | right; eauto].
  - destruct (isNaN n) eqn:E; [left; reflexivity | right; eauto].
Qed.

Lemma numero_ou_padrao_simples_casos `{Runtime} valor valorPadrao :
  numero_ou_padrao_simples valor valorPadrao = valorPadrao
  \/ exists n, numero_ou_padrao_simples valor valorPadrao = VNumber n
               /\ isNaN n = false.
Proof.
  unfold numero_ou_padrao_simples.
  destruct (is_undefined valor || is_null valor || is_empty_string valor);
    [left; reflexivity |].
  destruct valor as [| | s | n].
  - destruct (isNaN _) eqn:E; [left; reflexivity | right; eauto].
  - destruct (isNaN _) eqn:E; [left; reflexivity | right; eauto].
  - destruct (isNaN _) eqn:E; [left; reflexivity | right; eauto].
  - destruct (isNaN n) eqn:E; [left; reflexivity | right; eauto].
Qed.

(** C3, as amended — the parser of conversor-final-corrigido.js and
    conversor-final-corrigido-v2.js maps every text written with thousands
    dots and a decimal comma to the number it denotes, that is, to the float
    nearest to its value ([1.234,56] to 1234.56), and every text [Number]
    cannot read, such as [abc], to the default.  The parser of
    conversor-simples.js replaces only the first comma and keeps the dots: it
    reads digits, a comma and digits as the number they denote, maps
    [1.234,56] to the default, and maps what [Number] cannot read to the
    default.  Both map missing, null and empty input to the default, and
    neither throws. *)
Theorem parseNumero_textos `{Runtime} :
  (forall grupos decimais valorPadrao,
      grupos <> [] -> Forall so_digitos grupos -> digitos decimais ->
      parseNumero (VString (forma_milhar grupos decimais)) valorPadrao
      = (Return (VNumber (binary64 (valor_milhar grupos decimais))), []))
  /\ (forall s valorPadrao,
      StringToNumber (replace_first 44 46 (remove_all 46 s)) = NaN ->
      parseNumero (VString s) valorPadrao = (Return valorPadrao, []))
  /\ (forall valorPadrao,
      parseNumero (VString (js "abc")) valorPadrao = (Return valorPadrao, []))
  /\ (forall valor valorPadrao,
      exists resultado,
        parseNumero valor valorPadrao = (Return resultado, [])
        /\ (resultado = valorPadrao
            \/ exists n, resultado = VNumber n /\ isNaN n = false))
  /\ (forall valorPadrao,
      parseNumero VUndefined valorPadrao = (Return valorPadrao, [])
      /\ parseNumero VNull valorPadrao = (Return valorPadrao, [])
      /\ parseNumero (VString []) valorPadrao = (Return valorPadrao, []))
  /\ (forall inteiro decimais valorPadrao,
      so_digitos inteiro -> digitos decimais ->
      Simples.parseNumero (VString (forma_milhar [inteiro] decimais)) valorPadrao
      = (Return (VNumber (binary64 (valor_milhar [inteiro] decimais))), []))
  /\ (forall valorPadrao,
      Simples.parseNumero (VString (js "1.234,56")) valorPadrao
      = (Return valorPadrao, []))
  /\ (forall s valorPadrao,
      StringToNumber (replace_first 44 46 s) = NaN ->
      Simples.parseNumero (VString s) valorPadrao = (Return valorPadrao, []))
  /\ (forall valor valorPadrao,
      exists resultado,
        Simples.parseNumero valor valorPadrao = (Return resultado, [])
        /\ (resultado = valorPadrao
            \/ exists n, resultado = VNumber n /\ isNaN n = false))
  /\ (forall valorPadrao,
      Simples.parseNumero VUndefined valorPadrao = (Return valorPadrao, [])
      /\ Simples.parseNumero VNull valorPadrao = (Return valorPadrao, [])
      /\ Simples.parseNumero (VString []) valorPadrao = (Return valorPadrao, [])).
Proof.
  repeat apply conj.
  - intros grupos decimais d Hne Hg Hd.
    apply parseNumero_forma_milhar; assumption.
  - intros s d Hnan. rewrite parseNumero_ret. unfold numero_ou_padrao.
    destruct (is_undefined _ || is_null _ || is_empty_string _);
      [reflexivity |].
    cbn [ToString]. rewrite Hnan. reflexivity.
  - intros d. rewrite parseNumero_ret. reflexivity.
  - intros valor d. exists (numero_ou_padrao valor d).
    split; [apply parseNumero_ret | apply numero_ou_padrao_casos].
  - intros d. repeat split; reflexivity.
  - intros inteiro decimais d [Hne Hi] Hd.
    rewrite simples_parseNumero_ret. unfold numero_ou_padrao_simples.
    unfold forma_milhar, valor_milhar. cbn [join concat].
    rewrite app_nil_r.
    assert (Hnv : is_empty_string
                    (VString (inteiro ++ match decimais with
                                         | [] => []
                                         | _ :: _ => 44%N :: decimais
                                         end)) = false).
    { destruct inteiro; [congruence | reflexivity]. }
    cbn [is_undefined is_null orb]. rewrite Hnv. cbn [ToString].
    destruct decimais as [| c ds].
    + rewrite !app_nil_r, (replace_first_digitos _ Hi).
      rewrite (StringToNumber_inteiro _ Hne Hi), isNaN_binary64. reflexivity.
    + rewrite (replace_first_comma _ _ Hi).
      rewrite (StringToNumber_decimal _ _ Hne Hi Hd), isNaN_binary64.
      reflexivity.
  - intros d. rewrite simples_parseNumero_ret. reflexivity.
  - intros s d Hnan. rewrite simples_parseNumero_ret.
    unfold numero_ou_padrao_simples.
    destruct (is_undefined _ || is_null _ || is_empty_string _);
      [reflexivity |].
    cbn [ToString]. rewrite Hnan. reflexivity.
  - intros valor d. exists (numero_ou_padrao_simples valor d).
    split; [apply simples_parseNumero_ret | apply numero_ou_padrao_simples_casos].
  - intros d. repeat split; reflexivity.
Qed.

Lemma parseNumero_textos_witness :
  parseNumero (H := Latin1.runtime) (texto "1.234,56") (VNumber (Finite 0))
  = (Return (VNumber (binary64 (123456 # 100))), [])
  /\ Simples.parseNumero (H := Latin1.runtime) (texto "1234,56") (VNumber (Finite 0))
     = (Return (VNumber (binary64 (123456 # 100))), [])
  /\ binary64 (123456 # 100)
     = Finite (2714826150374277 # 2199023255552).
Proof.
  split; [| split; [| vm_compute; reflexivity]].
  - pose proof (proj1 (@parseNumero_textos Latin1.runtime)
                  [js "1"; js "234"] (js "56") (VNumber (Finite 0))) as W.
    assert (Hne : [js "1"; js "234"] <> []) by discriminate.
    assert (Hg : Forall so_digitos [js "1"; js "234"]).
    { repeat constructor; try discriminate; vm_compute; reflexivity. }
    assert (Hd : digitos (js "56")).
    { repeat constructor; vm_compute; reflexivity. }
    specialize (W Hne Hg Hd).
    assert (Hf : forma_milhar [js "1"; js "234"] (js "56") = js "1.234,56")
      by (vm_compute; reflexivity).
    assert (Hv : binary64 (valor_milhar [js "1"; js "234"] (js "56"))
                 = binary64 (123456 # 100))
      by (vm_compute; reflexivity).
    rewrite Hf, Hv in W. exact W.
  - pose proof (proj1 (proj2 (proj2 (proj2 (proj2 (proj2
                  (@parseNumero_textos Latin1.runtime))))))
                  (js "1234") (js "56") (VNumber (Finite 0))) as W.
    assert (Hi : so_digitos (js "1234")).
    { split; [discriminate |]. repeat constructor; vm_compute; reflexivity. }
    assert (Hd : digitos (js "56")).
    { repeat constructor; vm_compute; reflexivity. }
    specialize (W Hi Hd).
    assert (Hf : forma_milhar [js "1234"] (js "56") = js "1234,56")
      by (vm_compute; reflexivity).
    assert (Hv : binary64 (valor_milhar [js "1234"] (js "56"))
                 = binary64 (123456 # 100))
      by (vm_compute; reflexivity).
    rewrite Hf, Hv in W. exact W.
Defined.

(** C3 as stated fails for the parser of conversor-simples.js, which reads
    the text [1.234,56] as the default where the text denotes 1234.56. *)
Lemma parseNumero_simples_counterexample :
  forma_milhar [js "1"; js "234"] (js "56") = js "1.234,56"
  /\ Qeq (valor_milhar [js "1"; js "234"] (js "56")) (123456 # 100)
  /\ Simples.parseNumero (H := Latin1.runtime) (texto "1.234,56")
       (VNumber (Finite 0)) = (Return (VNumber (Finite 0)), [])
  /\ Simples.parseNumero (H := Latin1.runtime) (texto "1.234,56")
       (VNumber (Finite 0))
     <> (Return (VNumber (binary64 (valor_milhar [js "1"; js "234"] (js "56")))),
         []).
Proof.
  repeat split; try (vm_compute; reflexivity).
  vm_compute. discriminate.
Qed.

End Numeros.

(* ================================================================== *)
(** * Further properties of the shared helpers *)
(* ================================================================== *)

Module Leitura.
Import JS Layout Corrigido Spec JSFacts CorrigidoFacts StringFacts ResolverFacts.
Local Open Scope js_scope.

Section Facts.
Context `{Runtime}.

Lemma encontrarColuna_normalizada_In normalizados chaves k :
  encontrarColuna_normalizada normalizados chaves = Some k -> In k chaves.
Proof.
  induction chaves as [| c chaves IH]; [discriminate |].
  cbn [encontrarColuna_normalizada].
  destruct (0 <=? findIndex _ normalizados)%Z.
  - intros Heq. inversion Heq. left. reflexivity.
  - intros Heq. right. apply IH. exact Heq.
Qed.

Lemma encontrarColuna_normalizada_sem_nomes chaves :
  encontrarColuna_normalizada [] chaves = None.
Proof. induction chaves as [| c chaves IH]; [reflexivity | exact IH]. Qed.

Lemma resolver_In obj possiveisNomes k :
  resolver obj possiveisNomes = Some k -> In k (keys obj).
Proof.
  unfold resolver. destruct (find (hasOwn obj) possiveisNomes) as [n |] eqn:E.
  - intros Heq. inversion Heq; subst n. apply find_some in E.
    apply hasOwn_In. apply E.
  - apply encontrarColuna_normalizada_In.
Qed.

(** The resolution only looks at the header names of the row. *)
Lemma resolver_so_cabecalhos r r0 possiveisNomes :
  keys r = keys r0 -> resolver r possiveisNomes = resolver r0 possiveisNomes.
Proof.
  intros Hk. unfold resolver, hasOwn. rewrite Hk. reflexivity.
Qed.

Lemma resolver_do_proprio obj k :
  In k (keys obj) -> resolver obj [k] = Some k.
Proof.
  intros Hin. unfold resolver. cbn [find].
  rewrite (proj2 (hasOwn_In obj k) Hin). reflexivity.
Qed.

(** What [encontrarColuna] does on a row with a column named
    [hasOwnProperty]: it throws, unless there is no candidate. *)
Lemma encontrarColuna_casos obj possiveisNomes :
  (sombreado obj = false
   /\ encontrarColuna obj possiveisNomes = ret (resolver obj possiveisNomes))
  \/ (sombreado obj = true /\ possiveisNomes = []
      /\ encontrarColuna obj possiveisNomes = ret None)
  \/ (sombreado obj = true
      /\ encontrarColuna obj possiveisNomes = throw erro_de_sombra).
Proof.
  destruct (sombreado obj) eqn:Hs.
  - right. destruct possiveisNomes as [| nome resto].
    + left. repeat split. unfold encontrarColuna. cbn [encontrarColuna_exata map].
      rewrite bind_ret_l, encontrarColuna_normalizada_sem_nomes. reflexivity.
    + right. split; [reflexivity |]. apply encontrarColuna_sombreado. exact Hs.
  - left. split; [reflexivity |]. apply encontrarColuna_sem_sombra. exact Hs.
Qed.

Lemma obterValorSeguro_casos obj possiveisNomes valorPadrao :
  obterValorSeguro obj possiveisNomes valorPadrao
  = ret (valorSeguro obj possiveisNomes valorPadrao)
  \/ obterValorSeguro obj possiveisNomes valorPadrao = ret valorPadrao
  \/ obterValorSeguro obj possiveisNomes valorPadrao = throw erro_de_sombra.
Proof.
  destruct (sombreado obj) eqn:Hs.
  - destruct possiveisNomes as [[| c nome] | [| nome resto]].
    + right. left. reflexivity.
    + right. right. apply obterValorSeguro_sombreado; [exact Hs | discriminate].
    + right. left. unfold obterValorSeguro, encontrarColuna.
      cbn [encontrarColuna_exata map].
      rewrite bind_ret_l, encontrarColuna_normalizada_sem_nomes, bind_ret_l.
      reflexivity.
    + right. right. apply obterValorSeguro_sombreado; [exact Hs | discriminate].
  - left. apply obterValorSeguro_sem_sombra. exact Hs.
Qed.

Lemma valorSeguro_origem obj possiveisNomes valorPadrao :
  valorSeguro obj possiveisNomes valorPadrao = valorPadrao
  \/ (vazio (valorSeguro obj possiveisNomes valorPadrao) = false
      /\ exists k, In k (keys obj)
                   /\ get obj k = valorSeguro obj possiveisNomes valorPadrao).
Proof.
  unfold valorSeguro.
  destruct possiveisNomes as [[| c nome] | lista]; auto;
    (destruct (resolver obj _) as [[| c' nome'] |] eqn:Er; auto;
     destruct (vazio (get obj (c' :: nome'))) eqn:E; auto;
     right; split; [exact E |];
     exists (c' :: nome'); split; [eapply resolver_In; exact Er | reflexivity]).
Qed.

Lemma trimStart_nil_iff s : trimStart s = [] <-> forallb is_space s = true.
Proof.
  induction s as [| c s IH]; [cbn; tauto |].
  cbn [trimStart forallb]. destruct (is_space c); cbn [andb].
  - exact IH.
  - split; discriminate.
Qed.

(** The trim of a string is empty exactly when the string is white space
    throughout. *)
Lemma trim_vazio s : str_eqb (trim s) [] = forallb is_space s.
Proof.
  destruct (forallb is_space s) eqn:E.
  - apply str_eqb_eq. unfold trim.
    rewrite (proj2 (trimStart_nil_iff s) E). reflexivity.
  - apply str_eqb_neq. intros Hnil.
    assert (Hex : exists c, In c s /\ is_space c = false).
    { clear Hnil. induction s as [| c s IH]; [discriminate |].
      cbn [forallb] in E. destruct (is_space c) eqn:Ec.
      - destruct (IH E) as (c' & Hin & Hc'). exists c'. split; [right |]; auto.
      - exists c. split; [left; reflexivity | exact Ec]. }
    destruct Hex as (c & Hin & Hc).
    pose proof (trim_keeps c s Hin Hc) as Hk. rewrite Hnil in Hk. contradiction.
Qed.

End Facts.

Lemma encontrarColuna_ordem_de_resolucao_witness :
  encontrarColuna (H := Latin1.runtime) linha_precos
    [js "Codigo"; js "Código"] = (Return (Some (js "Código")), [])
  /\ encontrarColuna (H := Latin1.runtime) linha_maiusculas
       [js "Código"; js "Codigo"] = (Return (Some (js "CÓDIGO")), [])
  /\ encontrarColuna (H := Latin1.runtime) linha_maiusculas
       [js "Fornecedor"] = (Return None, []).
Proof.
  split; [| split].
  - destruct (@encontrarColuna_ordem_de_resolucao Latin1.runtime linha_precos
                [js "Codigo"; js "Código"])
      as (resultado & Hres & Hexata & _).
    + vm_compute. reflexivity.
    + rewrite Hres.
      rewrite (Hexata [js "Codigo"] (js "Código") [] eq_refl
                 ltac:(vm_compute; left; reflexivity)
                 ltac:(intros n [<- | []] Hin; vm_compute in Hin;
                       repeat (destruct Hin as [Hin | Hin]; try discriminate);
                       exact Hin)).
      reflexivity.
  - destruct (@encontrarColuna_ordem_de_resolucao Latin1.runtime
                linha_maiusculas [js "Código"; js "Codigo"])
      as (resultado & Hres & _ & Hnorm & _).
    + vm_compute. reflexivity.
    + rewrite Hres.
      rewrite (Hnorm
                 ltac:(intros n [<- | [<- | []]] Hin; vm_compute in Hin;
                       repeat (destruct Hin as [Hin | Hin]; try discriminate);
                       exact Hin)
                 [] (js "CÓDIGO") [js "DESCRIÇÃO"]
                 ltac:(vm_compute; reflexivity)
                 ltac:(vm_compute; left; reflexivity)
                 ltac:(intros k [])).
      reflexivity.
  - destruct (@encontrarColuna_ordem_de_resolucao Latin1.runtime
                linha_maiusculas [js "Fornecedor"])
      as (resultado & Hres & _ & _ & Hnone).
    + vm_compute. reflexivity.
    + rewrite Hres.
      rewrite (Hnone
                 ltac:(intros n [<- | []] Hin; vm_compute in Hin;
                       repeat (destruct Hin as [Hin | Hin]; try discriminate);
                       exact Hin)
                 ltac:(intros k [<- | [<- | []]] Hin; vm_compute in Hin;
                       repeat (destruct Hin as [Hin | Hin]; try discriminate);
                       exact Hin)).
      reflexivity.
Defined.

(** X1 — whatever header [encontrarColuna] returns is a header of the row:
    the resolver never invents a column, and never returns a candidate name
    that the row does not have. *)
Theorem encontrarColuna_devolve_cabecalho `{Runtime} :
  forall obj possiveisNomes k l,
    encontrarColuna obj possiveisNomes = (Return (Some k), l) ->
    In k (keys obj).
Proof.
  intros obj nomes k l Hr.
  destruct (encontrarColuna_casos obj nomes)
    as [[_ He] | [[_ [_ He]] | [_ He]]]; rewrite He in Hr;
    try discriminate.
  inversion Hr as [Hk]. eapply resolver_In. exact Hk.
Qed.

Lemma encontrarColuna_devolve_cabecalho_witness :
  In (js "CÓDIGO") (keys linha_maiusculas).
Proof.
  apply (@encontrarColuna_devolve_cabecalho Latin1.runtime linha_maiusculas
           [js "Código"; js "Codigo"] (js "CÓDIGO") []).
  vm_compute. reflexivity.
Defined.

(** X2 — [obterValorSeguro] writes nothing on the console, and what it
    returns is either the default or the content of a column of the row that
    is not blank: never [undefined], [null] or a string of white space,
    unless that is the default. *)
Theorem obterValorSeguro_padrao_ou_celula `{Runtime} :
  forall obj possiveisNomes valorPadrao v l,
    obterValorSeguro obj possiveisNomes valorPadrao = (Return v, l) ->
    l = []
    /\ (v = valorPadrao
        \/ (vazio v = false /\ exists k, In k (keys obj) /\ get obj k = v)).
Proof.
  intros obj nomes d v l Hr.
  destruct (obterValorSeguro_casos obj nomes d) as [He | [He | He]];
    rewrite He in Hr; try discriminate; inversion Hr; subst.
  - split; [reflexivity |]. apply valorSeguro_origem.
  - split; [reflexivity |]. left. reflexivity.
Qed.

Lemma obterValorSeguro_padrao_ou_celula_witness :
  vazio (texto "Porca") = false
  /\ exists k, In k (keys linha_maiusculas)
               /\ get linha_maiusculas k = texto "Porca".
Proof.
  destruct (@obterValorSeguro_padrao_ou_celula Latin1.runtime linha_maiusculas
              (VariosNomes [js "Descrição"; js "Descricao"]) (VString [])
              (texto "Porca") [])
    as (_ & [Hd | Hc]).
  - vm_compute. reflexivity.
  - vm_compute in Hd. discriminate.
  - exact Hc.
Defined.

(** X3 — [estaVazio] never throws. A string is empty exactly when every code
    unit of it is white space; [undefined] and [null] are empty; a number
    never is, not even 0 or NaN. *)
Theorem estaVazio_decide `{Runtime} :
  (forall s, estaVazio (VString s) = (Return (forallb is_space s), []))
  /\ (forall n, estaVazio (VNumber n) = (Return false, []))
  /\ estaVazio VUndefined = (Return true, [])
  /\ estaVazio VNull = (Return true, []).
Proof.
  repeat split.
  - intros s. rewrite estaVazio_ret. cbn [vazio]. rewrite trim_vazio.
    reflexivity.
Qed.

(** X4 — resolving a field once, on the first row, and then reading each row
    by the resolved header, as [diagnosticarColunas] and [converterProduto]
    do together, gives the value that resolving the candidate list on the
    row itself gives, for every row that has the headers of the first one. *)
Theorem leitura_pelo_cabecalho_resolvido `{Runtime} :
  forall primeira obj possiveisNomes campo l valorPadrao,
    keys obj = keys primeira ->
    encontrarColuna primeira possiveisNomes = (Return campo, l) ->
    obterValorSeguro obj (ou campo possiveisNomes) valorPadrao
    = obterValorSeguro obj (VariosNomes possiveisNomes) valorPadrao.
Proof.
  intros r0 r nomes campo l d Hk Hr.
  destruct campo as [[| c k] |]; try reflexivity.
  destruct (encontrarColuna_casos r0 nomes)
    as [[Hs He] | [[_ [_ He]] | [_ He]]]; rewrite He in Hr;
    try discriminate.
  inversion Hr as [Hres].
  assert (Hsr : sombreado r = false).
  { unfold sombreado, hasOwn in *. rewrite Hk. exact Hs. }
  rewrite !obterValorSeguro_sem_sombra by exact Hsr.
  f_equal. unfold valorSeguro, ou. cbn [lista_de_nomes].
  rewrite (resolver_so_cabecalhos r r0 nomes Hk), Hres.
  change (lista_de_nomes (UmNome (c :: k))) with [c :: k].
  rewrite resolver_do_proprio; [reflexivity |].
  rewrite Hk. eapply resolver_In. exact Hres.
Qed.

Lemma leitura_pelo_cabecalho_resolvido_witness :
  obterValorSeguro (H := Latin1.runtime) linha_maiusculas
    (ou (Some (js "CÓDIGO")) [js "Código"; js "Codigo"]) (VString [])
  = obterValorSeguro (H := Latin1.runtime) linha_maiusculas
      (VariosNomes [js "Código"; js "Codigo"]) (VString []).
Proof.
  apply (@leitura_pelo_cabecalho_resolvido Latin1.runtime linha_maiusculas
           linha_maiusculas [js "Código"; js "Codigo"] (Some (js "CÓDIGO")) []).
  - reflexivity.
  - vm_compute. reflexivity.
Defined.

End Leitura.

(* ================================================================== *)
(** * Further properties of conversor-final-corrigido-v2.js *)
(* ================================================================== *)

Module V2Props.
Import JS Layout Corrigido Spec JSFacts CorrigidoFacts StringFacts.
Import V2Facts V2Extracao V2Conversao V2Laco Leitura.
Import V2.
Local Open Scope js_scope.

Section Facts.
Context `{Runtime}.

Lemma descricao_padrao_cheia index :
  vazio (VString (descricao_padrao index)) = false.
Proof.
  apply letter_not_blank. unfold test_letter, descricao_padrao.
  apply existsb_exists. exists 80%N. split; [| reflexivity].
  apply in_or_app. left. vm_compute. left. reflexivity.
Qed.

Lemma v2_descricao_cheia obj mapa index p log :
  converterProduto obj mapa index = (Return p, log) ->
  vazio (Descricao p) = false.
Proof.
  intros Hp.
  destruct (v2_converterProduto_inv _ _ _ _ _ Hp)
    as (d & l & _ & _ & _ & Hd & _).
  rewrite Hd. destruct (vazio d) eqn:E; [apply descricao_padrao_cheia | exact E].
Qed.

Lemma v2_converterProduto_ID obj mapa index p log :
  converterProduto obj mapa index = (Return p, log) ->
  ID p = VNumber (number_of_nat (index + 1)).
Proof.
  intros Hp. pose proof (v2_converterProduto_sem_sombra _ _ _ _ _ Hp) as Hs.
  destruct (extrairDescricao_total obj mapa index Hs) as (d & l & Hd).
  destruct (v2_converterProduto_resumo obj mapa index d l Hs Hd)
    as (p' & Hp' & Hid & _).
  rewrite Hp' in Hp. inversion Hp; subst. exact Hid.
Qed.

(** A turn of the loop leaves the list of the rows without description as it
    is. *)
Lemma v2_passo_avisos mapa total index e st :
  exists st' l,
    iniciar_passo mapa total index e st = (Return st', l)
    /\ avisosDescricaoVazia st' = avisosDescricaoVazia st
    /\ descricoesInferidas st' = descricoesInferidas st.
Proof.
  destruct (v2_progresso_total index total) as [lp Hp].
  destruct e as [r | v].
  - destruct (converterProduto r mapa index) as [[p | ex] l] eqn:Hc.
    + pose proof (v2_descricao_cheia _ _ _ _ _ Hc) as Hd.
      unfold iniciar_passo. rewrite Hc, Hp.
      eexists; eexists. split.
      * eapply bind_step; [| reflexivity].
        cbn [bind try_catch]. rewrite estaVazio_ret, bind_ret_l. cbv zeta.
        reflexivity.
      * cbn [avisosDescricaoVazia descricoesInferidas]. rewrite Hd.
        split; reflexivity.
    + unfold iniciar_passo. rewrite Hc, Hp.
      eexists; eexists. split; [reflexivity |]. split; reflexivity.
  - unfold iniciar_passo. rewrite Hp.
    eexists; eexists. split; [reflexivity |]. split; reflexivity.
Qed.

Lemma v2_laco_avisos mapa total entradas :
  forall index st st' l,
    iniciar_laco mapa total index entradas st = (Return st', l) ->
    avisosDescricaoVazia st' = avisosDescricaoVazia st
    /\ descricoesInferidas st' = descricoesInferidas st.
Proof.
  induction entradas as [| e resto IH]; intros index st st' l Hl.
  - inversion Hl; subst. split; reflexivity.
  - cbn [iniciar_laco] in Hl.
    destruct (v2_passo_avisos mapa total index e st) as (st1 & l1 & H1 & Ha & Hd).
    rewrite H1 in Hl. apply bind_Return_inv in Hl.
    destruct Hl as (a & la & lb & Heq & Hrest & _).
    inversion Heq; subst a la.
    destruct (IH _ _ _ _ Hrest) as [Ha' Hd'].
    rewrite Ha', Hd', Ha, Hd. split; reflexivity.
Qed.

Lemma ids_dos_convertidos mapa entradas :
  forall index,
    map ID (convertidos mapa index entradas)
    = map (fun i => VNumber (number_of_nat (i + 1)))
          (posicoes_convertidas mapa index entradas).
Proof.
  induction entradas as [| e resto IH]; intros index; [reflexivity |].
  cbn [convertidos posicoes_convertidas]. rewrite !map_app, IH. f_equal.
  destruct e as [r | v]; [| reflexivity].
  destruct (converterProduto r mapa index) as [[p | ex] l] eqn:Hc;
    cbn [fst map]; [| reflexivity].
  rewrite (v2_converterProduto_ID _ _ _ _ _ Hc). reflexivity.
Qed.

Lemma posicoes_limites mapa entradas :
  forall index,
    Forall (fun i => index <= i < index + length entradas)
           (posicoes_convertidas mapa index entradas).
Proof.
  induction entradas as [| e resto IH]; intros index; [constructor |].
  cbn [posicoes_convertidas length]. apply Forall_app. split.
  - destruct e as [r | v]; [| constructor].
    destruct (fst (converterProduto r mapa index)); constructor;
      [lia | constructor].
  - eapply Forall_impl; [| apply IH]. cbv beta. intros i Hi. lia.
Qed.

Lemma posicoes_crescentes mapa entradas :
  forall index, StronglySorted lt (posicoes_convertidas mapa index entradas).
Proof.
  induction entradas as [| e resto IH]; intros index; [constructor |].
  cbn [posicoes_convertidas].
  assert (Hcauda : Forall (fun i => index < i)
                     (posicoes_convertidas mapa (S index) resto)).
  { eapply Forall_impl; [| apply posicoes_limites]. cbv beta. intros i Hi. lia. }
  destruct e as [r | v]; [| apply IH].
  destruct (fst (converterProduto r mapa index)); cbn [app]; [| apply IH].
  constructor; [apply IH | exact Hcauda].
Qed.

Lemma posicoes_e_registos mapa entradas :
  forall index,
    Forall2 (fun i p => exists r l,
                 index <= i
                 /\ nth_error entradas (i - index) = Some (Row r)
                 /\ converterProduto r mapa i = (Return p, l))
            (posicoes_convertidas mapa index entradas)
            (convertidos mapa index entradas).
Proof.
  induction entradas as [| e resto IH]; intros index; [constructor |].
  cbn [posicoes_convertidas convertidos].
  assert (Hcauda :
    Forall2 (fun i p => exists r l,
                 index <= i
                 /\ nth_error (e :: resto) (i - index) = Some (Row r)
                 /\ converterProduto r mapa i = (Return p, l))
            (posicoes_convertidas mapa (S index) resto)
            (convertidos mapa (S index) resto)).
  { eapply Forall2_impl; [| apply IH]. cbv beta.
    intros i p (r & l & Hi & Hn & Hc). exists r, l.
    split; [lia |]. split; [| exact Hc].
    replace (i - index) with (S (i - S index)) by lia. exact Hn. }
  destruct e as [r | v]; [| exact Hcauda].
  destruct (converterProduto r mapa index) as [[p | ex] l] eqn:Hc;
    cbn [fst app]; [| exact Hcauda].
  constructor; [| exact Hcauda].
  exists r, l. split; [lia |]. rewrite Nat.sub_diag. split; [reflexivity | exact Hc].
Qed.

Lemma falhados_invalidas mapa entradas :
  forall index,
    falhados mapa index entradas = length (filter entrada_invalida entradas).
Proof.
  induction entradas as [| e resto IH]; intros index; [reflexivity |].
  cbn [falhados filter]. rewrite IH.
  destruct e as [r | v]; cbn [entrada_invalida]; [| reflexivity].
  destruct (sombreado r) eqn:Hs.
  - rewrite v2_converterProduto_sombreado by exact Hs. reflexivity.
  - destruct (v2_converterProduto_total r mapa index Hs) as (p & l & Hc).
    rewrite Hc. reflexivity.
Qed.

(** What Método 4 keeps: the first of the longest candidates. *)
Lemma fold_mais_longa_primeira resto :
  forall candidatos melhor,
    Forall (fun cv => is_string (snd cv) = true) resto ->
    is_string (snd melhor) = true ->
    primeira_mais_longa candidatos melhor ->
    primeira_mais_longa (candidatos ++ resto) (fold_left mais_longa resto melhor).
Proof.
  induction resto as [| y resto IH]; intros candidatos melhor Hr Hm Hp.
  - rewrite app_nil_r. exact Hp.
  - inversion Hr as [| ? ? Hy Hr']; subst. cbn [fold_left].
    replace (candidatos ++ y :: resto) with ((candidatos ++ [y]) ++ resto)
      by (rewrite <- app_assoc; reflexivity).
    apply IH; [exact Hr' | apply mais_longa_string; assumption |].
    destruct Hp as (antes & depois & Hc & Ha & Hd).
    destruct melhor as [km vm], y as [ky vy]. cbn [snd] in *.
    destruct vm as [| | sm | nm]; try discriminate.
    destruct vy as [| | sy | ny]; try discriminate.
    unfold mais_longa. cbn [snd comprimento length_gt].
    destruct (length sm <? length sy)%nat eqn:E.
    + apply Nat.ltb_lt in E.
      exists (candidatos), []. split; [reflexivity |]. split.
      * intros cv Hin. cbn [snd tamanho]. rewrite Hc in Hin.
        apply in_app_or in Hin. destruct Hin as [Hin | [<- | Hin]].
        -- specialize (Ha cv Hin). cbn [tamanho] in Ha. lia.
        -- cbn [snd tamanho]. exact E.
        -- specialize (Hd cv Hin). cbn [tamanho] in Hd. lia.
      * intros cv [].
    + apply Nat.ltb_ge in E.
      exists antes, (depois ++ [(ky, VString sy)]). split.
      * rewrite Hc, <- app_assoc. reflexivity.
      * split; [exact Ha |]. intros cv Hin. apply in_app_or in Hin.
        destruct Hin as [Hin | [<- | []]]; [apply Hd; exact Hin |].
        cbn [snd tamanho]. exact E.
Qed.

Lemma extrairDescricao_da_mais_longa obj mapa index l1 l3 codigo x resto :
  extrairDescricao_metodo1 obj colunasDescricao = (Return None, l1) ->
  (forall col, In col (keys obj) -> candidata obj col = false) ->
  obterValorSeguro obj (VariosNomes [js "Código"; js "Codigo"]) (VString [])
    = (Return codigo, l3) ->
  match codigo with
  | VString s => includes s (js " ") = false
  | _ => True
  end ->
  candidatos_metodo4 obj (keys obj) = x :: resto ->
  extrairDescricao obj mapa index =
  (Return (snd (fold_left mais_longa resto x)),
   l1 ++ l3 ++ [registo_metodo4 index (fold_left mais_longa resto x)]).
Proof.
  intros H1 Hcols H3 Hcod Hcand.
  pose proof (metodo2_nada obj (keys obj) index Hcols) as H2.
  unfold extrairDescricao.
  apply (bind_step _ _ _ _ _ _ H1). cbv zeta.
  rewrite H2, bind_ret_l.
  apply (bind_step _ _ _ _ _ _ H3).
  rewrite estaVazio_ret, bind_ret_l, tem_espaco_ret, bind_ret_l.
  assert (Hno : match codigo with
                | VString s => negb (vazio codigo) && includes s (js " ")
                | _ => false
                end = false).
  { destruct codigo as [| | s | n]; try reflexivity.
    rewrite Hcod. apply andb_false_r. }
  rewrite Hno, metodo4_ret, Hcand. reflexivity.
Qed.

Lemma get_ausente obj k : hasOwn obj k = false -> get obj k = VUndefined.
Proof.
  unfold hasOwn, keys. induction obj as [| [k' v] obj IH]; [reflexivity |].
  cbn [map fst existsb get]. rewrite orb_false_iff. intros [Hk Hr].
  assert (Hk' : str_eqb k' k = false).
  { apply str_eqb_neq. intros ->. rewrite str_eqb_refl in Hk. discriminate. }
  rewrite Hk'. apply IH. exact Hr.
Qed.

(** A cell that is not blank, read by the name of its own column. *)
Lemma valorSeguro_proprio obj k valorPadrao :
  k <> [] -> vazio (get obj k) = false ->
  valorSeguro obj (VariosNomes [k]) valorPadrao = get obj k.
Proof.
  intros Hk Hv.
  assert (Hin : In k (keys obj)).
  { apply hasOwn_In. destruct (hasOwn obj k) eqn:E; [reflexivity |].
    rewrite (get_ausente obj k E) in Hv. discriminate. }
  unfold valorSeguro. cbn [lista_de_nomes].
  rewrite (resolver_do_proprio obj k Hin).
  destruct k as [| c k]; [contradiction |]. rewrite Hv. reflexivity.
Qed.

Lemma extrairDescricao_da_coluna obj mapa index :
  sombreado obj = false ->
  vazio (get obj (js "Descrição")) = false ->
  extrairDescricao obj mapa index = ret (get obj (js "Descrição")).
Proof.
  intros Hs Hv. unfold extrairDescricao, colunasDescricao.
  rewrite metodo1_cons by exact Hs.
  rewrite valorSeguro_proprio; [| vm_compute; discriminate | exact Hv].
  rewrite Hv, bind_ret_l. reflexivity.
Qed.

Lemma filter_complemento {A} (f : A -> bool) l :
  length (filter f l) + length (filter (fun x => negb (f x)) l) = length l.
Proof.
  induction l as [| x l IH]; [reflexivity |].
  cbn [filter]. destruct (f x); cbn [negb length]; lia.
Qed.

End Facts.

(** X5 — the record [converterProduto] returns never has a blank Descrição:
    the placeholder [Produto n] stands in when every method finds nothing. *)
Theorem descricao_nunca_vazia `{Runtime} :
  forall obj mapa index p log,
    V2.converterProduto obj mapa index = (Return p, log) ->
    vazio (Descricao p) = false.
Proof.
  intros obj mapa index p log Hp. eapply v2_descricao_cheia. exact Hp.
Qed.

Lemma descricao_nunca_vazia_witness :
  exists p l,
    V2.converterProduto (H := Latin1.runtime) linha_so_numeros mapa_vazio 0
    = (Return p, l)
    /\ vazio (Descricao p) = false.
Proof.
  destruct (V2.converterProduto (H := Latin1.runtime) linha_so_numeros mapa_vazio 0)
    as [[p | e] l] eqn:E; [| vm_compute in E; discriminate].
  exists p, l. split; [reflexivity |].
  apply (@descricao_nunca_vazia Latin1.runtime linha_so_numeros mapa_vazio 0 p l).
  exact E.
Defined.

(** X6 — in every run of the loop of [iniciar] the list
    [avisosDescricaoVazia] stays empty and [descricoesInferidas] stays 0:
    the report of the products left without description is never printed. *)
Theorem avisos_de_descricao_vazia_nunca_emitidos `{Runtime} :
  forall entradas mapa,
  exists st log,
    V2.iniciar_processar entradas mapa = (Return st, log)
    /\ avisosDescricaoVazia st = []
    /\ descricoesInferidas st = 0.
Proof.
  intros entradas mapa. unfold iniciar_processar.
  destruct (v2_laco_total mapa (length entradas) entradas 0 estado_inicial)
    as (st & log & Hrun & _).
  exists st, log. split; [exact Hrun |].
  apply (v2_laco_avisos _ _ _ _ _ _ _ Hrun).
Qed.

(** X8 — the ID of a record is the position of its row in the sheet, counted
    from 1: the records are not renumbered after a failure, so the IDs
    increase strictly and leave a gap where an entry failed. *)
Theorem ids_sao_as_posicoes `{Runtime} :
  forall entradas mapa,
  exists st log posicoes,
    V2.iniciar_processar entradas mapa = (Return st, log)
    /\ map ID (produtosNovos st)
       = map (fun i => VNumber (number_of_nat (i + 1))) posicoes
    /\ StronglySorted lt posicoes
    /\ Forall2 (fun i p => exists r l,
                    nth_error entradas i = Some (Row r)
                    /\ V2.converterProduto r mapa i = (Return p, l))
               posicoes (produtosNovos st).
Proof.
  intros entradas mapa. unfold iniciar_processar.
  destruct (v2_laco_total mapa (length entradas) entradas 0 estado_inicial)
    as (st & log & Hrun & Hp & _).
  exists st, log, (posicoes_convertidas mapa 0 entradas).
  cbn [produtosNovos estado_inicial app] in Hp. rewrite Hp.
  split; [exact Hrun |]. split; [apply ids_dos_convertidos |].
  split; [apply posicoes_crescentes |].
  eapply Forall2_impl; [| apply posicoes_e_registos]. cbv beta.
  intros i p (r & l & _ & Hn & Hc). exists r, l.
  rewrite Nat.sub_0_r in Hn. split; assumption.
Qed.

(** X9 — the entries the loop of [iniciar] fails on are exactly those that
    are not row objects and the rows with a column named [hasOwnProperty];
    every other row gives one record. *)
Theorem falhas_sao_as_entradas_invalidas `{Runtime} :
  forall entradas mapa,
  exists st log,
    V2.iniciar_processar entradas mapa = (Return st, log)
    /\ falhas st = length (filter entrada_invalida entradas)
    /\ sucessos st
       = length (filter (fun e => negb (entrada_invalida e)) entradas)
    /\ length (produtosNovos st) = sucessos st
    /\ length (erros st) = falhas st.
Proof.
  intros entradas mapa. unfold iniciar_processar.
  destruct (v2_laco_total mapa (length entradas) entradas 0 estado_inicial)
    as (st & log & Hrun & Hp & Hs & Hf & He).
  exists st, log. split; [exact Hrun |].
  cbn [produtosNovos sucessos falhas erros estado_inicial app length] in *.
  pose proof (convertidos_mais_falhados mapa entradas 0) as Hsum.
  pose proof (falhados_invalidas mapa entradas 0) as Hinv.
  pose proof (filter_complemento entrada_invalida entradas) as Hcomp.
  rewrite Hp, Hs, Hf, He. repeat split; lia.
Qed.

(** X10 — a cell of the column [Descrição] that is not blank is the
    Descrição of the record, whatever the other columns and the code hold,
    and nothing is written on the console. *)
Theorem descricao_da_coluna_propria `{Runtime} :
  forall obj mapa index p log,
    V2.converterProduto obj mapa index = (Return p, log) ->
    vazio (get obj (js "Descrição")) = false ->
    Descricao p = get obj (js "Descrição") /\ log = [].
Proof.
  intros obj mapa index p log Hp Hv.
  pose proof (v2_converterProduto_sem_sombra _ _ _ _ _ Hp) as Hs.
  destruct (v2_converterProduto_inv _ _ _ _ _ Hp)
    as (d & l & Hd & Hlog & _ & Hdesc & _).
  rewrite (extrairDescricao_da_coluna obj mapa index Hs Hv) in Hd.
  inversion Hd; subst d l. rewrite Hv in Hdesc, Hlog.
  split; [exact Hdesc | exact Hlog].
Qed.

Lemma descricao_da_coluna_propria_witness :
  exists p l,
    V2.converterProduto (H := Latin1.runtime) linha_com_descricao mapa_vazio 0
    = (Return p, l)
    /\ Descricao p = texto "Porca sextavada"
    /\ l = [].
Proof.
  destruct (V2.converterProduto (H := Latin1.runtime) linha_com_descricao mapa_vazio 0)
    as [[p | e] l] eqn:E; [| vm_compute in E; discriminate].
  exists p, l. split; [reflexivity |].
  assert (Hg : get linha_com_descricao (js "Descrição") = texto "Porca sextavada")
    by (vm_compute; reflexivity).
  rewrite <- Hg.
  apply (@descricao_da_coluna_propria Latin1.runtime linha_com_descricao
           mapa_vazio 0 p l).
  - exact E.
  - vm_compute. reflexivity.
Defined.

(** X11 — when the description columns, the scan of the other columns and
    the code give nothing, Método 4 returns the longest of the strings of
    more than one character that hold a letter, taken from all the columns,
    price and code columns too; among the longest ones, the first in column
    order. *)
Theorem descricao_da_candidata_mais_longa `{Runtime} :
  forall obj mapa index l1 l3 codigo,
    V2.extrairDescricao_metodo1 obj V2.colunasDescricao = (Return None, l1) ->
    (forall col, In col (keys obj) -> candidata obj col = false) ->
    obterValorSeguro obj (VariosNomes [js "Código"; js "Codigo"]) (VString [])
      = (Return codigo, l3) ->
    match codigo with
    | VString s => includes s (js " ") = false
    | _ => True
    end ->
    candidatos_metodo4 obj (keys obj) <> [] ->
    exists melhor,
      V2.extrairDescricao obj mapa index =
        (Return (snd melhor), l1 ++ l3 ++ [registo_metodo4 index melhor])
      /\ primeira_mais_longa (candidatos_metodo4 obj (keys obj)) melhor.
Proof.
  intros obj mapa index l1 l3 codigo H1 Hcols H3 Hcod Hne.
  pose proof (candidatos_metodo4_strings obj (keys obj)) as Hstr.
  destruct (candidatos_metodo4 obj (keys obj)) as [| x resto] eqn:Hcand;
    [contradiction |].
  exists (fold_left mais_longa resto x). split.
  - eapply extrairDescricao_da_mais_longa; eassumption.
  - inversion Hstr as [| ? ? Hx Hresto]; subst.
    apply (fold_mais_longa_primeira resto [x] x Hresto Hx).
    exists [], []. split; [reflexivity |]. split; intros cv [].
Qed.

Lemma descricao_da_candidata_mais_longa_witness :
  exists melhor,
    snd melhor = texto "R$ 10,00"
    /\ primeira_mais_longa
         (candidatos_metodo4 linha_sem_descricao (keys linha_sem_descricao))
         melhor.
Proof.
  destruct (@descricao_da_candidata_mais_longa Latin1.runtime
              linha_sem_descricao mapa_vazio 0 [] [] (texto "ABC123"))
    as (melhor & Hrun & Hprim).
  - vm_compute. reflexivity.
  - intros col [<- | [<- | [<- | [<- | []]]]]; vm_compute; reflexivity.
  - vm_compute. reflexivity.
  - vm_compute. reflexivity.
  - intros Hnil. vm_compute in Hnil. discriminate.
  - exists melhor. split; [| exact Hprim].
    assert (E : fst (V2.extrairDescricao (H := Latin1.runtime)
                       linha_sem_descricao mapa_vazio 0)
                = Return (texto "R$ 10,00")) by (vm_compute; reflexivity).
    rewrite Hrun in E. cbn [fst] in E. inversion E as [Hm]. reflexivity.
Defined.

(** X7 — the column map has no part in the description: whatever the map
    says, also about the description column, the record gets the same
    Descrição, so the ranking of the description columns made by
    [diagnosticarColunas] does not reach the conversion. *)
Theorem descricao_nao_depende_do_mapa `{Runtime} :
  forall obj mapa1 mapa2 index p1 l1,
    V2.converterProduto obj mapa1 index = (Return p1, l1) ->
    exists p2 l2,
      V2.converterProduto obj mapa2 index = (Return p2, l2)
      /\ Descricao p2 = Descricao p1.
Proof.
  intros obj mapa1 mapa2 index p1 l1 Hp1.
  pose proof (v2_converterProduto_sem_sombra _ _ _ _ _ Hp1) as Hs.
  destruct (v2_converterProduto_total obj mapa2 index Hs) as (p2 & l2 & Hp2).
  exists p2, l2. split; [exact Hp2 |].
  destruct (v2_converterProduto_inv _ _ _ _ _ Hp1)
    as (d1 & k1 & Hd1 & _ & _ & Hdesc1 & _).
  destruct (v2_converterProduto_inv _ _ _ _ _ Hp2)
    as (d2 & k2 & Hd2 & _ & _ & Hdesc2 & _).
  unfold extrairDescricao in Hd1, Hd2. rewrite Hd1 in Hd2.
  inversion Hd2; subst. rewrite Hdesc1, Hdesc2. reflexivity.
Qed.

Lemma descricao_nao_depende_do_mapa_witness :
  exists p2 l2,
    V2.converterProduto (H := Latin1.runtime) linha_parafuso
      mapa_descricao_no_preco 0 = (Return p2, l2)
    /\ Descricao p2 = texto "Parafuso Phillips".
Proof.
  destruct (V2.converterProduto (H := Latin1.runtime) linha_parafuso mapa_vazio 0)
    as [[p1 | e] l1] eqn:E; [| vm_compute in E; discriminate].
  destruct (@descricao_nao_depende_do_mapa Latin1.runtime linha_parafuso
              mapa_vazio mapa_descricao_no_preco 0 p1 l1 E)
    as (p2 & l2 & Hp2 & Hd).
  exists p2, l2. split; [exact Hp2 |]. rewrite Hd.
  apply (campo_de _ _ _ Descricao VUndefined _ E). vm_compute. reflexivity.
Defined.

End V2Props.

(* ================================================================== *)
(** * The split of a code at its first space *)
(* ================================================================== *)

Module Separacao.
Import JS Layout Corrigido Spec JSFacts StringFacts.
Local Open Scope js_scope.

Lemma includes_espaco_cons c s :
  includes (c :: s) [32%N] = (c =? 32)%N || includes s [32%N].
Proof.
  cbn [includes starts_with]. rewrite N.eqb_sym, andb_true_r. reflexivity.
Qed.

(** The two parts and the space between them give the text back. *)
Lemma recompor s :
  includes s [32%N] = true ->
  antes_do_primeiro_espaco s ++ 32%N :: depois_do_primeiro_espaco s = s.
Proof.
  induction s as [| c s IH]; [discriminate |].
  rewrite includes_espaco_cons.
  cbn [antes_do_primeiro_espaco depois_do_primeiro_espaco].
  destruct (c =? 32)%N eqn:E.
  - intros _. apply N.eqb_eq in E. subst c. reflexivity.
  - cbn [orb]. intros Hinc. rewrite <- app_comm_cons, (IH Hinc). reflexivity.
Qed.

Lemma antes_sem_espaco s :
  includes (antes_do_primeiro_espaco s) [32%N] = false.
Proof.
  induction s as [| c s IH]; [reflexivity |].
  cbn [antes_do_primeiro_espaco]. destruct (c =? 32)%N eqn:E; [reflexivity |].
  rewrite includes_espaco_cons, E, IH. reflexivity.
Qed.

End Separacao.

(* ================================================================== *)
(** * Further properties of conversor-final-corrigido.js *)
(* ================================================================== *)

Module V1Props.
Import JS Layout Corrigido Spec JSFacts CorrigidoFacts StringFacts.
Import V2Conversao V1Conversao Separacao.
Local Open Scope js_scope.

Section Facts.
Context `{Runtime}.

Lemma texto_de_um_codigo_string s : texto_do_codigo (VString s) = s.
Proof.
  unfold texto_do_codigo. destruct s as [| c s]; reflexivity.
Qed.

Lemma v1_converterProduto_campos obj mapa index p log codigo l1 descricao l2 :
  V1.converterProduto obj mapa index = (Return p, log) ->
  obterValorSeguro obj (ou (mapa_codigo mapa) [js "Código"; js "Codigo"])
                   (VString []) = (Return codigo, l1) ->
  obterValorSeguro obj
    (ou (mapa_descricao mapa) [js "Descrição"; js "Descricao"; js "Descr"])
    (VString []) = (Return descricao, l2) ->
  log = (if infere_do_codigo descricao (texto_do_codigo codigo)
         then registos_inferencia index
                (valorSeguro obj (ou (mapa_catalogo mapa)
                                     [js "Catálogo"; js "Catalogo"])
                             (VString []))
                (texto_do_codigo codigo)
         else [])
  /\ Codigo p =
       VString (if infere_do_codigo descricao (texto_do_codigo codigo)
                then antes_do_primeiro_espaco (texto_do_codigo codigo)
                else texto_do_codigo codigo)
  /\ Descricao p =
       (if infere_do_codigo descricao (texto_do_codigo codigo)
        then VString (depois_do_primeiro_espaco (texto_do_codigo codigo))
        else descricao).
Proof.
  intros Hp Hc Hd.
  pose proof (v1_converterProduto_sem_sombra _ _ _ _ _ Hp) as Hs.
  rewrite obterValorSeguro_sem_sombra in Hc, Hd by exact Hs.
  inversion Hc as [[Hc' Hl1]]. inversion Hd as [[Hd' Hl2]].
  destruct (v1_converterProduto_resumo obj mapa index Hs)
    as (p' & Hp' & Hcod & Hdesc & _).
  rewrite Hp' in Hp. inversion Hp as [[Hpp Hlog]]. subst.
  repeat split; assumption.
Qed.

End Facts.

(** X12 — when the description column of a row is not blank, the record
    keeps it, the code stays whole, even if it holds a space, and nothing is
    written on the console. *)
Theorem descricao_lida_mantem_o_codigo `{Runtime} :
  forall obj mapa index p log codigo l1 descricao l2,
    V1.converterProduto obj mapa index = (Return p, log) ->
    obterValorSeguro obj (ou (mapa_codigo mapa) [js "Código"; js "Codigo"])
                     (VString []) = (Return codigo, l1) ->
    obterValorSeguro obj
      (ou (mapa_descricao mapa) [js "Descrição"; js "Descricao"; js "Descr"])
      (VString []) = (Return descricao, l2) ->
    vazio descricao = false ->
    Descricao p = descricao
    /\ Codigo p = VString (texto_do_codigo codigo)
    /\ log = [].
Proof.
  intros obj mapa index p log codigo l1 descricao l2 Hp Hc Hd Hv.
  destruct (v1_converterProduto_campos _ _ _ _ _ _ _ _ _ Hp Hc Hd)
    as (Hlog & Hcod & Hdesc).
  unfold infere_do_codigo in *. rewrite Hv in *. cbn [andb] in *.
  repeat split; assumption.
Qed.

Lemma descricao_lida_mantem_o_codigo_witness :
  exists p l,
    V1.converterProduto (H := Latin1.runtime) linha_com_descricao mapa_vazio 0
    = (Return p, l)
    /\ Descricao p = texto "Porca sextavada"
    /\ Codigo p = texto "55 A"
    /\ l = [].
Proof.
  destruct (V1.converterProduto (H := Latin1.runtime) linha_com_descricao mapa_vazio 0)
    as [[p | e] l] eqn:E; [| vm_compute in E; discriminate].
  exists p, l. split; [reflexivity |].
  assert (Ht : texto_do_codigo (H := Latin1.runtime) (texto "55 A") = js "55 A")
    by (vm_compute; reflexivity).
  unfold texto at 2. rewrite <- Ht.
  apply (@descricao_lida_mantem_o_codigo Latin1.runtime linha_com_descricao
           mapa_vazio 0 p l (texto "55 A") [] (texto "Porca sextavada") []).
  - exact E.
  - vm_compute. reflexivity.
  - vm_compute. reflexivity.
  - vm_compute. reflexivity.
Defined.

(** X13 — when the description is taken from the code, nothing of the code
    is lost: the new Código holds no space, and the new Código, a space and
    the new Descrição give the code of the sheet back. *)
Theorem codigo_e_descricao_recompoem_o_codigo `{Runtime} :
  forall obj mapa index p log codigo l1 descricao l2,
    V1.converterProduto obj mapa index = (Return p, log) ->
    obterValorSeguro obj (ou (mapa_codigo mapa) [js "Código"; js "Codigo"])
                     (VString []) = (Return (VString codigo), l1) ->
    includes codigo (js " ") = true ->
    obterValorSeguro obj
      (ou (mapa_descricao mapa) [js "Descrição"; js "Descricao"; js "Descr"])
      (VString []) = (Return descricao, l2) ->
    vazio descricao = true ->
    exists codigoPuro descricaoInferida,
      Codigo p = VString codigoPuro
      /\ Descricao p = VString descricaoInferida
      /\ codigoPuro ++ js " " ++ descricaoInferida = codigo
      /\ includes codigoPuro (js " ") = false.
Proof.
  intros obj mapa index p log codigo l1 descricao l2 Hp Hc Hinc Hd Hv.
  destruct (v1_converterProduto_campos _ _ _ _ _ _ _ _ _ Hp Hc Hd)
    as (_ & Hcod & Hdesc).
  rewrite texto_de_um_codigo_string in Hcod, Hdesc.
  assert (Hinf : infere_do_codigo descricao codigo = true).
  { pose proof (v1_converterProduto_sem_sombra _ _ _ _ _ Hp) as Hs.
    rewrite obterValorSeguro_sem_sombra in Hc by exact Hs.
    inversion Hc as [[Hc' Hl1]].
    unfold infere_do_codigo. rewrite Hv, Hinc.
    rewrite (V2Extracao.codigo_com_espaco_cheio _ _ _ Hc' Hinc). reflexivity. }
  rewrite Hinf in Hcod, Hdesc.
  exists (antes_do_primeiro_espaco codigo), (depois_do_primeiro_espaco codigo).
  rewrite js_espaco in *.
  repeat split; [exact Hcod | exact Hdesc | apply recompor; exact Hinc
                 | apply antes_sem_espaco].
Qed.

Lemma codigo_e_descricao_recompoem_o_codigo_witness :
  exists p l codigoPuro descricaoInferida,
    V1.converterProduto (H := Latin1.runtime) linha_parafuso mapa_vazio 0
    = (Return p, l)
    /\ Codigo p = VString codigoPuro
    /\ Descricao p = VString descricaoInferida
    /\ codigoPuro ++ js " " ++ descricaoInferida = js "123 Parafuso Phillips"
    /\ includes codigoPuro (js " ") = false.
Proof.
  destruct (V1.converterProduto (H := Latin1.runtime) linha_parafuso mapa_vazio 0)
    as [[p | e] l] eqn:E; [| vm_compute in E; discriminate].
  destruct (@codigo_e_descricao_recompoem_o_codigo Latin1.runtime
              linha_parafuso mapa_vazio 0 p l (js "123 Parafuso Phillips")
              [] (VString []) [])
    as (c & d & H1 & H2 & H3 & H4);
    [exact E | vm_compute; reflexivity ..|].
  exists p, l, c, d. repeat split; assumption.
Defined.

End V1Props.

(* ================================================================== *)
(** * Further properties of conversor-simples.js *)
(* ================================================================== *)

Module SimplesProps.
Import JS Layout Spec JSFacts SimplesFacts.
Import Simples.
Local Open Scope js_scope.

Section Facts.
Context `{Runtime}.

(** A turn of the loop, with everything it does to the accumulators. *)
Lemma simples_passo_completo total index e st :
  exists st' l,
    iniciar_passo total index e st = (Return st', l)
    /\ avisosDescricaoVazia st' =
         avisosDescricaoVazia st ++
         (if truthy (obterValorSeguro e (js "Descrição") (VString []))
          then [] else [(index + 1)%nat])
    /\ ((exists p l0,
            converterProduto e = (Return p, l0)
            /\ produtosNovos st' =
                 produtosNovos st
                 ++ [set_ID p (VNumber (number_of_nat (index + 1)))]
            /\ sucessos st' = sucessos st + 1
            /\ falhas st' = falhas st
            /\ erros st' = erros st)
        \/ (exists ex l0,
               converterProduto e = (Throw ex, l0)
               /\ produtosNovos st' = produtosNovos st
               /\ sucessos st' = sucessos st
               /\ falhas st' = falhas st + 1
               /\ erros st' =
                    erros st
                    ++ [js "Produto " ++ string_of_nat (index + 1) ++ js ": "
                        ++ message ex])).
Proof.
  destruct (simples_progresso_total index total) as [lp Hp].
  destruct (converterProduto e) as [[p | ex] l0] eqn:Hc.
  - unfold iniciar_passo. cbv zeta. rewrite Hc, Hp.
    eexists; eexists. split; [reflexivity |].
    cbn [avisosDescricaoVazia produtosNovos sucessos falhas erros]. split.
    + destruct (truthy _); cbn [negb]; [rewrite app_nil_r |]; reflexivity.
    + left. exists p, l0. repeat split; reflexivity.
  - unfold iniciar_passo. cbv zeta. rewrite Hc, Hp.
    eexists; eexists. split; [reflexivity |].
    cbn [avisosDescricaoVazia produtosNovos sucessos falhas erros]. split.
    + destruct (truthy _); cbn [negb]; [rewrite app_nil_r |]; reflexivity.
    + right. exists ex, l0. repeat split; reflexivity.
Qed.

Lemma simples_laco_completo total entradas :
  forall index st,
  exists st' l,
    iniciar_laco total index entradas st = (Return st', l)
    /\ avisosDescricaoVazia st' =
         avisosDescricaoVazia st ++ sem_descricao index entradas
    /\ (sucessos st = length (produtosNovos st) ->
        sucessos st' = length (produtosNovos st'))
    /\ (falhas st = length (erros st) -> falhas st' = length (erros st'))
    /\ (forall limite,
           Forall (fun p => exists i, i < limite
                            /\ ID p = VNumber (number_of_nat (i + 1)))
                  (produtosNovos st) ->
           index + length entradas <= limite ->
           Forall (fun p => exists i, i < limite
                            /\ ID p = VNumber (number_of_nat (i + 1)))
                  (produtosNovos st')).
Proof.
  induction entradas as [| e resto IH]; intros index st.
  - exists st, []. cbn [sem_descricao]. rewrite app_nil_r.
    repeat split; auto.
  - destruct (simples_passo_completo total index e st)
      as (st1 & l1 & H1 & Ha1 & Hcase).
    destruct (IH (S index) st1) as (st2 & l2 & H2 & Ha2 & Hs2 & Hf2 & Hid2).
    exists st2, (l1 ++ l2). split.
    { cbn [iniciar_laco]. eapply V2Extracao.bind_step; eassumption. }
    split.
    { rewrite Ha2, Ha1. cbn [sem_descricao]. rewrite <- app_assoc. reflexivity. }
    destruct Hcase as [(p & l0 & Hc & Hp & Hs & Hf & He)
                      | (ex & l0 & Hc & Hp & Hs & Hf & He)].
    + split; [| split].
      * intros Hinv. apply Hs2. rewrite Hs, Hp, length_app. cbn [length]. lia.
      * intros Hinv. apply Hf2. rewrite Hf, He. exact Hinv.
      * intros limite Hall Hlim. apply Hid2; [| cbn [length] in Hlim; lia].
        rewrite Hp. apply Forall_app. split; [exact Hall |].
        constructor; [| constructor]. exists index.
        split; [cbn [length] in Hlim; lia | reflexivity].
    + split; [| split].
      * intros Hinv. apply Hs2. rewrite Hs, Hp. exact Hinv.
      * intros Hinv. apply Hf2. rewrite Hf, He, length_app. cbn [length]. lia.
      * intros limite Hall Hlim. apply Hid2; [| cbn [length] in Hlim; lia].
        rewrite Hp. exact Hall.
Qed.

Lemma simples_laco_posicoes total entradas :
  forall index st,
  exists st' l novos posicoes,
    iniciar_laco total index entradas st = (Return st', l)
    /\ produtosNovos st' = produtosNovos st ++ novos
    /\ Forall (fun i => index <= i) posicoes
    /\ StronglySorted lt posicoes
    /\ Forall2 (fun i p => exists e p0 l0,
                    nth_error entradas (i - index) = Some e
                    /\ converterProduto e = (Return p0, l0)
                    /\ p = set_ID p0 (VNumber (number_of_nat (i + 1))))
               posicoes novos.
Proof.
  induction entradas as [| e resto IH]; intros index st.
  - exists st, [], [], []. rewrite app_nil_r.
    repeat split; constructor.
  - destruct (simples_passo_completo total index e st)
      as (st1 & l1 & H1 & _ & Hcase).
    destruct (IH (S index) st1)
      as (st2 & l2 & novos & posicoes & H2 & Hp2 & Hb2 & Hs2 & Hf2).
    assert (Hrun : iniciar_laco total index (e :: resto) st
                   = (Return st2, l1 ++ l2)).
    { cbn [iniciar_laco]. eapply V2Extracao.bind_step; eassumption. }
    assert (Hb : Forall (fun i => index <= i) posicoes).
    { eapply Forall_impl; [| exact Hb2]. cbv beta. intros i Hi. lia. }
    assert (Hf : Forall2 (fun i p => exists e0 p0 l0,
                   nth_error (e :: resto) (i - index) = Some e0
                   /\ converterProduto e0 = (Return p0, l0)
                   /\ p = set_ID p0 (VNumber (number_of_nat (i + 1))))
                 posicoes novos).
    { clear - Hb2 Hf2. induction Hf2 as [| i p ps ns Hip _ IHf];
        [constructor |].
      inversion Hb2 as [| ? ? Hi Hb2']; subst.
      constructor; [| apply IHf; exact Hb2'].
      destruct Hip as (e0 & p0 & l0 & Hn & Hc & Hp). exists e0, p0, l0.
      split; [| split; assumption].
      replace (i - index) with (S (i - S index)) by lia. exact Hn. }
    destruct Hcase as [(p & l0 & Hc & Hp & _) | (ex & l0 & Hc & Hp & _)].
    + exists st2, (l1 ++ l2),
        (set_ID p (VNumber (number_of_nat (index + 1))) :: novos),
        (index :: posicoes).
      split; [exact Hrun |]. split.
      { rewrite Hp2, Hp, <- app_assoc. reflexivity. }
      split; [constructor; [lia | exact Hb] |].
      split.
      { constructor; [exact Hs2 |].
        eapply Forall_impl; [| exact Hb2]. cbv beta. intros i Hi. lia. }
      constructor; [| exact Hf].
      exists e, p, l0. rewrite Nat.sub_diag.
      split; [reflexivity |]. split; [exact Hc | reflexivity].
    + exists st2, (l1 ++ l2), novos, posicoes.
      split; [exact Hrun |]. split; [rewrite Hp2, Hp; reflexivity |].
      split; [exact Hb |]. split; [exact Hs2 | exact Hf].
Qed.

Lemma verificarEstrutura_ausentes_ret primeiroItem colunas :
  hasOwn primeiroItem (js "hasOwnProperty") = false ->
  verificarEstrutura_ausentes primeiroItem colunas =
  ret (filter (fun coluna => negb (hasOwn primeiroItem coluna)) colunas).
Proof.
  intros Hs. induction colunas as [| c colunas IH]; [reflexivity |].
  cbn [verificarEstrutura_ausentes filter].
  unfold primeiroItem_hasOwnProperty. rewrite Hs, bind_ret_l, IH, bind_ret_l.
  reflexivity.
Qed.

Lemma verificarEstrutura_ret primeiroItem resto :
  hasOwn primeiroItem (js "hasOwnProperty") = false ->
  verificarEstrutura (primeiroItem :: resto) =
  ret (match colunas_em_falta primeiroItem with
       | [] => {| valido := true; mensagem := None; colunasAusentes := None |}
       | c :: cs =>
           {| valido := false;
              mensagem := Some (js "Colunas obrigatórias ausentes: "
                                ++ join (js ", ") (c :: cs));
              colunasAusentes := Some (c :: cs) |}
       end).
Proof.
  intros Hs. unfold verificarEstrutura.
  rewrite (verificarEstrutura_ausentes_ret _ _ Hs), bind_ret_l.
  fold (colunas_em_falta primeiroItem).
  destruct (colunas_em_falta primeiroItem); reflexivity.
Qed.

End Facts.

(** X16 — [converterProduto] of conversor-simples.js returns a record
    exactly for the entries that are truthy and have a truthy Código: a row
    whose code is missing, null, the empty string, the number 0 or NaN is
    rejected. The record keeps the code as it was read, and has no ID yet. *)
Theorem conversao_exige_codigo `{Runtime} :
  forall produtoAtual,
    ((exists p l, Simples.converterProduto produtoAtual = (Return p, l))
     <-> entry_truthy produtoAtual
         && truthy (Simples.obterValorSeguro produtoAtual (js "Código")
                      (VString [])) = true)
    /\ (forall p l,
           Simples.converterProduto produtoAtual = (Return p, l) ->
           Codigo p = Simples.obterValorSeguro produtoAtual (js "Código")
                        (VString [])
           /\ ID p = VNull).
Proof.
  intros e.
  destruct (entry_truthy e) eqn:Ht.
  2:{ rewrite (simples_converterProduto_invalido e Ht). split.
      - split; [intros (p & l & Hp); discriminate | discriminate].
      - intros p l Hp. discriminate. }
  destruct (truthy (Simples.obterValorSeguro e (js "Código") (VString [])))
    eqn:Hc.
  - destruct (simples_converterProduto_resumo e Ht Hc)
      as (p & l & Hp & Hid & Hcod & _).
    rewrite Hp. split.
    + split; [reflexivity | intros _; exists p, l; reflexivity].
    + intros p' l' Heq. inversion Heq; subst. split; assumption.
  - rewrite (simples_converterProduto_sem_codigo e Ht Hc). split.
    + split; [intros (p & l & Hp); discriminate | discriminate].
    + intros p l Hp. discriminate.
Qed.

Lemma conversao_exige_codigo_witness :
  (~ exists p l,
       Simples.converterProduto (H := Latin1.runtime) (Row linha_codigo_zero)
       = (Return p, l))
  /\ (exists p l,
         Simples.converterProduto (H := Latin1.runtime) (Row linha_precos)
         = (Return p, l)
         /\ Codigo p = texto "1" /\ ID p = VNull).
Proof.
  split.
  - intros Hex.
    apply (proj1 (proj1 (@conversao_exige_codigo Latin1.runtime
                           (Row linha_codigo_zero)))) in Hex.
    vm_compute in Hex. discriminate.
  - destruct (proj2 (proj1 (@conversao_exige_codigo Latin1.runtime
                              (Row linha_precos))))
      as (p & l & Hp); [vm_compute; reflexivity |].
    exists p, l. split; [exact Hp |].
    assert (Hc : Simples.obterValorSeguro (Row linha_precos) (js "Código")
                   (VString []) = texto "1") by (vm_compute; reflexivity).
    rewrite <- Hc.
    apply (proj2 (@conversao_exige_codigo Latin1.runtime (Row linha_precos))
             p l Hp).
Defined.

(** X17 — every run of the loop of [iniciar] returns. The list
    [avisosDescricaoVazia] holds the positions, counted from 1 and in order,
    of all the entries without a description, those whose conversion fails
    too; [sucessos] is the number of records and [falhas] the number of
    error messages; and each record is the conversion of one entry, with the
    position of that entry, counted from 1, as its ID, so that the IDs
    increase strictly and leave a gap where an entry failed. *)
Theorem avisos_e_contadores `{Runtime} :
  forall entradas,
  exists st log posicoes,
    Simples.iniciar_processar entradas = (Return st, log)
    /\ avisosDescricaoVazia st = sem_descricao 0 entradas
    /\ sucessos st = length (produtosNovos st)
    /\ falhas st = length (erros st)
    /\ StronglySorted lt posicoes
    /\ Forall2 (fun i p => exists e p0 l0,
                    nth_error entradas i = Some e
                    /\ Simples.converterProduto e = (Return p0, l0)
                    /\ p = set_ID p0 (VNumber (number_of_nat (i + 1))))
               posicoes (produtosNovos st).
Proof.
  intros entradas. unfold iniciar_processar.
  destruct (simples_laco_completo (length entradas) entradas 0 estado_inicial)
    as (st & log & Hrun & Ha & Hs & Hf & _).
  destruct (simples_laco_posicoes (length entradas) entradas 0 estado_inicial)
    as (st' & log' & novos & posicoes & Hrun' & Hp & _ & Hsort & Hall).
  rewrite Hrun in Hrun'. inversion Hrun'; subst st' log'.
  exists st, log, posicoes. split; [exact Hrun |].
  split; [exact Ha |]. split; [apply Hs; reflexivity |].
  split; [apply Hf; reflexivity |]. split; [exact Hsort |].
  cbn [produtosNovos estado_inicial app] in Hp. rewrite Hp.
  eapply Forall2_impl; [| exact Hall]. cbv beta.
  intros i p (e & p0 & l0 & Hn & Hc & Heq). exists e, p0, l0.
  rewrite Nat.sub_0_r in Hn. repeat split; assumption.
Qed.

(** X18 — [verificarEstrutura] looks at the first row only. When that row
    has no column named [hasOwnProperty], the data are valid exactly when
    the six expected columns are all headers of the first row; otherwise the
    columns reported are the expected ones that the first row lacks, in the
    order of the expected list. *)
Theorem verificarEstrutura_primeira_linha `{Runtime} :
  forall primeiroItem resto,
    sombreado primeiroItem = false ->
    exists v,
      Simples.verificarEstrutura (primeiroItem :: resto) = (Return v, [])
      /\ Simples.verificarEstrutura [primeiroItem] = (Return v, [])
      /\ (valido v = true
          <-> forall coluna, In coluna Simples.colunasEsperadas ->
                             In coluna (keys primeiroItem))
      /\ (valido v = false ->
          colunasAusentes v = Some (colunas_em_falta primeiroItem)
          /\ mensagem v =
               Some (js "Colunas obrigatórias ausentes: "
                     ++ join (js ", ") (colunas_em_falta primeiroItem))).
Proof.
  intros r resto Hs. unfold sombreado in Hs.
  rewrite !(verificarEstrutura_ret r _ Hs).
  eexists. split; [reflexivity |]. split; [reflexivity |].
  unfold colunas_em_falta.
  destruct (filter _ colunasEsperadas) as [| c cs] eqn:Ef;
    cbn [valido colunasAusentes mensagem].
  - split; [| discriminate]. split; [| reflexivity].
    intros _ coluna Hin. apply hasOwn_In.
    destruct (hasOwn r coluna) eqn:E; [reflexivity |].
    assert (Hf : In coluna (filter (fun c => negb (hasOwn r c)) colunasEsperadas)).
    { apply filter_In. split; [exact Hin | rewrite E; reflexivity]. }
    rewrite Ef in Hf. contradiction.
  - split; [| intros _; split; reflexivity]. split; [discriminate |].
    intros Hall.
    assert (Hf : In c (filter (fun c => negb (hasOwn r c)) colunasEsperadas))
      by (rewrite Ef; left; reflexivity).
    apply filter_In in Hf. destruct Hf as [Hin Hneg].
    apply Hall, hasOwn_In in Hin. rewrite Hin in Hneg. discriminate.
Qed.

Lemma verificarEstrutura_primeira_linha_witness :
  (exists v,
      Simples.verificarEstrutura [linha_completa; linha_so_codigo]
      = (Return v, [])
      /\ valido v = true)
  /\ (exists v,
         Simples.verificarEstrutura [linha_so_codigo; linha_completa]
         = (Return v, [])
         /\ valido v = false
         /\ colunasAusentes v
            = Some [js "Descrição"; js "Classificação Fiscal";
                    js "Preço Compra"; js "Preço Varejo"; js "Saldo Estoque"]).
Proof.
  split.
  - destruct (@verificarEstrutura_primeira_linha Latin1.runtime
                linha_completa [linha_so_codigo])
      as (v & Hv & _ & Hval & _); [vm_compute; reflexivity |].
    exists v. split; [exact Hv |]. apply Hval.
    intros coluna Hin. vm_compute in Hin. vm_compute.
    repeat (destruct Hin as [Hin | Hin]; [subst coluna; tauto |]).
    contradiction.
  - destruct (@verificarEstrutura_primeira_linha Latin1.runtime
                linha_so_codigo [linha_completa])
      as (v & Hv & _ & _ & Hinv); [vm_compute; reflexivity |].
    exists v. split; [exact Hv |].
    assert (Hval : valido v = false).
    { apply (campo_de _ _ _ valido true _ Hv). vm_compute. reflexivity. }
    split; [exact Hval |].
    rewrite (proj1 (Hinv Hval)). vm_compute. reflexivity.
Defined.

(** X19 — on a first row that has a column named [hasOwnProperty] the check
    raises a TypeError, for any data after it. *)
Theorem verificarEstrutura_coluna_hasOwnProperty `{Runtime} :
  forall primeiroItem resto,
    sombreado primeiroItem = true ->
    Simples.verificarEstrutura (primeiroItem :: resto)
    = (Throw (TypeError (js "primeiroItem.hasOwnProperty is not a function")),
       []).
Proof.
  intros r resto Hs. unfold sombreado in Hs.
  unfold verificarEstrutura, colunasEsperadas.
  cbn [verificarEstrutura_ausentes]. unfold primeiroItem_hasOwnProperty.
  rewrite Hs. reflexivity.
Qed.

Lemma verificarEstrutura_coluna_hasOwnProperty_witness :
  Simples.verificarEstrutura [linha_hasOwnProperty; linha_completa]
  = (Throw (TypeError (js "primeiroItem.hasOwnProperty is not a function")),
     []).
Proof.
  apply (@verificarEstrutura_coluna_hasOwnProperty Latin1.runtime
           linha_hasOwnProperty [linha_completa]).
  vm_compute. reflexivity.
Defined.

End SimplesProps.

(* ================================================================== *)
(** * separador-codigo-descricao.js *)
(* ================================================================== *)

Module SeparadorProps.
Import JS Layout Spec JSFacts StringFacts Separacao.
Import Separador.
Local Open Scope js_scope.

Section Facts.
Context `{Runtime}.

Lemma get_set_mesma o k v : get (set o k v) k = v.
Proof.
  induction o as [| [k' v'] o IH]; cbn [set get].
  - rewrite str_eqb_refl. reflexivity.
  - destruct (str_eqb k' k) eqn:E; cbn [get]; rewrite E; [reflexivity | exact IH].
Qed.

Lemma get_set_outra o k v k' : k' <> k -> get (set o k v) k' = get o k'.
Proof.
  intros Hne. induction o as [| [k0 v0] o IH]; cbn [set get].
  - assert (E : str_eqb k k' = false)
      by (apply str_eqb_neq; intros ->; apply Hne; reflexivity).
    rewrite E. reflexivity.
  - destruct (str_eqb k0 k) eqn:E; cbn [get].
    + apply str_eqb_eq in E. subst k0.
      assert (E' : str_eqb k k' = false)
        by (apply str_eqb_neq; intros ->; apply Hne; reflexivity).
      rewrite E'. reflexivity.
    + destruct (str_eqb k0 k'); [reflexivity | exact IH].
Qed.

Lemma find_primeiro_candidato {A} (f : A -> bool) antes x depois :
  (forall y, In y antes -> f y = false) -> f x = true ->
  find f (antes ++ x :: depois) = Some x.
Proof.
  intros Hantes Hx. induction antes as [| a antes IH]; cbn [app find].
  - rewrite Hx. reflexivity.
  - rewrite (Hantes a (or_introl eq_refl)). apply IH.
    intros y Hy. apply Hantes. right. exact Hy.
Qed.

Lemma existsb_str_In c colunas :
  existsb (str_eqb c) colunas = true <-> In c colunas.
Proof.
  rewrite existsb_exists. split.
  - intros (x & Hin & Hx). apply str_eqb_eq in Hx. subst x. exact Hin.
  - intros Hin. exists c. split; [exact Hin | apply str_eqb_refl].
Qed.

Lemma candidato_com_nome c :
  In c possiveisColunasCodigo -> nome_ausente (Some c) = false.
Proof.
  unfold possiveisColunasCodigo.
  intros [<- | [<- | [<- | [<- | [<- | [<- | []]]]]]]; reflexivity.
Qed.

(** What a turn of the loop does to a row whose code is a text with a
    space. *)
Lemma main_passo_com_espaco colunaCodigo produto st codigo :
  get produto (chave colunaCodigo) = VString codigo ->
  includes codigo (js " ") = true ->
  main_passo colunaCodigo produto st =
  passo_com_espaco st
    (set (set produto (chave colunaCodigo)
              (VString (antes_do_primeiro_espaco codigo)))
         (js "Descrição") (VString (depois_do_primeiro_espaco codigo))).
Proof.
  intros Hg Hinc. unfold main_passo. cbv zeta. rewrite Hg.
  assert (Ht : truthy (VString codigo) = true).
  { destruct codigo; [discriminate | reflexivity]. }
  rewrite Ht. cbn [ToString]. rewrite Hinc.
  rewrite js_espaco in *. rewrite split_primeira, (split_resto codigo Hinc).
  reflexivity.
Qed.

Lemma main_passo_geral colunaCodigo produto st :
  exists produtoNovo sem com,
    main_passo colunaCodigo produto st =
      {| produtosSeparados := produtosSeparados st ++ [produtoNovo];
         codigosSemEspaco := codigosSemEspaco st + sem;
         codigosComEspaco := codigosComEspaco st + com |}
    /\ sem + com <= 1
    /\ (forall k, k <> chave colunaCodigo -> k <> js "Descrição" ->
                  get produtoNovo k = get produto k).
Proof.
  unfold main_passo. cbv zeta.
  destruct (truthy (get produto (chave colunaCodigo))).
  - destruct (includes _ (js " ")).
    + eexists; exists 0, 1. rewrite Nat.add_0_r.
      split; [reflexivity |]. split; [lia |].
      intros k Hk Hd. rewrite get_set_outra by exact Hd.
      apply get_set_outra. exact Hk.
    + exists produto, 1, 0. rewrite Nat.add_0_r.
      split; [reflexivity |]. split; [lia | reflexivity].
  - exists produto, 0, 0. rewrite !Nat.add_0_r.
    split; [destruct st; reflexivity |]. split; [lia | reflexivity].
Qed.

Lemma main_laco_geral colunaCodigo produtos :
  forall st,
    let st' := fold_left (fun st produto => main_passo colunaCodigo produto st)
                         produtos st in
    exists novos,
      produtosSeparados st' = produtosSeparados st ++ novos
      /\ codigosSemEspaco st' + codigosComEspaco st'
         <= codigosSemEspaco st + codigosComEspaco st + length produtos
      /\ Forall2 (fun produto produtoNovo =>
                    forall k, k <> chave colunaCodigo -> k <> js "Descrição" ->
                              get produtoNovo k = get produto k)
                 produtos novos.
Proof.
  induction produtos as [| produto resto IH]; intros st; cbv zeta.
  - exists []. cbn [fold_left length]. rewrite app_nil_r.
    split; [reflexivity |]. split; [lia | constructor].
  - cbn [fold_left].
    destruct (main_passo_geral colunaCodigo produto st)
      as (novo & sem & com & Hp & Hc & Hk).
    destruct (IH (main_passo colunaCodigo produto st)) as (novos & Hn & Hcn & Hkn).
    rewrite Hp in Hn, Hcn.
    cbn [produtosSeparados codigosSemEspaco codigosComEspaco] in Hn, Hcn.
    exists (novo :: novos). rewrite Hp. split.
    + rewrite Hn, <- app_assoc. reflexivity.
    + split; [cbn [length]; lia |]. constructor; assumption.
Qed.

End Facts.

(** X20 — the code column is chosen by the order of the candidate names, not
    by the order of the columns: the first of [Código], [Codigo], [código],
    [codigo], [COD], [CODIGO] that is a column of the first row is taken,
    and only the line that reports the choice is written. *)
Theorem coluna_de_codigo_por_prioridade `{Runtime} :
  forall colunas antes coluna depois,
    possiveisColunasCodigo = antes ++ coluna :: depois ->
    In coluna colunas ->
    (forall nome, In nome antes -> ~ In nome colunas) ->
    main_colunaCodigo colunas
    = (Return (Some coluna), [registo_coluna_codigo coluna]).
Proof.
  intros colunas antes coluna depois Hpos Hin Hantes.
  unfold main_colunaCodigo. cbv zeta. rewrite Hpos.
  rewrite (find_primeiro_candidato _ antes coluna depois).
  - rewrite candidato_com_nome; [reflexivity |].
    rewrite Hpos. apply in_or_app. right. left. reflexivity.
  - intros y Hy. destruct (existsb (str_eqb y) colunas) eqn:E; [| reflexivity].
    apply existsb_str_In in E. exfalso. exact (Hantes y Hy E).
  - apply existsb_str_In. exact Hin.
Qed.

Lemma coluna_de_codigo_por_prioridade_witness :
  main_colunaCodigo (H := Latin1.runtime) [js "CODIGO"; js "Nome"; js "codigo"]
  = (Return (Some (js "codigo")), [registo_coluna_codigo (js "codigo")]).
Proof.
  apply (@coluna_de_codigo_por_prioridade Latin1.runtime
           [js "CODIGO"; js "Nome"; js "codigo"]
           [js "Código"; js "Codigo"; js "código"] (js "codigo")
           [js "COD"; js "CODIGO"]).
  - reflexivity.
  - right. right. left. reflexivity.
  - intros nome [<- | [<- | [<- | []]]] Hin; vm_compute in Hin;
      repeat (destruct Hin as [Hin | Hin]; try discriminate); exact Hin.
Defined.

(** X21 — whenever the first row has a column, the column chosen for the
    code is one of its columns, and the choice never fails. *)
Theorem coluna_de_codigo_e_da_planilha `{Runtime} :
  forall colunas,
    colunas <> [] ->
    exists coluna l,
      main_colunaCodigo colunas = (Return (Some coluna), l)
      /\ In coluna colunas.
Proof.
  intros colunas Hne. unfold main_colunaCodigo. cbv zeta.
  destruct (find (fun col => existsb (str_eqb col) colunas)
                 possiveisColunasCodigo) as [c |] eqn:Ef.
  - apply find_some in Ef. destruct Ef as [Hin Hc].
    rewrite (candidato_com_nome c Hin).
    exists c. eexists. split; [reflexivity |].
    apply existsb_str_In. exact Hc.
  - cbn [nome_ausente].
    destruct (find (fun col => includes (toLowerCase col) (js "cod")) colunas)
      as [c |] eqn:Ec.
    + apply find_some in Ec. destruct Ec as [Hin _].
      destruct c as [| x c].
      * cbn [nome_ausente]. destruct colunas as [| c0 colunas]; [contradiction |].
        exists c0. eexists. split; [reflexivity | left; reflexivity].
      * cbn [nome_ausente]. eexists; eexists. split; [reflexivity | exact Hin].
    + cbn [nome_ausente]. destruct colunas as [| c0 colunas]; [contradiction |].
      exists c0. eexists. split; [reflexivity | left; reflexivity].
Qed.

Lemma coluna_de_codigo_e_da_planilha_witness :
  exists coluna l,
    main_colunaCodigo (H := Latin1.runtime) [js "Ref"; js "Nome"]
    = (Return (Some coluna), l)
    /\ In coluna [js "Ref"; js "Nome"].
Proof.
  apply (@coluna_de_codigo_e_da_planilha Latin1.runtime [js "Ref"; js "Nome"]).
  discriminate.
Defined.

(** X22 — a row whose code is a text with a space is split at the first
    space, and the column [Descrição] gets the part after it, over any
    description the row already had.  When the code column is another
    column, it gets the part before the space, which holds no space, and the
    two parts joined by a space give the old code back; when the code column
    is [Descrição] itself, as the fall-back to the first column allows, the
    column keeps only the part after the space and the part before it is
    lost.  Every other column is kept, and the row counts as a code with a
    space. *)
Theorem codigo_separado_da_descricao `{Runtime} :
  forall colunaCodigo produto st codigo,
    get produto (chave colunaCodigo) = VString codigo ->
    includes codigo (js " ") = true ->
    exists produtoNovo codigoPuro descricao,
      main_passo colunaCodigo produto st = passo_com_espaco st produtoNovo
      /\ codigoPuro ++ js " " ++ descricao = codigo
      /\ includes codigoPuro (js " ") = false
      /\ get produtoNovo (js "Descrição") = VString descricao
      /\ (chave colunaCodigo <> js "Descrição" ->
          get produtoNovo (chave colunaCodigo) = VString codigoPuro)
      /\ (chave colunaCodigo = js "Descrição" ->
          get produtoNovo (chave colunaCodigo) = VString descricao)
      /\ (forall k, k <> chave colunaCodigo -> k <> js "Descrição" ->
                    get produtoNovo k = get produto k).
Proof.
  intros colunaCodigo produto st codigo Hg Hinc.
  eexists; exists (antes_do_primeiro_espaco codigo),
                  (depois_do_primeiro_espaco codigo).
  split; [exact (main_passo_com_espaco colunaCodigo produto st codigo Hg Hinc) |].
  rewrite js_espaco in *.
  split; [apply recompor; exact Hinc |].
  split; [apply antes_sem_espaco |].
  split; [apply get_set_mesma |].
  split; [intros Hne; rewrite get_set_outra by exact Hne; apply get_set_mesma |].
  split; [intros ->; apply get_set_mesma |].
  intros k Hk Hd. rewrite get_set_outra by exact Hd.
  apply get_set_outra. exact Hk.
Qed.

Lemma codigo_separado_da_descricao_witness :
  (exists produtoNovo,
      main_passo (H := Latin1.runtime) (Some (js "Código")) linha_com_descricao
        {| produtosSeparados := []; codigosSemEspaco := 0;
           codigosComEspaco := 0 |}
      = {| produtosSeparados := [produtoNovo]; codigosSemEspaco := 0;
           codigosComEspaco := 1 |}
      /\ get linha_com_descricao (js "Descrição") = texto "Porca sextavada"
      /\ get produtoNovo (js "Descrição") = texto "A"
      /\ get produtoNovo (js "Código") = texto "55")
  /\ (exists produtoNovo,
         main_passo (H := Latin1.runtime) (Some (js "Descrição"))
           linha_so_descricao
           {| produtosSeparados := []; codigosSemEspaco := 0;
              codigosComEspaco := 0 |}
         = {| produtosSeparados := [produtoNovo]; codigosSemEspaco := 0;
              codigosComEspaco := 1 |}
         /\ get produtoNovo (js "Descrição") = texto "M8").
Proof.
  split.
  - destruct (@codigo_separado_da_descricao Latin1.runtime (Some (js "Código"))
                linha_com_descricao
                {| produtosSeparados := []; codigosSemEspaco := 0;
                   codigosComEspaco := 0 |}
                (js "55 A"))
      as (novo & c & d & Hp & _);
      [vm_compute; reflexivity | vm_compute; reflexivity |].
    exists novo. split; [exact Hp |].
    split; [vm_compute; reflexivity |].
    assert (Hnovo : produtosSeparados
                      (main_passo (H := Latin1.runtime) (Some (js "Código"))
                         linha_com_descricao
                         {| produtosSeparados := []; codigosSemEspaco := 0;
                            codigosComEspaco := 0 |})
                    = [[(js "Código", texto "55"); (js "Descrição", texto "A")]])
      by (vm_compute; reflexivity).
    rewrite Hp in Hnovo. cbn [passo_com_espaco produtosSeparados app] in Hnovo.
    inversion Hnovo as [Hn]. split; vm_compute; reflexivity.
  - destruct (@codigo_separado_da_descricao Latin1.runtime
                (Some (js "Descrição")) linha_so_descricao
                {| produtosSeparados := []; codigosSemEspaco := 0;
                   codigosComEspaco := 0 |}
                (js "Parafuso M8"))
      as (novo & c & d & Hp & _);
      [vm_compute; reflexivity | vm_compute; reflexivity |].
    exists novo. split; [exact Hp |].
    assert (Hnovo : produtosSeparados
                      (main_passo (H := Latin1.runtime) (Some (js "Descrição"))
                         linha_so_descricao
                         {| produtosSeparados := []; codigosSemEspaco := 0;
                            codigosComEspaco := 0 |})
                    = [[(js "Descrição", texto "M8")]])
      by (vm_compute; reflexivity).
    rewrite Hp in Hnovo. cbn [passo_com_espaco produtosSeparados app] in Hnovo.
    inversion Hnovo as [Hn]. vm_compute. reflexivity.
Defined.

(** X23 — the loop gives one row for each row of the sheet, in order; it
    counts each row at most once, and it changes no column other than the
    code column and [Descrição]. *)
Theorem uma_linha_por_produto `{Runtime} :
  forall colunaCodigo produtos,
    length (produtosSeparados (main_laco colunaCodigo produtos))
    = length produtos
    /\ codigosSemEspaco (main_laco colunaCodigo produtos)
       + codigosComEspaco (main_laco colunaCodigo produtos)
       <= length produtos
    /\ Forall2 (fun produto produtoNovo =>
                  forall k, k <> chave colunaCodigo -> k <> js "Descrição" ->
                            get produtoNovo k = get produto k)
               produtos (produtosSeparados (main_laco colunaCodigo produtos)).
Proof.
  intros colunaCodigo produtos. unfold main_laco.
  destruct (main_laco_geral colunaCodigo produtos
              {| produtosSeparados := []; codigosSemEspaco := 0;
                 codigosComEspaco := 0 |}) as (novos & Hn & Hc & Hk).
  cbn [produtosSeparados codigosSemEspaco codigosComEspaco app] in Hn, Hc.
  rewrite Hn. split; [symmetry; eapply Forall2_length; exact Hk |].
  split; [lia | exact Hk].
Qed.

End SeparadorProps.

(* ================================================================== *)
(** * A dot before the decimals *)
(* ================================================================== *)

Module PontoDecimal.
Import JS Layout Corrigido Spec JSFacts CorrigidoFacts NumberFacts SimplesFacts.
Local Open Scope js_scope.

Lemma replace_first_sem_virgula s :
  ~ In 44%N s -> replace_first 44 46 s = s.
Proof.
  induction s as [| c s IH]; [reflexivity |]. intros Hn.
  cbn [replace_first].
  assert (E : (c =? 44)%N = false).
  { apply N.eqb_neq. intros ->. apply Hn. left. reflexivity. }
  rewrite E, IH; [reflexivity |]. intros Hin. apply Hn. right. exact Hin.
Qed.

(** X24 — a price written with a decimal dot, digits, a dot and digits, is
    read in two ways: the parser of conversor-final-corrigido.js and
    conversor-final-corrigido-v2.js removes the dot and returns the number
    of the integer that all the digits spell, which is that integer itself
    when it is below 2^53 and the float nearest to it otherwise; the parser
    of conversor-simples.js returns the float nearest to the decimal
    number. *)
Theorem ponto_lido_como_milhar `{Runtime} :
  forall inteiro decimais valorPadrao,
    so_digitos inteiro -> so_digitos decimais ->
    parseNumero (VString (inteiro ++ js "." ++ decimais)) valorPadrao
    = (Return (VNumber (binary64 (valor_milhar [inteiro; decimais] []))), [])
    /\ Simples.parseNumero (VString (inteiro ++ js "." ++ decimais)) valorPadrao
       = (Return (VNumber (binary64 (valor_milhar [inteiro] decimais))), [])
    /\ ((Z.of_N (digits_value 10 decimal_digit (inteiro ++ decimais)) < 2 ^ 53)%Z ->
        parseNumero (VString (inteiro ++ js "." ++ decimais)) valorPadrao
        = (Return
             (VNumber
                (Finite
                   (inject_Z
                      (Z.of_N (digits_value 10 decimal_digit
                                 (inteiro ++ decimais)))))), [])).
Proof.
  intros inteiro decimais d Hi Hd.
  change (js ".") with [46%N].
  assert (Hfinal :
    parseNumero (VString (inteiro ++ [46%N] ++ decimais)) d
    = (Return (VNumber (binary64 (valor_milhar [inteiro; decimais] []))), [])).
  { pose proof (parseNumero_forma_milhar [inteiro; decimais] [] d) as Hf.
    unfold forma_milhar in Hf. cbn [join] in Hf. rewrite app_nil_r in Hf.
    apply Hf;
      [discriminate
      | constructor; [exact Hi | constructor; [exact Hd | constructor]]
      | constructor]. }
  split; [exact Hfinal |]. split.
  - rewrite simples_parseNumero_ret. unfold numero_ou_padrao_simples.
    destruct Hi as [Hin Hid], Hd as [Hdn Hdd].
    assert (Hne : is_empty_string (VString (inteiro ++ [46%N] ++ decimais)) = false).
    { destruct inteiro; [contradiction | reflexivity]. }
    cbn [is_undefined is_null orb]. rewrite Hne. cbn [ToString].
    rewrite replace_first_sem_virgula.
    + cbn [app]. rewrite (StringToNumber_decimal _ _ Hin Hid Hdd).
      rewrite isNaN_binary64.
      unfold valor_milhar. cbn [concat]. rewrite app_nil_r. reflexivity.
    + intros Hin44. apply in_app_or in Hin44.
      destruct Hin44 as [Hx | [Hx | Hx]]; [| discriminate |].
      * unfold digitos in Hid. rewrite Forall_forall in Hid.
        specialize (Hid _ Hx). vm_compute in Hid. discriminate.
      * unfold digitos in Hdd. rewrite Forall_forall in Hdd.
        specialize (Hdd _ Hx). vm_compute in Hdd. discriminate.
  - intros Hlim. rewrite Hfinal. unfold valor_milhar.
    cbn [concat length Z.of_nat]. rewrite !app_nil_r.
    unfold scale10. cbn [Z.sub Z.opp Z.add Z.leb Z.compare Z.pow Z.pow_pos].
    rewrite Z.mul_1_r, binary64_inteiro; [reflexivity |].
    rewrite Z.abs_eq by apply N2Z.is_nonneg. exact Hlim.
Qed.

Lemma ponto_lido_como_milhar_witness :
  parseNumero (H := Latin1.runtime) (texto "10.50") (VNumber (Finite 0))
  = (Return (VNumber (Finite 1050)), [])
  /\ Simples.parseNumero (H := Latin1.runtime) (texto "10.50") (VNumber (Finite 0))
     = (Return (VNumber (Finite (21 # 2))), []).
Proof.
  pose proof (@ponto_lido_como_milhar Latin1.runtime (js "10") (js "50")
                (VNumber (Finite 0))) as W.
  assert (Hi : so_digitos (js "10")).
  { split; [discriminate |]. repeat constructor; vm_compute; reflexivity. }
  assert (Hd : so_digitos (js "50")).
  { split; [discriminate |]. repeat constructor; vm_compute; reflexivity. }
  destruct (W Hi Hd) as (_ & W2 & W3).
  assert (Hf : js "10" ++ js "." ++ js "50" = js "10.50")
    by (vm_compute; reflexivity).
  assert (Hv1 : inject_Z (Z.of_N (digits_value 10 decimal_digit
                                    (js "10" ++ js "50"))) = 1050%Q)
    by (vm_compute; reflexivity).
  assert (Hv2 : binary64 (valor_milhar [js "10"] (js "50")) = Finite (21 # 2))
    by (vm_compute; reflexivity).
  assert (Hlim : (Z.of_N (digits_value 10 decimal_digit (js "10" ++ js "50"))
                  < 2 ^ 53)%Z) by (vm_compute; reflexivity).
  specialize (W3 Hlim).
  rewrite Hf, Hv1 in W3. rewrite Hf, Hv2 in W2. split; assumption.
Defined.

End PontoDecimal.

(* ================================================================== *)
(** * The loop of conversor-final-corrigido.js *)
(* ================================================================== *)

Module V1Laco.
Import JS Layout Corrigido Spec JSFacts CorrigidoFacts.
Import V2Extracao V2Conversao V1Conversao.
Import V1.
Local Open Scope js_scope.

Section Facts.
Context `{Runtime}.

Lemma v1_progresso_total index total :
  exists l, progresso index total = (Return tt, l).
Proof.
  unfold progresso. destruct (_ || _); eexists; reflexivity.
Qed.

Lemma v1_converterProduto_com_ID obj mapa index :
  sombreado obj = false ->
  exists p l,
    converterProduto obj mapa index = (Return p, l)
    /\ ID p = VNumber (number_of_nat (index + 1)).
Proof.
  intros Hs.
  unfold converterProduto. cbv zeta.
  rewrite !(obterValorSeguro_sem_sombra _ _ _ Hs).
  rewrite !bind_ret_l, estaVazio_ret, bind_ret_l, inferir_ret.
  set (catalogo := valorSeguro obj (ou (mapa_catalogo mapa) _) _).
  set (codigo := if truthy _ then _ else _).
  set (descricao := valorSeguro obj (ou (mapa_descricao mapa) _) _).
  destruct (infere_do_codigo descricao codigo) eqn:E.
  - rewrite bind_ret_l.
    rewrite (inferencia_ret index catalogo codigo (infere_tem_espaco _ _ E)).
    eexists; eexists. split.
    + apply try_catch_bind_silent.
      repeat (rewrite bind_ret_l || rewrite estaVazio_ret
              || rewrite parseNumero_ret).
      reflexivity.
    + reflexivity.
  - eexists; eexists. split.
    + repeat (rewrite bind_ret_l || rewrite estaVazio_ret
              || rewrite parseNumero_ret).
      reflexivity.
    + reflexivity.
Qed.

(** The test that counts a description as taken from the code. *)
Lemma v1_inferida_ret mapa r p :
  exists inferida,
    (if coluna_definida (mapa_codigo mapa) then
       semDescricao <-
         (match mapa_descricao mapa with
          | Some (c :: nome) => estaVazio (get r (c :: nome))
          | _ => ret true
          end) ;;
       if semDescricao then
         vazia <- estaVazio (Descricao p) ;;
         ret (negb vazia)
       else ret false
     else ret false) = ret inferida
    /\ (inferida = true -> vazio (Descricao p) = false).
Proof.
  destruct (coluna_definida (mapa_codigo mapa));
    [| exists false; split; [reflexivity | discriminate]].
  assert (Hsem : exists b,
    match mapa_descricao mapa with
    | Some (c :: nome) => estaVazio (get r (c :: nome))
    | _ => ret true
    end = ret b).
  { destruct (mapa_descricao mapa) as [[| c nome] |];
      try (exists true; reflexivity).
    rewrite estaVazio_ret. eexists; reflexivity. }
  destruct Hsem as [b Hb]. rewrite Hb, bind_ret_l.
  destruct b; [| exists false; split; [reflexivity | discriminate]].
  rewrite estaVazio_ret, bind_ret_l.
  exists (negb (vazio (Descricao p))). split; [reflexivity |].
  destruct (vazio (Descricao p)); [discriminate | reflexivity].
Qed.

(** A turn of the loop, with everything it does to the accumulators. *)
Lemma v1_passo_completo mapa total index e st :
  exists st' l,
    iniciar_passo mapa total index e st = (Return st', l)
    /\ ((exists r p l0 inferidas,
            e = Row r
            /\ converterProduto r mapa index = (Return p, l0)
            /\ ID p = VNumber (number_of_nat (index + 1))
            /\ produtosNovos st' = produtosNovos st ++ [p]
            /\ sucessos st' = sucessos st + 1
            /\ falhas st' = falhas st
            /\ erros st' = erros st
            /\ avisosDescricaoVazia st' =
                 avisosDescricaoVazia st
                 ++ (if vazio (Descricao p) then [aviso_de index p] else [])
            /\ descricoesInferidas st' = descricoesInferidas st + inferidas
            /\ inferidas <= (if vazio (Descricao p) then 0 else 1))
        \/ (entrada_invalida e = true
            /\ produtosNovos st' = produtosNovos st
            /\ sucessos st' = sucessos st
            /\ falhas st' = falhas st + 1
            /\ length (erros st') = length (erros st) + 1
            /\ avisosDescricaoVazia st' = avisosDescricaoVazia st
            /\ descricoesInferidas st' = descricoesInferidas st)).
Proof.
  destruct (v1_progresso_total index total) as [lp Hp].
  destruct e as [r | v].
  - destruct (sombreado r) eqn:Hs.
    + unfold iniciar_passo.
      rewrite (v1_converterProduto_sombreado r mapa index Hs), Hp.
      eexists; eexists. split; [reflexivity |]. right.
      cbn [entrada_invalida produtosNovos sucessos falhas erros
           avisosDescricaoVazia descricoesInferidas].
      rewrite Hs, length_app. cbn [length]. repeat split; reflexivity.
    + destruct (v1_converterProduto_com_ID r mapa index Hs) as (p & l0 & Hc & Hid).
      destruct (v1_inferida_ret mapa r p) as (inferida & Hinf & Hcheia).
      unfold iniciar_passo. rewrite Hc, Hp. cbv zeta.
      eexists; eexists. split.
      * eapply bind_step; [| reflexivity].
        cbn [bind try_catch]. rewrite Hinf, bind_ret_l, estaVazio_ret, bind_ret_l.
        reflexivity.
      * left. exists r, p, l0, (if inferida then 1 else 0).
        cbn [produtosNovos sucessos falhas erros avisosDescricaoVazia
             descricoesInferidas].
        repeat split; try reflexivity; try assumption.
        -- destruct (vazio (Descricao p)); [| rewrite app_nil_r]; reflexivity.
        -- destruct inferida; [reflexivity | rewrite Nat.add_0_r; reflexivity].
        -- destruct inferida; [rewrite (Hcheia eq_refl) |]; lia.
  - unfold iniciar_passo. rewrite Hp.
    eexists; eexists. split; [reflexivity |]. right.
    cbn [entrada_invalida produtosNovos sucessos falhas erros
         avisosDescricaoVazia descricoesInferidas].
    rewrite length_app. cbn [length]. repeat split; reflexivity.
Qed.

Lemma v1_laco_completo mapa total entradas :
  forall index st,
  exists st' l novos avisos inferidas,
    iniciar_laco mapa total index entradas st = (Return st', l)
    /\ produtosNovos st' = produtosNovos st ++ novos
    /\ sucessos st' = sucessos st + length novos
    /\ falhas st' = falhas st + length (filter entrada_invalida entradas)
    /\ length (erros st')
       = length (erros st) + length (filter entrada_invalida entradas)
    /\ length novos
       = length (filter (fun e => negb (entrada_invalida e)) entradas)
    /\ avisosDescricaoVazia st' = avisosDescricaoVazia st ++ avisos
    /\ map (fun a => VNumber (number_of_nat (fst a))) avisos
       = map ID (filter (fun p => vazio (Descricao p)) novos)
    /\ descricoesInferidas st' = descricoesInferidas st + inferidas
    /\ inferidas
       <= length (filter (fun p => negb (vazio (Descricao p))) novos).
Proof.
  induction entradas as [| e resto IH]; intros index st.
  - exists st, [], [], [], 0. cbn [filter length map].
    rewrite !app_nil_r, !Nat.add_0_r. repeat split; reflexivity || lia.
  - destruct (v1_passo_completo mapa total index e st) as (st1 & l1 & H1 & Hcase).
    destruct (IH (S index) st1)
      as (st2 & l2 & novos & avisos & inferidas & H2 & Hp2 & Hs2 & Hf2 & He2
          & Hn2 & Ha2 & Hm2 & Hd2 & Hi2).
    assert (Hrun : iniciar_laco mapa total index (e :: resto) st
                   = (Return st2, l1 ++ l2)).
    { cbn [iniciar_laco]. eapply bind_step; eassumption. }
    destruct Hcase as [(r & p & l0 & inf1 & -> & Hc & Hid & Hp & Hs & Hf & He
                        & Ha & Hd & Hi)
                      | (Hinv & Hp & Hs & Hf & He & Ha & Hd)].
    + assert (Hval : sombreado r = false)
        by (eapply v1_converterProduto_sem_sombra; exact Hc).
      exists st2, (l1 ++ l2), (p :: novos),
        ((if vazio (Descricao p) then [aviso_de index p] else []) ++ avisos),
        (inf1 + inferidas).
      split; [exact Hrun |].
      cbn [filter entrada_invalida]. rewrite Hval. cbn [negb length].
      rewrite Hp2, Hs2, Hf2, He2, Ha2, Hd2, Hp, Hs, Hf, He, Ha, Hd.
      rewrite <- !app_assoc. cbn [app]. rewrite map_app, Hm2.
      repeat split; try lia.
      * destruct (vazio (Descricao p)); cbn [map app fst aviso_de];
          [rewrite Hid |]; reflexivity.
      * destruct (vazio (Descricao p)); cbn [negb length]; lia.
    + exists st2, (l1 ++ l2), novos, avisos, inferidas.
      split; [exact Hrun |].
      cbn [filter]. rewrite Hinv. cbn [negb length].
      rewrite Hp2, Hs2, Hf2, He2, Ha2, Hd2, Hp, Hs, Hf, He, Ha, Hd.
      repeat split; try lia; assumption.
Qed.

End Facts.

(** X14 — every run of the loop of [iniciar] returns. It fails exactly on
    the entries that are not row objects and on the rows with a column named
    [hasOwnProperty], with one error message for each, and gives one record
    for every other row. *)
Theorem laco_converte_as_linhas_validas `{Runtime} :
  forall entradas mapa,
  exists st log,
    V1.iniciar_processar entradas mapa = (Return st, log)
    /\ falhas st = length (filter entrada_invalida entradas)
    /\ length (erros st) = falhas st
    /\ sucessos st
       = length (filter (fun e => negb (entrada_invalida e)) entradas)
    /\ length (produtosNovos st) = sucessos st.
Proof.
  intros entradas mapa. unfold iniciar_processar.
  destruct (v1_laco_completo mapa (length entradas) entradas 0 estado_inicial)
    as (st & log & novos & avisos & inferidas & Hrun & Hp & Hs & Hf & He & Hn & _).
  exists st, log. split; [exact Hrun |].
  cbn [produtosNovos sucessos falhas erros estado_inicial app length] in *.
  rewrite Hp, Hs, Hf, He. repeat split; lia.
Qed.

(** The sample row with a code without space and a blank description
    gives a record with an empty Descrição. *)
Lemma v1_linha_sem_nada `{Runtime} :
  exists p l0,
    V1.converterProduto linha_sem_nada mapa_vazio 0 = (Return p, l0)
    /\ Codigo p = texto "77"
    /\ Descricao p = VString [].
Proof.
  assert (Hs : sombreado linha_sem_nada = false) by reflexivity.
  destruct (v1_converterProduto_resumo linha_sem_nada mapa_vazio 0 Hs)
    as (p & Hp & Hcod & Hdesc & _).
  exists p. eexists. split; [exact Hp |].
  split; [rewrite Hcod | rewrite Hdesc]; vm_compute; reflexivity.
Qed.

(** X15 — here a record can be left with a blank Descrição: the row with
    code [77] and a description of one space gives one, and it is listed.
    In every run the list [avisosDescricaoVazia] names exactly the records
    with a blank Descrição, in order and by the position of their row; a
    record counted in [descricoesInferidas] has a Descrição that is not
    blank, so the two together never exceed the number of records. *)
Theorem avisos_sao_os_registos_sem_descricao `{Runtime} :
  (forall entradas mapa,
   exists st log,
     V1.iniciar_processar entradas mapa = (Return st, log)
     /\ map (fun a => VNumber (number_of_nat (fst a))) (avisosDescricaoVazia st)
        = map ID (filter (fun p => vazio (Descricao p)) (produtosNovos st))
     /\ descricoesInferidas st
        <= length (filter (fun p => negb (vazio (Descricao p)))
                          (produtosNovos st))
     /\ length (avisosDescricaoVazia st) + descricoesInferidas st
        <= length (produtosNovos st))
  /\ (exists st log p,
        V1.iniciar_processar [Row linha_sem_nada] mapa_vazio = (Return st, log)
        /\ produtosNovos st = [p]
        /\ vazio (Descricao p) = true
        /\ avisosDescricaoVazia st = [(1, texto "77")]
        /\ descricoesInferidas st = 0).
Proof.
  split.
  - intros entradas mapa. unfold iniciar_processar.
    destruct (v1_laco_completo mapa (length entradas) entradas 0 estado_inicial)
      as (st & log & novos & avisos & inferidas & Hrun & Hp & _ & _ & _ & _
          & Ha & Hm & Hd & Hi).
    exists st, log. split; [exact Hrun |].
    cbn [produtosNovos avisosDescricaoVazia descricoesInferidas estado_inicial
         app] in *.
    rewrite Hp, Ha, Hd. cbn [Nat.add].
    split; [exact Hm |]. split; [exact Hi |].
    pose proof (V2Props.filter_complemento (fun p => vazio (Descricao p)) novos)
      as Hc.
    apply (f_equal (@length _)) in Hm. rewrite !length_map in Hm. lia.
  - destruct v1_linha_sem_nada as (p & l0 & Hc & Hcod & Hdesc).
    destruct (v1_passo_completo mapa_vazio 1 0 (Row linha_sem_nada)
                estado_inicial)
      as (st & l & Hpasso
          & [(r & p' & l0' & inf & Heq & Hc' & _ & Hp & _ & _ & _ & Ha & Hd & Hi)
            | (Hinv & _)]);
      [| discriminate].
    inversion Heq; subst r. rewrite Hc in Hc'. inversion Hc'; subst p' l0'.
    exists st, (l ++ []), p. split.
    { unfold iniciar_processar. cbn [length iniciar_laco].
      eapply bind_step; [exact Hpasso | reflexivity]. }
    rewrite Hdesc in Ha, Hi.
    cbn [produtosNovos avisosDescricaoVazia descricoesInferidas estado_inicial
         app] in Hp, Ha, Hd.
    split; [exact Hp |].
    split; [rewrite Hdesc; reflexivity |].
    split.
    + rewrite Ha. unfold aviso_de. rewrite Hcod. reflexivity.
    + rewrite Hd. cbn in Hi. lia.
Qed.

End V1Laco.

(* ================================================================== *)
(** * The numeric columns *)
(* ================================================================== *)

Module Numericos.
Import JS Layout Corrigido Spec JSFacts CorrigidoFacts.
Import V2Extracao V2Conversao V1Conversao SimplesFacts.
Local Open Scope js_scope.

Section Facts.
Context `{Runtime}.

Lemma numero_ou_padrao_valido valor :
  numero_valido (numero_ou_padrao valor (VNumber (Finite 0))).
Proof.
  unfold numero_ou_padrao, numero_valido.
  destruct (is_undefined valor || is_null valor || is_empty_string valor);
    [eexists; split; reflexivity |].
  destruct valor as [| | s | n].
  - destruct (isNaN _) eqn:E; eexists; split; try reflexivity; exact E.
  - destruct (isNaN _) eqn:E; eexists; split; try reflexivity; exact E.
  - destruct (isNaN _) eqn:E; eexists; split; try reflexivity; exact E.
  - destruct (isNaN n) eqn:E; eexists; split; try reflexivity; exact E.
Qed.

Lemma numero_ou_padrao_simples_valido valor :
  numero_valido (numero_ou_padrao_simples valor (VNumber (Finite 0))).
Proof.
  unfold numero_ou_padrao_simples, numero_valido.
  destruct (is_undefined valor || is_null valor || is_empty_string valor);
    [eexists; split; reflexivity |].
  destruct valor as [| | s | n].
  - destruct (isNaN _) eqn:E; eexists; split; try reflexivity; exact E.
  - destruct (isNaN _) eqn:E; eexists; split; try reflexivity; exact E.
  - destruct (isNaN _) eqn:E; eexists; split; try reflexivity; exact E.
  - destruct (isNaN n) eqn:E; eexists; split; try reflexivity; exact E.
Qed.

Lemma v2_converterProduto_numeros obj mapa index p log :
  V2.converterProduto obj mapa index = (Return p, log) ->
  Preco p =
    numero_ou_padrao
      (campo_lido obj (mapa_precoVarejo mapa)
                  [js "Preço Varejo"; js "Preco Varejo"]) V2.zero
  /\ Estoque p =
       numero_ou_padrao
         (campo_lido obj (mapa_estoque mapa)
                     [js "Saldo Estoque"; js "Estoque"]) V2.zero
  /\ PrecoDeCusto p =
       numero_ou_padrao
         (campo_lido obj (mapa_precoCompra mapa)
                     [js "Preço Compra"; js "Preco Compra"]) V2.zero
  /\ PrecoDeCompra p =
       numero_ou_padrao
         (campo_lido obj (mapa_precoCompra mapa)
                     [js "Preço Compra"; js "Preco Compra"]) V2.zero.
Proof.
  intros Hp. pose proof (v2_converterProduto_sem_sombra _ _ _ _ _ Hp) as Hs.
  destruct (extrairDescricao_total obj mapa index Hs) as (d & l & Hd).
  revert Hp. unfold campo_lido, V2.converterProduto. cbv zeta.
  rewrite !(obterValorSeguro_sem_sombra _ _ _ Hs).
  rewrite !bind_ret_l, Hd.
  erewrite try_catch_bind_step.
  2:{ rewrite estaVazio_ret, bind_ret_l, descricao_ou_padrao.
      eapply bind_step_silent; [reflexivity |].
      repeat (rewrite bind_ret_l || rewrite estaVazio_ret
              || rewrite parseNumero_ret).
      reflexivity. }
  intros Hp. inversion Hp; subst p.
  cbn [Preco Estoque PrecoDeCusto PrecoDeCompra]. repeat split; reflexivity.
Qed.

Lemma v1_converterProduto_numeros obj mapa index p log :
  V1.converterProduto obj mapa index = (Return p, log) ->
  Preco p =
    numero_ou_padrao
      (campo_lido obj (mapa_precoVarejo mapa)
                  [js "Preço Varejo"; js "Preco Varejo"]) V1.zero
  /\ Estoque p =
       numero_ou_padrao
         (campo_lido obj (mapa_estoque mapa)
                     [js "Saldo Estoque"; js "Estoque"]) V1.zero
  /\ PrecoDeCusto p =
       numero_ou_padrao
         (campo_lido obj (mapa_precoCompra mapa)
                     [js "Preço Compra"; js "Preco Compra"]) V1.zero
  /\ PrecoDeCompra p =
       numero_ou_padrao
         (campo_lido obj (mapa_precoCompra mapa)
                     [js "Preço Compra"; js "Preco Compra"]) V1.zero.
Proof.
  intros Hp. pose proof (v1_converterProduto_sem_sombra _ _ _ _ _ Hp) as Hs.
  revert Hp. unfold campo_lido, V1.converterProduto. cbv zeta.
  rewrite !(obterValorSeguro_sem_sombra _ _ _ Hs).
  rewrite !bind_ret_l, estaVazio_ret, bind_ret_l, inferir_ret.
  set (catalogo := valorSeguro obj (ou (mapa_catalogo mapa) _) _).
  set (codigo := if truthy _ then _ else _).
  set (descricao := valorSeguro obj (ou (mapa_descricao mapa) _) _).
  destruct (infere_do_codigo descricao codigo) eqn:E.
  - rewrite bind_ret_l.
    rewrite (inferencia_ret index catalogo codigo (infere_tem_espaco _ _ E)).
    erewrite try_catch_bind_silent.
    2:{ repeat (rewrite bind_ret_l || rewrite estaVazio_ret
                || rewrite parseNumero_ret).
        reflexivity. }
    intros Hp. inversion Hp; subst p.
    cbn [Preco Estoque PrecoDeCusto PrecoDeCompra]. repeat split; reflexivity.
  - repeat (rewrite bind_ret_l || rewrite estaVazio_ret
            || rewrite parseNumero_ret).
    intros Hp. inversion Hp; subst p.
    cbn [Preco Estoque PrecoDeCusto PrecoDeCompra]. repeat split; reflexivity.
Qed.

Lemma simples_converterProduto_numeros produtoAtual p log :
  Simples.converterProduto produtoAtual = (Return p, log) ->
  Preco p =
    numero_ou_padrao_simples
      (Simples.prop produtoAtual (js "Preço Varejo")) Simples.zero
  /\ Estoque p =
       numero_ou_padrao_simples
         (Simples.prop produtoAtual (js "Saldo Estoque")) Simples.zero
  /\ PrecoDeCusto p =
       numero_ou_padrao_simples
         (Simples.prop produtoAtual (js "Preço Compra")) Simples.zero
  /\ PrecoDeCompra p =
       numero_ou_padrao_simples
         (Simples.prop produtoAtual (js "Preço Compra")) Simples.zero.
Proof.
  intros Hp.
  destruct (Simples.entry_truthy produtoAtual) eqn:Ht.
  2:{ rewrite simples_converterProduto_invalido in Hp by exact Ht.
      discriminate. }
  destruct (truthy (Simples.obterValorSeguro produtoAtual (js "Código")
                      (VString []))) eqn:Hc.
  2:{ rewrite simples_converterProduto_sem_codigo in Hp by assumption.
      discriminate. }
  revert Hp. unfold Simples.converterProduto. rewrite Ht, Hc. cbn [negb].
  cbv zeta. rewrite bind_ret_l.
  destruct (truthy (Simples.obterValorSeguro produtoAtual (js "Descrição")
                      (VString []))); cbn [negb].
  - repeat (rewrite bind_ret_l || rewrite simples_parseNumero_ret).
    intros Hp. inversion Hp; subst p.
    cbn [Preco Estoque PrecoDeCusto PrecoDeCompra]. repeat split; reflexivity.
  - unfold console_warn, emit.
    erewrite V1Conversao.try_catch_bind_silent.
    2:{ repeat (rewrite bind_ret_l || rewrite simples_parseNumero_ret).
        reflexivity. }
    intros Hp. inversion Hp; subst p.
    cbn [Preco Estoque PrecoDeCusto PrecoDeCompra]. repeat split; reflexivity.
Qed.

End Facts.

(** X25 — in every record of the three converters each of the columns
    Preço, Estoque, Preço de custo and Preço de compra is what [parseNumero]
    gives, with default 0, for the cell read for it (the retail price, the
    stock, and the purchase price for the last two), and so is a number
    that is not NaN.  It is 0 when what is read is missing, null, the empty
    string (which, in conversor-final-corrigido.js and
    conversor-final-corrigido-v2.js, is what a blank cell is read as), NaN,
    or a text that [Number] cannot read.  The last three parts say what the
    reads and the parsers return in these terms. *)
Theorem colunas_numericas_sao_numeros `{Runtime} :
  (forall obj mapa index p log,
      V2.converterProduto obj mapa index = (Return p, log) ->
      Preco p =
        numero_ou_padrao
          (campo_lido obj (mapa_precoVarejo mapa)
                      [js "Preço Varejo"; js "Preco Varejo"])
          (VNumber (Finite 0))
      /\ Estoque p =
           numero_ou_padrao
             (campo_lido obj (mapa_estoque mapa)
                         [js "Saldo Estoque"; js "Estoque"])
             (VNumber (Finite 0))
      /\ PrecoDeCusto p =
           numero_ou_padrao
             (campo_lido obj (mapa_precoCompra mapa)
                         [js "Preço Compra"; js "Preco Compra"])
             (VNumber (Finite 0))
      /\ PrecoDeCompra p = PrecoDeCusto p
      /\ colunas_numericas p)
  /\ (forall obj mapa index p log,
         V1.converterProduto obj mapa index = (Return p, log) ->
         Preco p =
           numero_ou_padrao
             (campo_lido obj (mapa_precoVarejo mapa)
                         [js "Preço Varejo"; js "Preco Varejo"])
             (VNumber (Finite 0))
         /\ Estoque p =
              numero_ou_padrao
                (campo_lido obj (mapa_estoque mapa)
                            [js "Saldo Estoque"; js "Estoque"])
                (VNumber (Finite 0))
         /\ PrecoDeCusto p =
              numero_ou_padrao
                (campo_lido obj (mapa_precoCompra mapa)
                            [js "Preço Compra"; js "Preco Compra"])
                (VNumber (Finite 0))
         /\ PrecoDeCompra p = PrecoDeCusto p
         /\ colunas_numericas p)
  /\ (forall produtoAtual p log,
         Simples.converterProduto produtoAtual = (Return p, log) ->
         Preco p =
           numero_ou_padrao_simples
             (Simples.prop produtoAtual (js "Preço Varejo"))
             (VNumber (Finite 0))
         /\ Estoque p =
              numero_ou_padrao_simples
                (Simples.prop produtoAtual (js "Saldo Estoque"))
                (VNumber (Finite 0))
         /\ PrecoDeCusto p =
              numero_ou_padrao_simples
                (Simples.prop produtoAtual (js "Preço Compra"))
                (VNumber (Finite 0))
         /\ PrecoDeCompra p = PrecoDeCusto p
         /\ colunas_numericas p)
  /\ (forall valor,
         valor = VUndefined \/ valor = VNull \/ valor = VString []
         \/ valor = VNumber NaN
         \/ (exists s, valor = VString s
                       /\ StringToNumber
                            (replace_first 44 46 (remove_all 46 s)) = NaN) ->
         numero_ou_padrao valor (VNumber (Finite 0)) = VNumber (Finite 0))
  /\ (forall valor,
         valor = VUndefined \/ valor = VNull \/ valor = VString []
         \/ valor = VNumber NaN
         \/ (exists s, valor = VString s
                       /\ StringToNumber (replace_first 44 46 s) = NaN) ->
         numero_ou_padrao_simples valor (VNumber (Finite 0))
         = VNumber (Finite 0))
  /\ (forall obj campo nomes,
         hasOwn obj (js "hasOwnProperty") = false ->
         obterValorSeguro obj (ou campo nomes) (VString [])
         = (Return (campo_lido obj campo nomes), []))
  /\ (forall valor valorPadrao,
         parseNumero valor valorPadrao
         = (Return (numero_ou_padrao valor valorPadrao), []))
  /\ (forall valor valorPadrao,
         Simples.parseNumero valor valorPadrao
         = (Return (numero_ou_padrao_simples valor valorPadrao), [])).
Proof.
  unfold colunas_numericas.
  split; [| split; [| split; [| split; [| split; [| split; [| split]]]]]];
    [| | | | | intros obj campo nomes Hs;
               apply obterValorSeguro_sem_sombra; exact Hs
     | intros valor d; rewrite parseNumero_ret; reflexivity
     | intros valor d; rewrite simples_parseNumero_ret; reflexivity].
  - intros obj mapa index p log Hp.
    destruct (v2_converterProduto_numeros _ _ _ _ _ Hp) as (Ha & Hb & Hc & Hd).
    change V2.zero with (VNumber (Finite 0)) in *.
    rewrite Hd, Hc, Ha, Hb.
    repeat split; apply numero_ou_padrao_valido.
  - intros obj mapa index p log Hp.
    destruct (v1_converterProduto_numeros _ _ _ _ _ Hp) as (Ha & Hb & Hc & Hd).
    change V1.zero with (VNumber (Finite 0)) in *.
    rewrite Hd, Hc, Ha, Hb.
    repeat split; apply numero_ou_padrao_valido.
  - intros produtoAtual p log Hp.
    destruct (simples_converterProduto_numeros _ _ _ Hp) as (Ha & Hb & Hc & Hd).
    change Simples.zero with (VNumber (Finite 0)) in *.
    rewrite Hd, Hc, Ha, Hb.
    repeat split; apply numero_ou_padrao_simples_valido.
  - intros valor [-> | [-> | [-> | [-> | (s & -> & Hnan)]]]]; try reflexivity.
    unfold numero_ou_padrao.
    destruct (is_undefined _ || is_null _ || is_empty_string _);
      [reflexivity |].
    cbn [ToString]. rewrite Hnan. reflexivity.
  - intros valor [-> | [-> | [-> | [-> | (s & -> & Hnan)]]]]; try reflexivity.
    unfold numero_ou_padrao_simples.
    destruct (is_undefined _ || is_null _ || is_empty_string _);
      [reflexivity |].
    cbn [ToString]. rewrite Hnan. reflexivity.
Qed.

Lemma colunas_numericas_sao_numeros_witness :
  (exists p l,
      V2.converterProduto (H := Latin1.runtime) linha_precos_em_texto
        mapa_vazio 0 = (Return p, l)
      /\ colunas_numericas p
      /\ Preco p = VNumber (Finite 0)
      /\ Estoque p = VNumber (Finite 12)
      /\ PrecoDeCusto p = VNumber (Finite (7 # 2))
      /\ PrecoDeCompra p = VNumber (Finite (7 # 2)))
  /\ (exists p l,
         V1.converterProduto (H := Latin1.runtime) linha_precos_em_texto
           mapa_vazio 0 = (Return p, l)
         /\ colunas_numericas p
         /\ Preco p = VNumber (Finite 0))
  /\ (exists p l,
         Simples.converterProduto (H := Latin1.runtime)
           (Row linha_precos_em_texto) = (Return p, l)
         /\ colunas_numericas p
         /\ Preco p = VNumber (Finite 0))
  /\ numero_ou_padrao (H := Latin1.runtime) (texto "a combinar")
       (VNumber (Finite 0)) = VNumber (Finite 0).
Proof.
  split; [| split; [| split]].
  - destruct (V2.converterProduto (H := Latin1.runtime) linha_precos_em_texto
                mapa_vazio 0) as [[p | e] l] eqn:E;
      [| vm_compute in E; discriminate].
    destruct (proj1 (@colunas_numericas_sao_numeros Latin1.runtime)
                linha_precos_em_texto mapa_vazio 0 p l E)
      as (Ha & Hb & Hc & Hd & Hn).
    exists p, l. split; [reflexivity |]. split; [exact Hn |].
    split; [rewrite Ha; vm_compute; reflexivity |].
    split; [rewrite Hb; vm_compute; reflexivity |].
    split; [| rewrite Hd]; rewrite Hc; vm_compute; reflexivity.
  - destruct (V1.converterProduto (H := Latin1.runtime) linha_precos_em_texto
                mapa_vazio 0) as [[p | e] l] eqn:E;
      [| vm_compute in E; discriminate].
    destruct (proj1 (proj2 (@colunas_numericas_sao_numeros Latin1.runtime))
                linha_precos_em_texto mapa_vazio 0 p l E)
      as (Ha & _ & _ & _ & Hn).
    exists p, l. split; [reflexivity |]. split; [exact Hn |].
    rewrite Ha. vm_compute. reflexivity.
  - destruct (Simples.converterProduto (H := Latin1.runtime)
                (Row linha_precos_em_texto)) as [[p | e] l] eqn:E;
      [| vm_compute in E; discriminate].
    destruct (proj1 (proj2 (proj2 (@colunas_numericas_sao_numeros
                                     Latin1.runtime)))
                (Row linha_precos_em_texto) p l E)
      as (Ha & _ & _ & _ & Hn).
    exists p, l. split; [reflexivity |]. split; [exact Hn |].
    rewrite Ha. vm_compute. reflexivity.
  - apply (proj1 (proj2 (proj2 (proj2 (@colunas_numericas_sao_numeros
                                         Latin1.runtime))))).
    right. right. right. right. exists (js "a combinar").
    split; [reflexivity | vm_compute; reflexivity].
Defined.

End Numericos.
